(** * GitLab platform layer of claude-code-action: a shallow embedding

    The TypeScript sources under [src/platforms/gitlab], [src/entrypoints]
    and [src/mcp] are embedded as functions of an explicit world: the
    process environment is a finite map, the network is the list of
    outcomes the transport will deliver, and console output, timers and
    written files are recorded in the world. *)

From Stdlib Require Import ZArith Lia Ascii String List.
From stdpp Require Import base option strings gmap list pretty.
Import ListNotations.

Local Open Scope string_scope.
Local Open Scope Z_scope.
Local Open Scope list_scope.

(** ** JavaScript values *)

(** A JS [number] as far as this program produces one: an integer or
    [NaN] (the result of [parseInt] on a string with no digits). *)
Inductive number : Type :=
  | NaN
  | Num (z : Z).

(** The result of [JSON.parse]; [undefined] is [None] in [option Json]. *)
#[local] Set Warnings "-register-all".
Inductive Json : Type :=
  | JNull
  | JBool (b : bool)
  | JNum (n : Z)
  | JStr (s : string)
  | JArr (items : list Json)
  | JObj (fields : list (string * Json)).

(** Thrown values. Every value this program throws or catches is an
    [Error] instance; [message] is its [.message]. *)
Inductive exn : Type :=
  | Error (msg : string)
  | TypeError (msg : string)
  | SyntaxError (msg : string).

Definition message (e : exn) : string :=
  match e with
  | Error m | TypeError m | SyntaxError m => m
  end.

(** ** HTTP *)

Record Response : Type := mkResponse {
  status : Z;
  body : string;            (* what [response.text()] resolves to *)
  parsed : option Json      (* what [response.json()] resolves to; [None]: the body is not JSON *)
}.

(** [response.ok]: the status is in the range 200-299. *)
Definition ok (r : Response) : bool :=
  (200 <=? status r) && (status r <=? 299).

Record Request : Type := mkRequest {
  url : string;
  method : option string;              (* [None]: fetch's default, GET *)
  headers : gmap string string;
  payload : option string              (* the request body *)
}.

(** What one call of [fetch] comes to: a response of any status, or a
    rejection (DNS, connection reset, ...). *)
Inductive FetchOutcome : Type :=
  | Delivered (r : Response)
  | Rejected (e : exn).

(** ** The world outside the process *)

Record World : Type := mkWorld {
  network : list FetchOutcome;    (* outcomes still to be delivered, in order *)
  requests : list Request;        (* requests issued so far, oldest first *)
  timers : list Z;                (* delays slept through, in ms, oldest first *)
  stdout : list string;           (* console.log lines *)
  stderr : list string;           (* console.error lines *)
  files : gmap string string      (* files written with writeFile *)
}.

(** [process.env] *)
Abbreviation Env := (gmap string string).

(** ** Asynchronous, fallible computations *)

Inductive Completion (A : Type) : Type :=
  | Return (a : A)
  | Throw (e : exn).
Arguments Return {A} a.
Arguments Throw {A} e.

Definition Async (A : Type) : Type := World -> Completion A * World.

Definition ret {A} (a : A) : Async A := fun w => (Return a, w).

Definition throw {A} (e : exn) : Async A := fun w => (Throw e, w).

Definition bind {A B} (m : Async A) (k : A -> Async B) : Async B :=
  fun w =>
    match m w with
    | (Return a, w') => k a w'
    | (Throw e, w') => (Throw e, w')
    end.

(** [try { m } catch (error) { h error }] *)
Definition try_catch {A} (m : Async A) (h : exn -> Async A) : Async A :=
  fun w =>
    match m w with
    | (Return a, w') => (Return a, w')
    | (Throw e, w') => h e w'
    end.

Notation "x <- m ;; k" := (bind m (fun x => k))
  (at level 100, m at next level, right associativity).
Notation "m ;;; k" := (bind m (fun _ => k))
  (at level 100, right associativity).

(** ** Primitives *)

Definition console_log (line : string) : Async unit :=
  fun w => (Return tt,
            mkWorld (network w) (requests w) (timers w)
                    (stdout w ++ [line]) (stderr w) (files w)).

Definition console_error (line : string) : Async unit :=
  fun w => (Return tt,
            mkWorld (network w) (requests w) (timers w)
                    (stdout w) (stderr w ++ [line]) (files w)).

Definition writeFile (path content : string) : Async unit :=
  fun w => (Return tt,
            mkWorld (network w) (requests w) (timers w)
                    (stdout w) (stderr w) (<[path := content]> (files w))).

(** [await new Promise(resolve => setTimeout(resolve, ms))] *)
Definition sleep (ms : Z) : Async unit :=
  fun w => (Return tt,
            mkWorld (network w) (requests w) (timers w ++ [ms])
                    (stdout w) (stderr w) (files w)).

(** [fetch]: the request is recorded and the next outcome of the network
    is delivered. A network with nothing left to deliver rejects. *)
Definition fetch (rq : Request) : Async Response :=
  fun w =>
    let sent := mkWorld (tl (network w)) (requests w ++ [rq]) (timers w)
                        (stdout w) (stderr w) (files w) in
    match network w with
    | Delivered r :: _ => (Return r, sent)
    | Rejected e :: _ => (Throw e, sent)
    | [] => (Throw (TypeError "fetch failed"), sent)
    end.

(** [response.json()] *)
Definition json (r : Response) : Async Json :=
  match parsed r with
  | Some v => ret v
  | None => throw (SyntaxError "Unexpected token in JSON")
  end.

(** [response.text()] *)
Definition text (r : Response) : Async string := ret (body r).

(** ** Truthiness and [||] on environment values *)

(** [Some s] when the value is truthy, that is a non-empty string. *)
Definition truthy (v : option string) : option string :=
  match v with
  | Some s => if decide (s = "") then None else Some s
  | None => None
  end.

(** JS [a || b] *)
Definition js_or (a b : option string) : option string :=
  match truthy a with
  | Some _ => a
  | None => b
  end.
Infix "|||" := js_or (at level 50, left associativity).

(** [a || "literal"] *)
Definition or_default (a : option string) (d : string) : string :=
  default d (truthy a).

Definition nl : string := String "010"%char "".

(** ** src/platforms/gitlab/token.ts *)

Definition no_token_message : string :=
  "No GitLab token found. Please provide one of:" +:+ nl +:+
  "- GITLAB_TOKEN environment variable" +:+ nl +:+
  "- GITLAB_ACCESS_TOKEN environment variable" +:+ nl +:+
  "- PRIVATE_TOKEN environment variable" +:+ nl +:+
  "Or ensure CI_JOB_TOKEN is available in GitLab CI/CD environment".

Definition getGitLabToken (env : Env) : Async string :=
  let explicitToken :=
    env !! "GITLAB_TOKEN" ||| env !! "GITLAB_ACCESS_TOKEN" ||| env !! "PRIVATE_TOKEN" in
  match truthy explicitToken with
  | Some token =>
      console_log "Using explicit GitLab token" ;;;
      ret token
  | None =>
      let ciJobToken := env !! "CI_JOB_TOKEN" in
      match truthy ciJobToken with
      | Some token =>
          if decide (env !! "GITLAB_CI" = Some "true") then
            console_log "Using GitLab CI Job Token (limited permissions)" ;;;
            ret token
          else throw (Error no_token_message)
      | None => throw (Error no_token_message)
      end
  end.

(** [console.error(label, error)] is recorded as the label followed by the
    message of the error. *)
Definition validateGitLabToken (token baseUrl : string) : Async bool :=
  try_catch
    (response <- fetch (mkRequest (baseUrl +:+ "/user") None
                                  {[ "PRIVATE-TOKEN" := token ]} None) ;;
     ret (ok response))
    (fun error =>
       console_error ("Token validation failed: " +:+ message error) ;;;
       ret false).

(** ** Numbers and strings as the runtime converts them *)

Definition is_space (c : ascii) : bool :=
  let n := nat_of_ascii c in
  ((9 <=? n)%nat && (n <=? 13)%nat) || (n =? 32)%nat.

Fixpoint trim_start (s : string) : string :=
  match s with
  | String c r => if is_space c then trim_start r else s
  | "" => ""
  end.

(** The value of a digit in radixes up to 36. *)
Definition digit_value (c : ascii) : option Z :=
  let n := Z.of_nat (nat_of_ascii c) in
  if (48 <=? n) && (n <=? 57) then Some (n - 48)
  else if (97 <=? n) && (n <=? 122) then Some (n - 87)
  else if (65 <=? n) && (n <=? 90) then Some (n - 55)
  else None.

(** The longest prefix of digits of the radix, read as a number;
    [acc] is [None] until a digit has been read. *)
Fixpoint read_digits (radix : Z) (s : string) (acc : option Z) : option Z * string :=
  match s with
  | String c r =>
      match digit_value c with
      | Some d =>
          if d <? radix
          then read_digits radix r (Some (default 0 acc * radix + d))
          else (acc, s)
      | None => (acc, s)
      end
  | "" => (acc, s)
  end.

Definition strip_sign (s : string) : Z * string :=
  match s with
  | String "-" r => (-1, r)
  | String "+" r => (1, r)
  | _ => (1, s)
  end.

(** [parseInt(s)] with no radix argument: leading white space, a sign, a
    [0x] prefix for radix 16, then the longest run of digits. White space
    is ASCII white space, and the result is not rounded to a double. *)
Definition parseInt (s : string) : number :=
  let '(sign, s2) := strip_sign (trim_start s) in
  let '(radix, s3) :=
    match s2 with
    | String "0" (String "x" r) | String "0" (String "X" r) => (16, r)
    | _ => (10, s2)
    end in
  match fst (read_digits radix s3 None) with
  | Some v => Num (sign * v)
  | None => NaN
  end.

(** A number inside a template literal (below 1e21 in magnitude). *)
Definition number_to_string (n : number) : string :=
  match n with
  | NaN => "NaN"
  | Num z => pretty z
  end.

Definition bool_to_string (b : bool) : string :=
  if b then "true" else "false".

(** Truthiness of an optional number: neither [undefined], [0] nor [NaN]. *)
Definition truthy_number (n : option number) : option number :=
  match n with
  | Some (Num z) => if decide (z = 0) then None else n
  | _ => None
  end.

(** [`${n || ""}`] *)
Definition number_or_empty (n : option number) : string :=
  match truthy_number n with
  | Some m => number_to_string m
  | None => ""
  end.

(** [String.prototype.startsWith] and [String.prototype.includes] *)
Fixpoint startsWith (s p : string) : bool :=
  match p, s with
  | "", _ => true
  | String a p', String b s' => if decide (a = b) then startsWith s' p' else false
  | String _ _, "" => false
  end.

Fixpoint includes (s p : string) : bool :=
  startsWith s p ||
  match s with
  | String _ s' => includes s' p
  | "" => false
  end.

Definition hex_digit (n : N) : ascii :=
  ascii_of_N (if (n <? 10)%N then 48 + n else 55 + n)%N.

Definition is_uri_unreserved (c : ascii) : bool :=
  let n := nat_of_ascii c in
  ((48 <=? n) && (n <=? 57) || (65 <=? n) && (n <=? 90) || (97 <=? n) && (n <=? 122))%nat
  || bool_decide (c ∈ ["-"; "_"; "."; "!"; "~"; "*"; "'"; "("; ")"]%char).

(** [encodeURIComponent] on the UTF-8 bytes of the string. *)
Fixpoint encodeURIComponent (s : string) : string :=
  match s with
  | "" => ""
  | String c r =>
      if is_uri_unreserved c then String c (encodeURIComponent r)
      else let n := N_of_ascii c in
           String "%" (String (hex_digit (n / 16)) (String (hex_digit (n mod 16))
             (encodeURIComponent r)))
  end.

(** ** JSON values as the program reads and writes them *)

Fixpoint lookup_field (key : string) (fields : list (string * Json)) : option Json :=
  match fields with
  | [] => None
  | (k, v) :: rest => if decide (k = key) then Some v else lookup_field key rest
  end.

(** [v.key] for the keys this program reads, none of which is a member of
    a prototype: a [TypeError] on [undefined] and [null], the own property
    of an object, [undefined] on anything else. *)
Definition prop (v : option Json) (key : string) : Completion (option Json) :=
  match v with
  | None =>
      Throw (TypeError ("Cannot read properties of undefined (reading '" +:+ key +:+ "')"))
  | Some JNull =>
      Throw (TypeError ("Cannot read properties of null (reading '" +:+ key +:+ "')"))
  | Some (JObj fields) => Return (lookup_field key fields)
  | Some _ => Return None
  end.

(** [v?.key] *)
Definition opt_prop (v : option Json) (key : string) : option Json :=
  match v with
  | Some (JObj fields) => lookup_field key fields
  | _ => None
  end.

Definition truthy_json (v : option Json) : bool :=
  match v with
  | None | Some JNull => false
  | Some (JBool b) => b
  | Some (JNum n) => negb (n =? 0)
  | Some (JStr s) => negb (String.eqb s "")
  | Some (JArr _) | Some (JObj _) => true
  end.

Definition dquote : ascii := "034"%char.
Definition backslash : ascii := "092"%char.

Definition hex_digit_lower (n : N) : ascii :=
  ascii_of_N (if (n <? 10)%N then 48 + n else 87 + n)%N.

(** One character inside a JSON string literal, as [JSON.stringify]
    writes it. *)
Definition escape_char (c : ascii) : string :=
  let n := N_of_ascii c in
  let esc x := String backslash x in
  if decide (c = dquote) then esc (String dquote "")
  else if decide (c = backslash) then esc (String backslash "")
  else if (n =? 8)%N then esc "b"
  else if (n =? 9)%N then esc "t"
  else if (n =? 10)%N then esc "n"
  else if (n =? 12)%N then esc "f"
  else if (n =? 13)%N then esc "r"
  else if (n <? 32)%N then
    esc ("u00" +:+ String (hex_digit_lower (n / 16))
                          (String (hex_digit_lower (n mod 16)) ""))
  else String c "".

Fixpoint escape (s : string) : string :=
  match s with
  | "" => ""
  | String c r => escape_char c +:+ escape r
  end.

Definition quote (s : string) : string :=
  String dquote (escape s +:+ String dquote "").

(** [JSON.stringify(v)] with no indentation. *)
Fixpoint JSON_stringify (v : Json) : string :=
  match v with
  | JNull => "null"
  | JBool b => bool_to_string b
  | JNum n => pretty n
  | JStr s => quote s
  | JArr items =>
      let fix go (l : list Json) : string :=
        match l with
        | [] => ""
        | x :: r =>
            JSON_stringify x +:+ match r with [] => "" | _ => "," +:+ go r end
        end in
      "[" +:+ go items +:+ "]"
  | JObj fields =>
      let fix go (l : list (string * Json)) : string :=
        match l with
        | [] => ""
        | (k, x) :: r =>
            quote k +:+ ":" +:+ JSON_stringify x
            +:+ match r with [] => "" | _ => "," +:+ go r end
        end in
      "{" +:+ go fields +:+ "}"
  end.

(** An object literal: a property whose value is [undefined] is left out
    by [JSON.stringify]. *)
Definition object_literal (fields : list (string * option Json)) : Json :=
  JObj (omap (fun '(k, v) => pair k <$> v) fields).

(** [String(v)], and the text of an array element inside [join]. *)
Fixpoint ToString (v : Json) : string :=
  match v with
  | JNull => "null"
  | JBool b => bool_to_string b
  | JNum n => pretty n
  | JStr s => s
  | JArr items =>
      let fix go (l : list Json) : string :=
        match l with
        | [] => ""
        | x :: r =>
            match x with JNull => "" | _ => ToString x end
            +:+ match r with [] => "" | _ => "," +:+ go r end
        end in
      go items
  | JObj _ => "[object Object]"
  end.

Fixpoint trim_end (s : string) : string :=
  match s with
  | "" => ""
  | String c r =>
      match trim_end r with
      | "" => if is_space c then "" else String c ""
      | r' => String c r'
      end
  end.

(** [Number(s)] on the integer literals of this model: the empty string is
    0, an optionally signed run of decimal digits is its value, anything
    else is [NaN]. *)
Definition StringToNumber (s : string) : number :=
  let t := trim_end (trim_start s) in
  if decide (t = "") then Num 0
  else
    let '(sign, digits) := strip_sign t in
    match read_digits 10 digits None with
    | (Some v, "") => Num (sign * v)
    | _ => NaN
    end.

Definition ToNumber (v : Json) : number :=
  match v with
  | JNull => Num 0
  | JBool b => Num (if b then 1 else 0)
  | JNum n => Num n
  | JStr s => StringToNumber s
  | JArr _ => StringToNumber (ToString v)
  | JObj _ => NaN
  end.

(** [v >= k] for a number [k] *)
Definition js_ge (v : Json) (k : Z) : bool :=
  match ToNumber v with
  | Num n => k <=? n
  | NaN => false
  end.

(** ** src/platforms/shared/types.ts *)

Inductive EventType : Type :=
  | merge_request
  | issue
  | pipeline
  | push.

Definition EventType_to_string (e : EventType) : string :=
  match e with
  | merge_request => "merge_request"
  | issue => "issue"
  | pipeline => "pipeline"
  | push => "push"
  end.

(** [repository]: the declared type of the three fields is [string]; the
    parser fills [fullName] through a non-null assertion only, so what
    is stored there at run time may be [undefined]. *)
Record Repository : Type := mkRepository {
  owner : string;
  name : string;
  fullName : option string
}.

Record Inputs : Type := mkInputs {
  prompt : string;
  triggerPhrase : string;
  assigneeTrigger : string;
  labelTrigger : string;
  baseBranch : option string;
  branchPrefix : string;
  useStickyComment : bool;
  useCommitSigning : bool;
  allowedBots : string
}.

(** The raw payload snapshot, one field per environment variable copied. *)
Record Payload : Type := mkPayload {
  pipeline_id : option string;
  project_id : option string;
  project_name : option string;
  project_namespace : option string;
  project_path : option string;
  (* iid, target_branch, source_branch, event_type *)
  payload_merge_request :
    option (option string * option string * option string * option string);
  commit_sha : option string;
  commit_ref : option string;
  user_login : option string;
  user_name : option string
}.

Record GitLabPlatformContext : Type := mkContext {
  runId : string;
  repository : Repository;
  actor : string;
  projectId : number;
  eventType : EventType;
  mergeRequestIid : option number;
  issueIid : option number;
  pipelineId : option number;
  payload_snapshot : Payload;
  inputs : Inputs
}.

(** ** src/platforms/gitlab/context.ts *)

Definition parseGitLabContext (env : Env) : Completion GitLabPlatformContext :=
  match truthy (env !! "CI_PROJECT_ID") with
  | None =>
      Throw (Error "CI_PROJECT_ID environment variable is required for GitLab context")
  | Some ci_project_id =>
      match truthy (env !! "CI_PROJECT_NAME"), truthy (env !! "CI_PROJECT_NAMESPACE") with
      | Some ci_project_name, Some ci_project_namespace =>
          let eventType :=
            match truthy (env !! "CI_MERGE_REQUEST_IID") with
            | Some _ => merge_request
            | None =>
                match truthy (env !! "CI_COMMIT_REF_NAME") with
                | Some _ =>
                    if decide (env !! "CI_COMMIT_REF_NAME"
                               ≠ env !! "CI_MERGE_REQUEST_TARGET_BRANCH_NAME")
                    then push
                    else pipeline
                | None => pipeline
                end
            end in
          Return {|
            runId := or_default (env !! "CI_JOB_ID" ||| env !! "CI_PIPELINE_ID") "unknown";
            repository := {|
              owner := ci_project_namespace;
              name := ci_project_name;
              fullName := env !! "CI_PROJECT_PATH"
            |};
            actor := or_default (env !! "GITLAB_USER_LOGIN" ||| env !! "GITLAB_USER_NAME")
                                "unknown";
            projectId := parseInt ci_project_id;
            eventType := eventType;
            mergeRequestIid := parseInt <$> truthy (env !! "CI_MERGE_REQUEST_IID");
            issueIid := None;
            pipelineId := parseInt <$> truthy (env !! "CI_PIPELINE_ID");
            payload_snapshot := {|
              pipeline_id := env !! "CI_PIPELINE_ID";
              project_id := env !! "CI_PROJECT_ID";
              project_name := env !! "CI_PROJECT_NAME";
              project_namespace := env !! "CI_PROJECT_NAMESPACE";
              project_path := env !! "CI_PROJECT_PATH";
              payload_merge_request :=
                match truthy (env !! "CI_MERGE_REQUEST_IID") with
                | Some _ =>
                    Some (env !! "CI_MERGE_REQUEST_IID",
                          env !! "CI_MERGE_REQUEST_TARGET_BRANCH_NAME",
                          env !! "CI_MERGE_REQUEST_SOURCE_BRANCH_NAME",
                          env !! "CI_MERGE_REQUEST_EVENT_TYPE")
                | None => None
                end;
              commit_sha := env !! "CI_COMMIT_SHA";
              commit_ref := env !! "CI_COMMIT_REF_NAME";
              user_login := env !! "GITLAB_USER_LOGIN";
              user_name := env !! "GITLAB_USER_NAME"
            |};
            inputs := {|
              prompt := or_default (env !! "PROMPT") "";
              triggerPhrase := or_default (env !! "TRIGGER_PHRASE") "@claude";
              assigneeTrigger := or_default (env !! "ASSIGNEE_TRIGGER") "";
              labelTrigger := or_default (env !! "LABEL_TRIGGER") "";
              baseBranch := env !! "BASE_BRANCH" ||| env !! "CI_MERGE_REQUEST_TARGET_BRANCH_NAME";
              branchPrefix := or_default (env !! "BRANCH_PREFIX") "claude/";
              useStickyComment := bool_decide (env !! "USE_STICKY_COMMENT" = Some "true");
              useCommitSigning := bool_decide (env !! "USE_COMMIT_SIGNING" = Some "true");
              allowedBots := or_default (env !! "ALLOWED_BOTS") ""
            |}
          |}
      | _, _ => Throw (Error "CI_PROJECT_NAME and CI_PROJECT_NAMESPACE are required")
      end
  end.

Definition isGitLabEnvironment (env : Env) : bool :=
  bool_decide (env !! "GITLAB_CI" = Some "true")
  || bool_decide (is_Some (truthy (env !! "CI_PROJECT_ID"))).

(** ** src/platforms/gitlab/api/config.ts *)

Definition GITLAB_API_URL (env : Env) : string :=
  or_default (env !! "GITLAB_API_URL") "https://gitlab.com/api/v4".

(** ** src/utils/retry.ts *)

Record RetryOptions : Type := mkRetryOptions {
  maxAttempts : nat;
  initialDelayMs : Z;
  maxDelayMs : Z;
  backoffFactor : Z
}.

(** Modelled from the spec: the retry loop of src/utils/retry.ts (see
    [retryWithBackoff] below). One attempt is made; when it fails and
    [more] attempts are left, the loop sleeps for [delay] and goes on with
    the delay multiplied and capped; when none is left the failure is
    rethrown as it is. *)
Fixpoint retry_loop {A} (operation : Async A) (options : RetryOptions)
    (more : nat) (delay : Z) : Async A :=
  try_catch operation
    (fun lastError =>
       match more with
       | O => throw lastError
       | S more' =>
           sleep delay ;;;
           retry_loop operation options more'
             (Z.min (delay * backoffFactor options) (maxDelayMs options))
       end).

(** Modelled from the spec: [retryWithBackoff] of src/utils/retry.ts, which
    is imported by the API client and by the file-operations server but is
    not among the sources. Section 4.1: invoke the operation; on failure,
    while fewer than [maxAttempts] attempts are consumed, sleep for the
    delay and retry; the delay starts at [initialDelayMs] and is multiplied
    by [backoffFactor] after every failed attempt, capped at [maxDelayMs];
    when all attempts are exhausted the last failure is propagated
    unchanged. [maxAttempts] is at least 1. *)
Definition retryWithBackoff {A} (operation : Async A) (options : RetryOptions) : Async A :=
  retry_loop operation options (pred (maxAttempts options)) (initialDelayMs options).

(** A synchronous completion inside an asynchronous function. *)
Definition lift {A} (c : Completion A) : Async A := fun w => (c, w).

(** ** src/platforms/gitlab/api/client.ts *)

Record GitLabApiClient : Type := mkClient {
  client_token : string;
  client_projectId : number;
  client_baseUrl : string
}.

(** The part of [RequestInit] that the client passes to [fetch]. *)
Record RequestInit : Type := mkInit {
  init_method : option string;
  init_body : option string;
  init_headers : option (gmap string string)
}.

Definition no_options : RequestInit := mkInit None None None.

Inductive EntityType : Type :=
  | entity_merge_request
  | entity_issue.

Definition client_policy : RetryOptions :=
  {| maxAttempts := 3; initialDelayMs := 1000; maxDelayMs := 5000; backoffFactor := 2 |}.

(** A retrier, as the client sees the function it imports. *)
Definition Retrier : Type := forall A : Type, Async A -> RetryOptions -> Async A.

(** [makeRequest], over the retrier that the module imports. *)
Definition makeRequest_with (retry : Retrier) (this : GitLabApiClient)
    (endpoint : string) (options : RequestInit) : Async Response :=
  let url := client_baseUrl this +:+ endpoint in
  response <- retry _
    (fetch {|
       url := url;
       method := init_method options;
       headers := default ∅ (init_headers options)
                  ∪ {[ "PRIVATE-TOKEN" := client_token this;
                       "Content-Type" := "application/json" ]};
       payload := init_body options
     |})
    client_policy ;;
  if negb (ok response) then
    errorText <- text response ;;
    throw (Error ("GitLab API error " +:+ pretty (status response) +:+ ": " +:+ errorText))
  else ret response.

Definition makeRequest : GitLabApiClient -> string -> RequestInit -> Async Response :=
  makeRequest_with (@retryWithBackoff).

Definition project_endpoint (this : GitLabApiClient) : string :=
  "/projects/" +:+ number_to_string (client_projectId this).

Definition getMergeRequest (this : GitLabApiClient) (iid : number) : Async Json :=
  response <- makeRequest this
    (project_endpoint this +:+ "/merge_requests/" +:+ number_to_string iid) no_options ;;
  json response.

Definition getIssue (this : GitLabApiClient) (iid : number) : Async Json :=
  response <- makeRequest this
    (project_endpoint this +:+ "/issues/" +:+ number_to_string iid) no_options ;;
  json response.

Definition createComment (this : GitLabApiClient) (entityId : number)
    (body : string) (entityType : EntityType) : Async Json :=
  let endpoint :=
    match entityType with
    | entity_merge_request =>
        project_endpoint this +:+ "/merge_requests/" +:+ number_to_string entityId +:+ "/notes"
    | entity_issue =>
        project_endpoint this +:+ "/issues/" +:+ number_to_string entityId +:+ "/notes"
    end in
  response <- makeRequest this endpoint
    {| init_method := Some "POST";
       init_body := Some (JSON_stringify (JObj [("body", JStr body)]));
       init_headers := None |} ;;
  json response.

Definition updateComment (this : GitLabApiClient) (noteId : number) (body : string)
    (entityId : option number) (entityType : option EntityType) : Async Json :=
  match truthy_number entityId, entityType with
  | Some entityId, Some entityType =>
      let endpoint :=
        match entityType with
        | entity_merge_request =>
            project_endpoint this +:+ "/merge_requests/" +:+ number_to_string entityId
            +:+ "/notes/" +:+ number_to_string noteId
        | entity_issue =>
            project_endpoint this +:+ "/issues/" +:+ number_to_string entityId
            +:+ "/notes/" +:+ number_to_string noteId
        end in
      response <- makeRequest this endpoint
        {| init_method := Some "PUT";
           init_body := Some (JSON_stringify (JObj [("body", JStr body)]));
           init_headers := None |} ;;
      json response
  | _, _ => throw (Error "entityId and entityType are required for GitLab updateComment")
  end.

Definition createBranch (this : GitLabApiClient) (branchName ref : string) : Async Json :=
  response <- makeRequest this (project_endpoint this +:+ "/repository/branches")
    {| init_method := Some "POST";
       init_body := Some (JSON_stringify
                            (JObj [("branch", JStr branchName); ("ref", JStr ref)]));
       init_headers := None |} ;;
  json response.

Definition commitFiles (this : GitLabApiClient) (branchName : string)
    (files : list (string * string)) (message : string) : Async Json :=
  let actions :=
    map (fun '(path, content) =>
           JObj [("action", JStr "create"); ("file_path", JStr path);
                 ("content", JStr content)]) files in
  response <- makeRequest this (project_endpoint this +:+ "/repository/commits")
    {| init_method := Some "POST";
       init_body := Some (JSON_stringify
                            (JObj [("branch", JStr branchName);
                                   ("commit_message", JStr message);
                                   ("actions", JArr actions)]));
       init_headers := None |} ;;
  json response.

Definition getProject (this : GitLabApiClient) : Async Json :=
  response <- makeRequest this (project_endpoint this) no_options ;;
  json response.

Definition getBranches (this : GitLabApiClient) : Async Json :=
  response <- makeRequest this (project_endpoint this +:+ "/repository/branches") no_options ;;
  json response.

Definition getDefaultBranch (this : GitLabApiClient) : Async (option Json) :=
  project <- getProject this ;;
  lift (prop (Some project) "default_branch").

Definition getUserPermissions (this : GitLabApiClient) : Async (option Json) :=
  response <- makeRequest this (project_endpoint this) no_options ;;
  project <- json response ;;
  lift (prop (Some project) "permissions").

(** ** src/platforms/gitlab/validation/permissions.ts *)

(** [permissions.project_access?.access_level || 0] *)
Definition access_level_of (permissions : option Json) : Completion Json :=
  match prop permissions "project_access" with
  | Throw e => Throw e
  | Return project_access =>
      let access_level := opt_prop project_access "access_level" in
      Return (if truthy_json access_level then default (JNum 0) access_level else JNum 0)
  end.

Definition checkWritePermissions (client : GitLabApiClient)
    (_context : GitLabPlatformContext) : Async bool :=
  try_catch
    (permissions <- getUserPermissions client ;;
     accessLevel <- lift (access_level_of permissions) ;;
     ret (js_ge accessLevel 30))
    (fun error =>
       console_error ("Failed to check permissions: " +:+ message error) ;;;
       ret false).

Definition checkCommentPermissions (client : GitLabApiClient)
    (_context : GitLabPlatformContext) : Async bool :=
  try_catch
    (permissions <- getUserPermissions client ;;
     accessLevel <- lift (access_level_of permissions) ;;
     ret (js_ge accessLevel 20))
    (fun error =>
       console_error ("Failed to check comment permissions: " +:+ message error) ;;;
       ret false).

(** ** src/platforms/gitlab/adapter.ts *)

Definition isCurrentPlatform (env : Env) : bool := isGitLabEnvironment env.

Definition parseContext (env : Env) : Completion GitLabPlatformContext :=
  parseGitLabContext env.

Definition createApiClient (env : Env) (token : string) : Completion GitLabApiClient :=
  match parseContext env with
  | Throw e => Throw e
  | Return context =>
      let baseUrl := or_default (env !! "GITLAB_API_URL") (GITLAB_API_URL env) in
      Return (mkClient token (projectId context) baseUrl)
  end.

(** The [instanceof GitLabApiClient] guard of the source holds of every
    value of the type of [client]. *)
Definition validatePermissions (client : GitLabApiClient)
    (context : GitLabPlatformContext) : Async bool :=
  checkWritePermissions client context.

Definition getAuthToken (env : Env) : Async string :=
  token <- getGitLabToken env ;;
  let baseUrl := or_default (env !! "GITLAB_API_URL") (GITLAB_API_URL env) in
  isValid <- validateGitLabToken token baseUrl ;;
  if negb isValid then throw (Error "Invalid GitLab token")
  else ret token.

(** ** src/mcp/gitlab-file-ops-server.ts *)

Definition GITLAB_BASE_URL (env : Env) : string :=
  or_default (env !! "GITLAB_API_URL") (GITLAB_API_URL env).

(** [((await response.json()) as GitLabBranch).commit.id] *)
Definition commit_id (response : Response) : Async (option Json) :=
  branchData <- json response ;;
  commit <- lift (prop (Some branchData) "commit") ;;
  lift (prop commit "id").

Definition token_header (gitlabToken : string) : gmap string string :=
  {[ "PRIVATE-TOKEN" := gitlabToken ]}.

Definition getOrCreateBranchRef (env : Env) (projectId branchName gitlabToken : string)
    : Async (option Json) :=
  let branchUrl := GITLAB_BASE_URL env +:+ "/projects/" +:+ projectId
                   +:+ "/repository/branches/" +:+ encodeURIComponent branchName in
  branchResponse <- fetch (mkRequest branchUrl None (token_header gitlabToken) None) ;;
  if ok branchResponse then commit_id branchResponse
  else if negb (status branchResponse =? 404) then
    throw (Error ("Failed to get branch: " +:+ pretty (status branchResponse)))
  else
    let baseBranch := or_default (env !! "BASE_BRANCH") "main" in
    let baseBranchUrl := GITLAB_BASE_URL env +:+ "/projects/" +:+ projectId
                         +:+ "/repository/branches/" +:+ encodeURIComponent baseBranch in
    baseBranchResponse <-
      fetch (mkRequest baseBranchUrl None (token_header gitlabToken) None) ;;
    baseCommitId <-
      (if negb (ok baseBranchResponse) then
         let projectUrl := GITLAB_BASE_URL env +:+ "/projects/" +:+ projectId in
         projectResponse <-
           fetch (mkRequest projectUrl None (token_header gitlabToken) None) ;;
         if negb (ok projectResponse) then
           throw (Error ("Failed to get project info: "
                         +:+ pretty (status projectResponse)))
         else
           projectData <- json projectResponse ;;
           defaultBranch <- lift (prop (Some projectData) "default_branch") ;;
           let defaultBranchUrl :=
             GITLAB_BASE_URL env +:+ "/projects/" +:+ projectId
             +:+ "/repository/branches/"
             +:+ encodeURIComponent (from_option ToString "undefined" defaultBranch) in
           defaultBranchResponse <-
             fetch (mkRequest defaultBranchUrl None (token_header gitlabToken) None) ;;
           if negb (ok defaultBranchResponse) then
             throw (Error ("Failed to get default branch: "
                           +:+ pretty (status defaultBranchResponse)))
           else commit_id defaultBranchResponse
       else commit_id baseBranchResponse) ;;
    let createBranchUrl := GITLAB_BASE_URL env +:+ "/projects/" +:+ projectId
                           +:+ "/repository/branches" in
    createBranchResponse <-
      fetch {|
        url := createBranchUrl;
        method := Some "POST";
        headers := {[ "PRIVATE-TOKEN" := gitlabToken;
                      "Content-Type" := "application/json" ]};
        payload := Some (JSON_stringify
                           (object_literal [("branch", Some (JStr branchName));
                                            ("ref", baseCommitId)]))
      |} ;;
    if negb (ok createBranchResponse) then
      errorText <- text createBranchResponse ;;
      throw (Error ("Failed to create branch: " +:+ pretty (status createBranchResponse)
                    +:+ " - " +:+ errorText))
    else
      console_log ("Successfully created branch " +:+ branchName) ;;;
      ret baseCommitId.

(** The object that the retried operation of [commit_files] returns:
    reading [commitData.id] throws when the body is [null]. *)
Definition committed (commitData : Json) (processedFiles : list string)
    : Completion Json :=
  match prop (Some commitData) "id" with
  | Throw e => Throw e
  | Return id =>
      Return (JObj [("commit",
                     object_literal
                       [("id", id);
                        ("message", opt_prop (Some commitData) "message");
                        ("author", opt_prop (Some commitData) "author_name");
                        ("date", opt_prop (Some commitData) "authored_date")]);
                    ("files",
                     JArr (map (fun path => JObj [("path", JStr path)])
                               processedFiles))])
  end.

(** The commit step of the [commit_files] tool: the operation handed to
    the retrier sends the request, turns a response that is not ok into
    an error inside the operation, and reads the commit from the body,
    also inside the operation. *)
Definition create_commit (env : Env) (projectId branch message gitlabToken : string)
    (actions : list Json) (processedFiles : list string) : Async Json :=
  let commitUrl := GITLAB_BASE_URL env +:+ "/projects/" +:+ projectId
                   +:+ "/repository/commits" in
  retryWithBackoff
    (commitResponse <-
       fetch {|
         url := commitUrl;
         method := Some "POST";
         headers := {[ "PRIVATE-TOKEN" := gitlabToken;
                       "Content-Type" := "application/json" ]};
         payload := Some (JSON_stringify
                            (JObj [("branch", JStr branch);
                                   ("commit_message", JStr message);
                                   ("actions", JArr actions)]))
       |} ;;
     if negb (ok commitResponse) then
       errorText <- text commitResponse ;;
       throw (Error ("Failed to create commit: " +:+ pretty (status commitResponse)
                     +:+ " - " +:+ errorText))
     else
       commitData <- json commitResponse ;;
       lift (committed commitData processedFiles))
    {| maxAttempts := 3; initialDelayMs := 1000; maxDelayMs := 5000; backoffFactor := 2 |}.

(** ** src/entrypoints/prepare-gitlab.ts *)

(** [v.includes(phrase)]: a string method, an array method, and no
    method at all on the other values. *)
Definition js_includes (v : option Json) (phrase : string) : Completion bool :=
  match v with
  | None => Throw (TypeError "Cannot read properties of undefined (reading 'includes')")
  | Some JNull => Throw (TypeError "Cannot read properties of null (reading 'includes')")
  | Some (JStr s) => Return (includes s phrase)
  | Some (JArr items) =>
      Return (existsb (fun x => match x with
                                | JStr s => bool_decide (s = phrase)
                                | _ => false
                                end) items)
  | Some _ => Throw (TypeError "includes is not a function")
  end.

(** [x.title.includes(phrase) || x.description?.includes(phrase) || false] *)
Definition mentions (x : Json) (phrase : string) : Completion bool :=
  match prop (Some x) "title" with
  | Throw e => Throw e
  | Return title =>
      match js_includes title phrase with
      | Throw e => Throw e
      | Return true => Return true
      | Return false =>
          match opt_prop (Some x) "description" with
          | None | Some JNull => Return false
          | description => js_includes description phrase
          end
      end
  end.

Fixpoint join (sep : string) (lines : list string) : string :=
  match lines with
  | [] => ""
  | [l] => l
  | l :: rest => l +:+ sep +:+ join sep rest
  end.

Definition envVars_of (context : GitLabPlatformContext) (containsTrigger : bool) : string :=
  join nl [
    "CONTAINS_TRIGGER=" +:+ bool_to_string containsTrigger;
    "GITLAB_PROJECT_ID=" +:+ number_to_string (projectId context);
    "EVENT_TYPE=" +:+ EventType_to_string (eventType context);
    "MERGE_REQUEST_IID=" +:+ number_or_empty (mergeRequestIid context);
    "ISSUE_IID=" +:+ number_or_empty (issueIid context);
    "PIPELINE_ID=" +:+ number_or_empty (pipelineId context);
    "ACTOR=" +:+ actor context;
    "PROMPT=" +:+ prompt (inputs context);
    "TRIGGER_PHRASE=" +:+ triggerPhrase (inputs context);
    "BASE_BRANCH=" +:+ or_default (baseBranch (inputs context)) "main";
    "BRANCH_PREFIX=" +:+ branchPrefix (inputs context);
    "USE_STICKY_COMMENT=" +:+ bool_to_string (useStickyComment (inputs context));
    "USE_COMMIT_SIGNING=" +:+ bool_to_string (useCommitSigning (inputs context));
    "ALLOWED_BOTS=" +:+ allowedBots (inputs context)
  ].

Definition token_directive (gitlabToken : string) : string :=
  "::set-output name=gitlab_token::" +:+ gitlabToken.

(** The [switch] on the event type: whether the trigger is present. *)
Definition check_trigger (apiClient : GitLabApiClient)
    (context : GitLabPlatformContext) : Async bool :=
  match eventType context with
  | merge_request =>
      match truthy_number (mergeRequestIid context) with
      | Some mergeRequestIid =>
          mr <- getMergeRequest apiClient mergeRequestIid ;;
          let triggerPhrase := triggerPhrase (inputs context) in
          containsTrigger <- lift (mentions mr triggerPhrase) ;;
          console_log ("检查合并请求 " +:+ number_to_string mergeRequestIid
                       +:+ ": 包含触发短语 " +:+ String dquote triggerPhrase
                       +:+ String dquote ": " +:+ bool_to_string containsTrigger) ;;;
          ret containsTrigger
      | None => ret false
      end
  | issue =>
      match truthy_number (issueIid context) with
      | Some issueIid =>
          issue <- getIssue apiClient issueIid ;;
          let triggerPhrase := triggerPhrase (inputs context) in
          containsTrigger <- lift (mentions issue triggerPhrase) ;;
          console_log ("检查议题 " +:+ number_to_string issueIid
                       +:+ ": 包含触发短语 " +:+ String dquote triggerPhrase
                       +:+ String dquote ": " +:+ bool_to_string containsTrigger) ;;;
          ret containsTrigger
      | None => ret false
      end
  | pipeline | push =>
      let containsTrigger := bool_decide (prompt (inputs context) ≠ "") in
      console_log ("管道/推送事件: 提供了提示词: " +:+ bool_to_string containsTrigger) ;;;
      ret containsTrigger
  end.

(** The [try] block of [run]. *)
Definition prepare (env : Env) : Async unit :=
  console_log "开始 GitLab 平台准备流程..." ;;;
  (if negb (isCurrentPlatform env)
   then throw (Error "当前不在 GitLab CI/CD 环境中运行") else ret tt) ;;;
  context <- lift (parseContext env) ;;
  console_log ("解析到上下文: 项目 " +:+ number_to_string (projectId context)
               +:+ ", 事件类型 " +:+ EventType_to_string (eventType context)) ;;;
  gitlabToken <- getAuthToken env ;;
  console_log "成功获取 GitLab 认证 token" ;;;
  apiClient <- lift (createApiClient env gitlabToken) ;;
  hasPermissions <- validatePermissions apiClient context ;;
  (if negb hasPermissions
   then throw (Error "用户没有足够的权限执行操作") else ret tt) ;;;
  console_log "权限验证通过" ;;;
  containsTrigger <- check_trigger apiClient context ;;
  writeFile "prepare.env" (envVars_of context containsTrigger) ;;;
  console_log "环境变量已写入 prepare.env" ;;;
  console_log ("::set-output name=contains_trigger::" +:+ bool_to_string containsTrigger) ;;;
  console_log (token_directive gitlabToken) ;;;
  console_log ("::set-output name=project_id::" +:+ number_to_string (projectId context)) ;;;
  if negb containsTrigger then
    console_log "未检测到触发条件，跳过后续步骤"
  else
    console_log "准备阶段完成，将继续执行 Claude Code".

(** [run]: the exit status of the process and the world it leaves. *)
Definition run (env : Env) (w : World) : Z * World :=
  match prepare env w with
  | (Return _, w') => (0, w')
  | (Throw error, w') =>
      let errorMessage := message error in
      let report :=
        console_error ("准备阶段失败: " +:+ errorMessage) ;;;
        writeFile "prepare.env"
          ("PREPARE_ERROR=" +:+ errorMessage +:+ nl +:+ "CONTAINS_TRIGGER=false" +:+ nl) in
      (1, snd (report w'))
  end.

(** ** More of src/platforms/gitlab/context.ts *)

Definition isMergeRequestEvent (context : GitLabPlatformContext) : bool :=
  match eventType context with
  | merge_request => bool_decide (is_Some (truthy_number (mergeRequestIid context)))
  | _ => false
  end.

Definition isIssueEvent (context : GitLabPlatformContext) : bool :=
  match eventType context with
  | issue => bool_decide (is_Some (truthy_number (issueIid context)))
  | _ => false
  end.

(** ** src/platforms/shared/platform-detector.ts *)

Inductive PlatformType : Type :=
  | github
  | gitlab.

Definition detectPlatform (env : Env) : PlatformType :=
  if bool_decide (env !! "GITLAB_CI" = Some "true")
     || bool_decide (is_Some (truthy (env !! "CI_PROJECT_ID")))
  then gitlab
  else if bool_decide (env !! "GITHUB_ACTIONS" = Some "true")
          || bool_decide (is_Some (truthy (env !! "GITHUB_REPOSITORY")))
  then github
  else github.

(** The adapters that [getPlatformAdapter] can construct: the GitLab
    adapter, an object without fields. *)
Inductive PlatformAdapter : Type :=
  | GitLabAdapter.

Definition getPlatformAdapter (env : Env) : Completion PlatformAdapter :=
  match detectPlatform env with
  | gitlab => Return GitLabAdapter
  | github => Throw (Error "GitHub adapter not implemented in this context")
  end.

Definition isInCIEnvironment (env : Env) : bool :=
  bool_decide (is_Some (truthy (env !! "CI" ||| env !! "GITLAB_CI"
                                ||| env !! "GITHUB_ACTIONS"))).

(** ** More of src/platforms/gitlab/token.ts *)

Definition getTokenInfo (token baseUrl : string) : Async Json :=
  response <- fetch (mkRequest (baseUrl +:+ "/user") None
                               {[ "PRIVATE-TOKEN" := token ]} None) ;;
  if negb (ok response) then
    throw (Error ("Failed to get token info: " +:+ pretty (status response)))
  else json response.

(** ** More of src/platforms/gitlab/validation/permissions.ts *)

(** [items.find((b) => b.name === branchName)]: the first element whose
    [name] is the string [branchName]; reading [name] of a [null] element
    throws. *)
Fixpoint find_by_name (branchName : string) (items : list Json)
    : Completion (option Json) :=
  match items with
  | [] => Return None
  | b :: rest =>
      match prop (Some b) "name" with
      | Throw e => Throw e
      | Return (Some (JStr s)) =>
          if decide (s = branchName) then Return (Some b)
          else find_by_name branchName rest
      | Return _ => find_by_name branchName rest
      end
  end.

(** [branches.find(...)] on what [response.json()] gave: only an array has
    the method. *)
Definition find_branch (branches : Json) (branchName : string)
    : Completion (option Json) :=
  match branches with
  | JArr items => find_by_name branchName items
  | JNull => Throw (TypeError "Cannot read properties of null (reading 'find')")
  | _ => Throw (TypeError "branches.find is not a function")
  end.

Definition checkBranchPermissions (client : GitLabApiClient) (branchName : string)
    : Async bool :=
  try_catch
    (branches <- getBranches client ;;
     branch <- lift (find_branch branches branchName) ;;
     if negb (truthy_json branch) then ret true
     else if truthy_json (opt_prop branch "protected") then
       permissions <- getUserPermissions client ;;
       accessLevel <- lift (access_level_of permissions) ;;
       ret (js_ge accessLevel 40)
     else ret true)
    (fun error =>
       console_error ("Failed to check branch permissions: " +:+ message error) ;;;
       ret false).

(** ** More of src/mcp/gitlab-file-ops-server.ts *)

(** [s.slice(n)] for [n] within the string, counted in bytes. *)
Fixpoint slice (s : string) (n : nat) : string :=
  match n, s with
  | O, _ => s
  | S n', String _ r => slice r n'
  | S _, "" => ""
  end.

(** The path processing of the [commit_files] tool: one leading slash is
    cut off. *)
Definition commit_path (filePath : string) : string :=
  if startsWith filePath "/" then slice filePath 1 else filePath.

(** The path processing of the [delete_files] tool, [cwd] being
    [process.cwd()]. *)
Definition delete_path (cwd filePath : string) : Completion string :=
  if startsWith filePath "/" then
    if startsWith filePath cwd then Return (slice filePath (String.length cwd + 1))
    else
      Throw (Error ("Path '" +:+ filePath
                    +:+ "' must be relative to repository root or within current working directory"))
  else Return filePath.

Fixpoint delete_paths (cwd : string) (paths : list string) : Completion (list string) :=
  match paths with
  | [] => Return []
  | filePath :: rest =>
      match delete_path cwd filePath with
      | Throw e => Throw e
      | Return p =>
          match delete_paths cwd rest with
          | Throw e => Throw e
          | Return ps => Return (p :: ps)
          end
      end
  end.

Definition to_lower (c : ascii) : ascii :=
  let n := nat_of_ascii c in
  if ((65 <=? n) && (n <=? 90))%nat then ascii_of_nat (n + 32) else c.

Fixpoint lower (s : string) : string :=
  match s with
  | "" => ""
  | String c r => String (to_lower c) (lower r)
  end.

Fixpoint endsWith (s suffix : string) : bool :=
  bool_decide (s = suffix)
  || match s with
     | String _ r => endsWith r suffix
     | "" => false
     end.

Definition binary_extensions : list string :=
  ["png"; "jpg"; "jpeg"; "gif"; "webp"; "ico"; "pdf"; "zip"; "tar"; "gz"; "exe";
   "bin"; "woff"; "woff2"; "ttf"; "eot"].

(** The test of the regular expression
    [/\.(png|jpg|...|eot)$/i] on the path: the path ends, letter case
    apart, in a dot and one of the extensions. *)
Definition isBinaryFile (filePath : string) : bool :=
  existsb (fun ext => endsWith (lower filePath) ("." +:+ ext)) binary_extensions.

(** [JSON.stringify(v, null, 2)]: [indent] is the indentation of the line
    the value starts on. *)
Fixpoint stringify_pretty (indent : string) (v : Json) : string :=
  match v with
  | JNull => "null"
  | JBool b => bool_to_string b
  | JNum n => pretty n
  | JStr s => quote s
  | JArr items =>
      let inner := indent +:+ "  " in
      let fix go (l : list Json) : string :=
        match l with
        | [] => ""
        | x :: r =>
            inner +:+ stringify_pretty inner x
            +:+ match r with [] => "" | _ => "," +:+ nl +:+ go r end
        end in
      match items with
      | [] => "[]"
      | _ => "[" +:+ nl +:+ go items +:+ nl +:+ indent +:+ "]"
      end
  | JObj fields =>
      let inner := indent +:+ "  " in
      let fix go (l : list (string * Json)) : string :=
        match l with
        | [] => ""
        | (k, x) :: r =>
            inner +:+ quote k +:+ ": " +:+ stringify_pretty inner x
            +:+ match r with [] => "" | _ => "," +:+ nl +:+ go r end
        end in
      match fields with
      | [] => "{}"
      | _ => "{" +:+ nl +:+ go fields +:+ nl +:+ indent +:+ "}"
      end
  end.

(** A possibly undefined value inside a template literal. *)
Definition template (v : option Json) : string :=
  from_option ToString "undefined" v.

Definition template_env (v : option string) : string :=
  default "undefined" v.

(** [s.replace(pattern, replacement)] for a string pattern: the first
    occurrence is replaced. *)
Fixpoint replace_first (s pattern replacement : string) : string :=
  if startsWith s pattern then replacement +:+ slice s (String.length pattern)
  else match s with
       | "" => ""
       | String c r => String c (replace_first r pattern replacement)
       end.

(** ** What a tool of an MCP server returns *)

Record ToolResult : Type := mkToolResult {
  content : string;          (* the text of the one content item *)
  error : option string;
  isError : bool
}.

(** The shape shared by every tool: the text on success, and in the
    [catch] block the message of whatever was thrown. *)
Definition tool (work : Async string) : Async ToolResult :=
  try_catch
    (t <- work ;; ret (mkToolResult t None false))
    (fun thrown =>
       let errorMessage := message thrown in
       ret (mkToolResult ("Error: " +:+ errorMessage) (Some errorMessage) true)).

(** ** src/mcp/gitlab-comment-server.ts *)

Module CommentServer.

(** The constants of the module once its start-up guard has passed. *)
Record Config : Type := mkConfig {
  PROJECT_ID : string;
  GITLAB_TOKEN : string;
  BASE_URL : string
}.

(** The top of the module: without a project id or a token the process
    prints an error and exits with status 1 ([None]). *)
Definition load (env : Env) : World -> option Config * World :=
  fun w =>
    match truthy (env !! "GITLAB_PROJECT_ID"), truthy (env !! "GITLAB_TOKEN") with
    | Some project, Some token =>
        (Some (mkConfig project token
                 (or_default (env !! "GITLAB_API_URL") (GITLAB_API_URL env))), w)
    | _, _ =>
        (None,
         snd (console_error
                "Error: GITLAB_PROJECT_ID and GITLAB_TOKEN environment variables are required"
                w))
    end.

Definition makeGitLabRequest (cfg : Config) (endpoint : string)
    (options : RequestInit) : Async Response :=
  fetch {|
    url := BASE_URL cfg +:+ endpoint;
    method := init_method options;
    headers := default ∅ (init_headers options)
               ∪ {[ "PRIVATE-TOKEN" := GITLAB_TOKEN cfg;
                    "Content-Type" := "application/json" ]};
    payload := init_body options
  |}.

Definition send_body (verb body : string) : RequestInit :=
  {| init_method := Some verb;
     init_body := Some (JSON_stringify (JObj [("body", JStr body)]));
     init_headers := None |}.

(** The part every tool starts with: the request, and an error with the
    status and the body when the response is not ok. *)
Definition call (cfg : Config) (endpoint : string) (options : RequestInit)
    (what : string) : Async Response :=
  response <- makeGitLabRequest cfg endpoint options ;;
  if negb (ok response) then
    errorText <- text response ;;
    throw (Error ("Failed to " +:+ what +:+ ": " +:+ pretty (status response)
                  +:+ " - " +:+ errorText))
  else ret response.

Definition web_url (cfg : Config) (env : Env) (kind : string) (iid : number)
    (id : option Json) : string :=
  replace_first (BASE_URL cfg) "/api/v4" "" +:+ "/" +:+ template_env (env !! "CI_PROJECT_PATH")
  +:+ "/-/" +:+ kind +:+ "/" +:+ number_to_string iid +:+ "#note_" +:+ template id.

(** The object a create tool reports: [id], [body], [author],
    [created_at] and [web_url] of the note. *)
Definition created_note (cfg : Config) (env : Env) (kind : string) (iid : number)
    (noteData : Json) : Completion Json :=
  match prop (Some noteData) "id" with
  | Throw e => Throw e
  | Return id =>
      match prop (opt_prop (Some noteData) "author") "username" with
      | Throw e => Throw e
      | Return username =>
          Return (object_literal
                    [("id", id);
                     ("body", opt_prop (Some noteData) "body");
                     ("author", username);
                     ("created_at", opt_prop (Some noteData) "created_at");
                     ("web_url", Some (JStr (web_url cfg env kind iid id)))])
      end
  end.

(** The object an update tool reports. *)
Definition updated_note (noteData : Json) : Completion Json :=
  match prop (Some noteData) "id" with
  | Throw e => Throw e
  | Return id =>
      match prop (opt_prop (Some noteData) "author") "username" with
      | Throw e => Throw e
      | Return username =>
          Return (object_literal
                    [("id", id);
                     ("body", opt_prop (Some noteData) "body");
                     ("author", username);
                     ("updated_at", opt_prop (Some noteData) "updated_at")])
      end
  end.

Definition create_merge_request_comment (cfg : Config) (env : Env)
    (merge_request_iid : number) (body : string) : Async ToolResult :=
  tool
    (response <- call cfg
       ("/projects/" +:+ PROJECT_ID cfg +:+ "/merge_requests/"
        +:+ number_to_string merge_request_iid +:+ "/notes")
       (send_body "POST" body) "create merge request comment" ;;
     noteData <- json response ;;
     note <- lift (created_note cfg env "merge_requests" merge_request_iid noteData) ;;
     ret (stringify_pretty "" note)).

Definition update_merge_request_comment (cfg : Config)
    (merge_request_iid note_id : number) (body : string) : Async ToolResult :=
  tool
    (response <- call cfg
       ("/projects/" +:+ PROJECT_ID cfg +:+ "/merge_requests/"
        +:+ number_to_string merge_request_iid +:+ "/notes/" +:+ number_to_string note_id)
       (send_body "PUT" body) "update merge request comment" ;;
     noteData <- json response ;;
     note <- lift (updated_note noteData) ;;
     ret (stringify_pretty "" note)).

Definition create_issue_comment (cfg : Config) (env : Env)
    (issue_iid : number) (body : string) : Async ToolResult :=
  tool
    (response <- call cfg
       ("/projects/" +:+ PROJECT_ID cfg +:+ "/issues/"
        +:+ number_to_string issue_iid +:+ "/notes")
       (send_body "POST" body) "create issue comment" ;;
     noteData <- json response ;;
     note <- lift (created_note cfg env "issues" issue_iid noteData) ;;
     ret (stringify_pretty "" note)).

Definition update_issue_comment (cfg : Config)
    (issue_iid note_id : number) (body : string) : Async ToolResult :=
  tool
    (response <- call cfg
       ("/projects/" +:+ PROJECT_ID cfg +:+ "/issues/"
        +:+ number_to_string issue_iid +:+ "/notes/" +:+ number_to_string note_id)
       (send_body "PUT" body) "update issue comment" ;;
     noteData <- json response ;;
     note <- lift (updated_note noteData) ;;
     ret (stringify_pretty "" note)).

(** [notes.filter((note) => !note.system)] *)
Fixpoint user_notes (notes : list Json) : Completion (list Json) :=
  match notes with
  | [] => Return []
  | note :: rest =>
      match prop (Some note) "system" with
      | Throw e => Throw e
      | Return system =>
          match user_notes rest with
          | Throw e => Throw e
          | Return kept => Return (if truthy_json system then kept else note :: kept)
          end
      end
  end.

(** One element of the [map] of [list_merge_request_comments]; [note] has
    passed the filter, so it is neither [null] nor [undefined]. *)
Definition simplified_note (note : Json) : Completion Json :=
  match prop (opt_prop (Some note) "author") "username" with
  | Throw e => Throw e
  | Return username =>
      Return (object_literal
                [("id", opt_prop (Some note) "id");
                 ("body", opt_prop (Some note) "body");
                 ("author", username);
                 ("created_at", opt_prop (Some note) "created_at");
                 ("updated_at", opt_prop (Some note) "updated_at")])
  end.

Fixpoint simplified_notes (notes : list Json) : Completion (list Json) :=
  match notes with
  | [] => Return []
  | note :: rest =>
      match simplified_note note with
      | Throw e => Throw e
      | Return first =>
          match simplified_notes rest with
          | Throw e => Throw e
          | Return others => Return (first :: others)
          end
      end
  end.

(** [notes.filter(...).map(...)] on what [response.json()] gave. *)
Definition simplify (notes : Json) : Completion Json :=
  match notes with
  | JArr items =>
      match user_notes items with
      | Throw e => Throw e
      | Return kept =>
          match simplified_notes kept with
          | Throw e => Throw e
          | Return simplifiedNotes => Return (JArr simplifiedNotes)
          end
      end
  | JNull => Throw (TypeError "Cannot read properties of null (reading 'filter')")
  | _ => Throw (TypeError "notes.filter is not a function")
  end.

Definition list_merge_request_comments (cfg : Config) (merge_request_iid : number)
    (per_page page : option number) : Async ToolResult :=
  let per_page := default (Num 20) per_page in
  let page := default (Num 1) page in
  tool
    (response <- call cfg
       ("/projects/" +:+ PROJECT_ID cfg +:+ "/merge_requests/"
        +:+ number_to_string merge_request_iid +:+ "/notes?per_page="
        +:+ number_to_string per_page +:+ "&page=" +:+ number_to_string page)
       no_options "list merge request comments" ;;
     notes <- json response ;;
     simplifiedNotes <- lift (simplify notes) ;;
     ret (stringify_pretty "" simplifiedNotes)).

End CommentServer.

(** ** The [delete_files] tool of src/mcp/gitlab-file-ops-server.ts *)

Module FileServer.

Record Config : Type := mkConfig {
  PROJECT_ID : string;
  BRANCH_NAME : string;
  GITLAB_TOKEN : string
}.

(** The top of the module: without a project id, a branch name or a token
    the process prints an error and exits with status 1 ([None]). *)
Definition load (env : Env) : World -> option Config * World :=
  fun w =>
    match truthy (env !! "GITLAB_PROJECT_ID"), truthy (env !! "BRANCH_NAME"),
          truthy (env !! "GITLAB_TOKEN") with
    | Some project, Some branch, Some token => (Some (mkConfig project branch token), w)
    | _, _, _ =>
        (None,
         snd (console_error
                "Error: GITLAB_PROJECT_ID, BRANCH_NAME, and GITLAB_TOKEN environment variables are required"
                w))
    end.

Definition delete_actions (processedPaths : list string) : list Json :=
  map (fun path => JObj [("action", JStr "delete"); ("file_path", JStr path)])
      processedPaths.

Definition commit_request (cfg : Config) (env : Env) (message : string)
    (actions : list Json) : Request := {|
  url := GITLAB_BASE_URL env +:+ "/projects/" +:+ PROJECT_ID cfg +:+ "/repository/commits";
  method := Some "POST";
  headers := {[ "PRIVATE-TOKEN" := GITLAB_TOKEN cfg;
                "Content-Type" := "application/json" ]};
  payload := Some (JSON_stringify
                     (JObj [("branch", JStr (BRANCH_NAME cfg));
                            ("commit_message", JStr message);
                            ("actions", JArr actions)]))
|}.

(** The object the retried operation of [delete_files] returns. *)
Definition deleted (commitData : Json) (processedPaths : list string)
    : Completion Json :=
  match prop (Some commitData) "id" with
  | Throw e => Throw e
  | Return id =>
      Return (JObj [("commit",
                     object_literal
                       [("id", id);
                        ("message", opt_prop (Some commitData) "message");
                        ("author", opt_prop (Some commitData) "author_name");
                        ("date", opt_prop (Some commitData) "authored_date")]);
                    ("deletedFiles",
                     JArr (map (fun path => JObj [("path", JStr path)]) processedPaths))])
  end.

Definition delete_files (cfg : Config) (env : Env) (cwd : string)
    (paths : list string) (message : string) : Async ToolResult :=
  tool
    (processedPaths <- lift (delete_paths cwd paths) ;;
     getOrCreateBranchRef env (PROJECT_ID cfg) (BRANCH_NAME cfg) (GITLAB_TOKEN cfg) ;;;
     let actions := delete_actions processedPaths in
     result <- retryWithBackoff
       (commitResponse <- fetch (commit_request cfg env message actions) ;;
        if negb (ok commitResponse) then
          errorText <- text commitResponse ;;
          throw (Error ("Failed to create commit: " +:+ pretty (status commitResponse)
                        +:+ " - " +:+ errorText))
        else
          commitData <- json commitResponse ;;
          lift (deleted commitData processedPaths))
       {| maxAttempts := 3; initialDelayMs := 1000; maxDelayMs := 5000;
          backoffFactor := 2 |} ;;
     ret (stringify_pretty "" result)).

End FileServer.

(** ** The files that the [commit_files] tool reads *)

Section CommitFiles.

(** [join] of the [path] module of Node. *)
Variable path_join : string -> string -> string.

(** The file read for a processed path, [REPO_DIR] being the directory of
    the repository. *)
Definition fullPath (REPO_DIR filePath : string) : string :=
  if startsWith filePath "/" then filePath else path_join REPO_DIR filePath.

End CommitFiles.

(** ** Vocabulary of the statements *)

(** An environment variable is present when it holds a non-empty value:
    the program tests presence by truthiness throughout. *)
Definition present (v : option string) : Prop :=
  exists s, v = Some s /\ s <> "".

(** A world in which nothing has happened yet and the network will deliver
    [net]. *)
Definition fresh_world (net : list FetchOutcome) : World :=
  mkWorld net [] [] [] [] ∅.

Definition respond (code : Z) (content : string) (value : option Json) : FetchOutcome :=
  Delivered (mkResponse code content value).

(** The body of a branch resource whose head commit is [head]. *)
Definition branch_json (branch head : string) : Json :=
  JObj [("name", JStr branch);
        ("commit", JObj [("id", JStr head); ("message", JStr "init")]);
        ("protected", JBool false)].

(** The request that every method of the client sends for [endpoint]. *)
Definition client_request (this : GitLabApiClient) (endpoint : string)
    (options : RequestInit) : Request := {|
  url := client_baseUrl this +:+ endpoint;
  method := init_method options;
  headers := default ∅ (init_headers options)
             ∪ {[ "PRIVATE-TOKEN" := client_token this;
                  "Content-Type" := "application/json" ]};
  payload := init_body options
|}.

(** The requests of the branch-resolution helper. *)
Definition read_branch (env : Env) (projectId branch gitlabToken : string) : Request :=
  mkRequest (GITLAB_BASE_URL env +:+ "/projects/" +:+ projectId
             +:+ "/repository/branches/" +:+ encodeURIComponent branch)
            None (token_header gitlabToken) None.

Definition read_project (env : Env) (projectId gitlabToken : string) : Request :=
  mkRequest (GITLAB_BASE_URL env +:+ "/projects/" +:+ projectId)
            None (token_header gitlabToken) None.

Definition create_branch (env : Env) (projectId branch head gitlabToken : string)
    : Request := {|
  url := GITLAB_BASE_URL env +:+ "/projects/" +:+ projectId +:+ "/repository/branches";
  method := Some "POST";
  headers := {[ "PRIVATE-TOKEN" := gitlabToken; "Content-Type" := "application/json" ]};
  payload := Some (JSON_stringify (JObj [("branch", JStr branch); ("ref", JStr head)]))
|}.

(** The response to a branch read says that the branch exists and that
    its head commit is [head]. *)
Definition has_head (r : Response) (head : string) : Prop :=
  ok r = true
  /\ exists branchData commit,
       parsed r = Some branchData
       /\ prop (Some branchData) "commit" = Return commit
       /\ prop commit "id" = Return (Some (JStr head)).

(** The response to a project read reports the default branch [branch]. *)
Definition reports_default_branch (r : Response) (branch : string) : Prop :=
  ok r = true
  /\ exists projectData,
       parsed r = Some projectData
       /\ prop (Some projectData) "default_branch" = Return (Some (JStr branch)).

(** The base branch that the helper reads first after a 404: the override
    when BASE_BRANCH is present, the branch [main] otherwise. *)
Definition first_base (env : Env) (base : string) : Prop :=
  (env !! "BASE_BRANCH" = Some base /\ base <> "")
  \/ (~ present (env !! "BASE_BRANCH") /\ base = "main").

(** The fallback as the specification words it: after a 404 the helper
    asks for the override branch when one is set, and otherwise asks the
    project for its default branch. *)
Definition fallback_as_specified (env : Env) (projectId gitlabToken : string) : Request :=
  match truthy (env !! "BASE_BRANCH") with
  | Some override => read_branch env projectId override gitlabToken
  | None => read_project env projectId gitlabToken
  end.

(** The request that updates note [noteId] of the entity [entityId]. *)
Definition update_note (this : GitLabApiClient) (entityType : EntityType)
    (entityId noteId : number) (body : string) : Request :=
  client_request this
    (match entityType with
     | entity_merge_request =>
         project_endpoint this +:+ "/merge_requests/" +:+ number_to_string entityId
         +:+ "/notes/" +:+ number_to_string noteId
     | entity_issue =>
         project_endpoint this +:+ "/issues/" +:+ number_to_string entityId
         +:+ "/notes/" +:+ number_to_string noteId
     end)
    {| init_method := Some "PUT";
       init_body := Some (JSON_stringify (JObj [("body", JStr body)]));
       init_headers := None |}.

(** The routing as the specification words it: once both the entity id
    and the entity type are supplied, the update goes out as a request to
    the notes endpoint of that entity. *)
Definition routed_as_specified (this : GitLabApiClient) (noteId : number)
    (body : string) (entityId : number) (entityType : EntityType) (w : World) : Prop :=
  exists k, (1 <= k)%nat
    /\ requests (snd (updateComment this noteId body (Some entityId) (Some entityType) w))
       = requests w ++ replicate k (update_note this entityType entityId noteId body).

(** The variables a token is read from. *)
Definition token_variables : list string :=
  ["GITLAB_TOKEN"; "GITLAB_ACCESS_TOKEN"; "PRIVATE_TOKEN"; "CI_JOB_TOKEN"].

(** Two tokens are the same up to the exchange of [t1] for [t2]: they are
    equal, or the first is [t1] and the second is [t2]. *)
Definition same_token (t1 t2 a b : string) : Prop :=
  a = b \/ (a = t1 /\ b = t2).

(** Two lines of standard output are the same up to that exchange: they
    are equal, or they are the directives that hand on [t1] and [t2]. *)
Definition same_line (t1 t2 a b : string) : Prop :=
  a = b \/ (a = token_directive t1 /\ b = token_directive t2).

(** Two sets of headers are the same up to that exchange: every header
    has the same value in both, except that PRIVATE-TOKEN may carry [t1]
    in the first and [t2] in the second. *)
Definition same_headers (t1 t2 : string) (h1 h2 : gmap string string) : Prop :=
  forall key,
    h1 !! key = h2 !! key
    \/ (key = "PRIVATE-TOKEN" /\ h1 !! key = Some t1 /\ h2 !! key = Some t2).

(** Two requests are the same up to that exchange: the same URL, method
    and body, and the same headers but for the token. *)
Definition same_request (t1 t2 : string) (a b : Request) : Prop :=
  url a = url b /\ method a = method b /\ payload a = payload b
  /\ same_headers t1 t2 (headers a) (headers b).

(** Two worlds are the same up to that exchange. *)
Definition same_observations (t1 t2 : string) (w1 w2 : World) : Prop :=
  network w1 = network w2
  /\ Forall2 (same_request t1 t2) (requests w1) (requests w2)
  /\ timers w1 = timers w2
  /\ Forall2 (same_line t1 t2) (stdout w1) (stdout w2)
  /\ stderr w1 = stderr w2
  /\ files w1 = files w2.

(** Two computations that, from worlds that are the same up to the
    exchange, both return, with results related by [R], or both throw the
    same error, and leave worlds that are the same up to the exchange. *)
Definition sim (t1 t2 : string) {A B} (R : A -> B -> Prop)
    (m1 : Async A) (m2 : Async B) : Prop :=
  forall w1 w2, same_observations t1 t2 w1 w2 ->
    match m1 w1, m2 w2 with
    | (Return a, w1'), (Return b, w2') => R a b /\ same_observations t1 t2 w1' w2'
    | (Throw e1, w1'), (Throw e2, w2') => e1 = e2 /\ same_observations t1 t2 w1' w2'
    | _, _ => False
    end.

(** Two clients for the same project on the same forge, with tokens that
    are the same up to the exchange. *)
Definition same_client (t1 t2 : string) (c1 c2 : GitLabApiClient) : Prop :=
  client_projectId c1 = client_projectId c2
  /\ client_baseUrl c1 = client_baseUrl c2
  /\ same_token t1 t2 (client_token c1) (client_token c2).

(** Two environments that differ in the values of the token variables
    only: every other variable is the same, and a token variable holds
    the same value in both, or holds [t1] in the first and [t2] in the
    second. *)
Definition same_but_tokens (t1 t2 : string) (env1 env2 : Env) : Prop :=
  (forall key, key ∉ token_variables -> env1 !! key = env2 !! key)
  /\ (forall key,
        truthy (env1 !! key) = truthy (env2 !! key)
        \/ (truthy (env1 !! key) = Some t1 /\ truthy (env2 !! key) = Some t2)).

(** The token occurs in full in a line of the console or in a file. *)
Definition discloses (token : string) (w : World) : bool :=
  existsb (fun line => includes line token) (stdout w ++ stderr w)
  || existsb (fun entry => includes (snd entry) token) (map_to_list (files w)).

(** The world after the request [rq] has been sent from [w] and nothing
    else has happened. *)
Definition after_request (rq : Request) (w : World) : World :=
  mkWorld (tl (network w)) (requests w ++ [rq]) (timers w)
          (stdout w) (stderr w) (files w).

(** A call of a tool of the comment server that comes back with a result,
    having sent one request with the verb [verb] (none for a read), which
    carries the token of the server to an endpoint of its project, and
    having done nothing else. *)
Definition answers_after_one_request (cfg : CommentServer.Config)
    (verb : option string) (call : Async ToolResult) (w : World) : Prop :=
  exists result rq,
    call w = (Return result, after_request rq w)
    /\ method rq = verb
    /\ headers rq !! "PRIVATE-TOKEN" = Some (CommentServer.GITLAB_TOKEN cfg)
    /\ startsWith (url rq)
         (CommentServer.BASE_URL cfg +:+ "/projects/"
          +:+ CommentServer.PROJECT_ID cfg +:+ "/") = true.

(** The result by which a tool reports the error [errorMessage]. *)
Definition tool_failure (errorMessage : string) : ToolResult :=
  mkToolResult ("Error: " +:+ errorMessage) (Some errorMessage) true.

(** A note that the forge marks as written by the system. *)
Definition is_system (note : Json) : bool :=
  truthy_json (opt_prop (Some note) "system").


(** The content of [prepare.env] after a failed run. *)
Definition error_report (errorMessage : string) : string :=
  "PREPARE_ERROR=" +:+ errorMessage +:+ nl +:+ "CONTAINS_TRIGGER=false" +:+ nl.

(** ** Sample inputs *)

(** Scenario 1 of the specification. *)
Definition env_scenario1 : Env :=
  list_to_map [("CI_PROJECT_ID", "123"); ("CI_PROJECT_NAME", "demo");
               ("CI_PROJECT_NAMESPACE", "grp"); ("CI_MERGE_REQUEST_IID", "789")].

(** Scenario 2: no merge request, a commit reference, no target branch. *)
Definition env_scenario2 : Env :=
  list_to_map [("CI_PROJECT_ID", "123"); ("CI_PROJECT_NAME", "demo");
               ("CI_PROJECT_NAMESPACE", "grp"); ("CI_COMMIT_REF_NAME", "feature")].

(** A pipeline on the target branch itself. *)
Definition env_pipeline : Env :=
  list_to_map [("CI_PROJECT_ID", "123"); ("CI_PROJECT_NAME", "demo");
               ("CI_PROJECT_NAMESPACE", "grp"); ("CI_COMMIT_REF_NAME", "main");
               ("CI_MERGE_REQUEST_TARGET_BRANCH_NAME", "main")].

(** Scenario 3: an explicit token next to a job token. *)
Definition env_scenario3 : Env :=
  list_to_map [("GITLAB_TOKEN", "abc"); ("CI_JOB_TOKEN", "job"); ("GITLAB_CI", "true")].

Definition env_access_token : Env :=
  list_to_map [("GITLAB_TOKEN", ""); ("GITLAB_ACCESS_TOKEN", "pat");
               ("PRIVATE_TOKEN", "priv"); ("CI_JOB_TOKEN", "job")].

Definition env_private_token : Env :=
  list_to_map [("PRIVATE_TOKEN", "priv"); ("CI_JOB_TOKEN", "job"); ("GITLAB_CI", "true")].

Definition env_job_token : Env :=
  list_to_map [("CI_JOB_TOKEN", "job"); ("GITLAB_CI", "true")].

(** A job token outside GitLab CI is no source. *)
Definition env_stray_job_token : Env :=
  list_to_map [("CI_JOB_TOKEN", "job")].

(** The context that scenario 1 resolves to. *)
Definition context_scenario1 : GitLabPlatformContext := {|
  runId := "unknown";
  repository := {| owner := "grp"; name := "demo"; fullName := None |};
  actor := "unknown";
  projectId := Num 123;
  eventType := merge_request;
  mergeRequestIid := Some (Num 789);
  issueIid := None;
  pipelineId := None;
  payload_snapshot := {|
    pipeline_id := None;
    project_id := Some "123";
    project_name := Some "demo";
    project_namespace := Some "grp";
    project_path := None;
    payload_merge_request := Some (Some "789", None, None, None);
    commit_sha := None;
    commit_ref := None;
    user_login := None;
    user_name := None
  |};
  inputs := {|
    prompt := "";
    triggerPhrase := "@claude";
    assigneeTrigger := "";
    labelTrigger := "";
    baseBranch := None;
    branchPrefix := "claude/";
    useStickyComment := false;
    useCommitSigning := false;
    allowedBots := ""
  |}
|}.

Definition sample_client : GitLabApiClient :=
  mkClient "abc" (Num 123) "https://gitlab.com/api/v4".

(** A project resource in which the acting identity has access level
    [level]. *)
Definition project_json (level : Z) : Json :=
  JObj [("id", JNum 123);
        ("default_branch", JStr "develop");
        ("permissions",
         JObj [("project_access", JObj [("access_level", JNum level)]);
               ("group_access", JNull)])].

(** Two server errors, then a success. *)
Definition world_5xx_5xx_2xx : World :=
  fresh_world [respond 500 "boom" None; respond 500 "boom" None;
               respond 200 "{}" (Some (project_json 40))].

(** Two rejected requests, then a success. *)
Definition world_reset_reset_2xx : World :=
  fresh_world [Rejected (TypeError "fetch failed"); Rejected (TypeError "fetch failed");
               respond 200 "{}" (Some (project_json 40))].

(** The target branch is missing, [main] exists, the create call succeeds. *)
Definition world_branch_missing : World :=
  fresh_world [respond 404 "404 Branch Not Found" None;
               respond 200 "" (Some (branch_json "main" "aaa111"));
               respond 201 "" (Some (branch_json "claude/fix" "aaa111"))].

(** The target branch and [main] are missing, the project reports
    [develop], which exists; the create call succeeds. *)
Definition world_main_missing : World :=
  fresh_world [respond 404 "404 Branch Not Found" None;
               respond 404 "404 Branch Not Found" None;
               respond 200 "" (Some (project_json 40));
               respond 200 "" (Some (branch_json "develop" "ddd444"));
               respond 201 "" (Some (branch_json "claude/fix" "ddd444"))].

(** The target branch exists, and still does at the second read. *)
Definition world_branch_exists : World :=
  fresh_world [respond 200 "" (Some (branch_json "claude/fix" "fff666"));
               respond 200 "" (Some (branch_json "claude/fix" "fff666"))].

(** A merge-request run with an explicit token: the token is accepted,
    the identity is a developer, the merge request mentions the trigger. *)
Definition env_prepare : Env :=
  <["GITLAB_TOKEN" := "s3cr3t"]> env_scenario1.

Definition world_prepare : World :=
  fresh_world [respond 200 "{}" (Some (JObj [("username", JStr "bot")]));
               respond 200 "{}" (Some (project_json 30));
               respond 200 "{}" (Some (JObj [("iid", JNum 789);
                                             ("title", JStr "fix the parser");
                                             ("description", JStr "@claude please")]))].

(** A merge-request pipeline whose iid is not a number. *)
Definition env_odd_iid : Env :=
  <["CI_MERGE_REQUEST_IID" := "abc"]> env_scenario1.

(** A GitHub Actions run. *)
Definition env_github : Env :=
  list_to_map [("GITHUB_ACTIONS", "true"); ("GITHUB_REPOSITORY", "grp/demo")].

(** The request that validates a token. *)
Definition validation_request (token baseUrl : string) : Request :=
  mkRequest (baseUrl +:+ "/user") None {[ "PRIVATE-TOKEN" := token ]} None.

(** The request that creates a note on the entity [entityId]. *)
Definition create_note (this : GitLabApiClient) (entityType : EntityType)
    (entityId : number) (body : string) : Request :=
  client_request this
    (match entityType with
     | entity_merge_request =>
         project_endpoint this +:+ "/merge_requests/" +:+ number_to_string entityId
         +:+ "/notes"
     | entity_issue =>
         project_endpoint this +:+ "/issues/" +:+ number_to_string entityId +:+ "/notes"
     end)
    {| init_method := Some "POST";
       init_body := Some (JSON_stringify (JObj [("body", JStr body)]));
       init_headers := None |}.

(** A branch list: [main] is protected, [claude/fix] is not. *)
Definition branches_json : Json :=
  JArr [JObj [("name", JStr "main"); ("protected", JBool true)];
        JObj [("name", JStr "claude/fix"); ("protected", JBool false)]].

(** The message [delete_files] rejects a path with. *)
Definition outside_message (filePath : string) : string :=
  "Path '" +:+ filePath
  +:+ "' must be relative to repository root or within current working directory".

Definition sample_file_server : FileServer.Config :=
  FileServer.mkConfig "123" "claude/fix" "abc".

(** The read of the target branch is forbidden. *)
Definition world_forbidden : World :=
  fresh_world [respond 403 "403 Forbidden" None;
               respond 200 "" (Some (branch_json "main" "aaa111"));
               respond 201 "" (Some (branch_json "claude/fix" "aaa111"))].

(** The target branch is missing, [main] exists, and the create call
    loses a race: the branch is there by then. *)
Definition world_conflict : World :=
  fresh_world [respond 404 "404 Branch Not Found" None;
               respond 200 "" (Some (branch_json "main" "aaa111"));
               respond 400 "Branch already exists" None].

Definition sample_comment_server : CommentServer.Config :=
  CommentServer.mkConfig "123" "abc" "https://gitlab.com/api/v4".

(** A note as the forge lists it. *)
Definition note_json (id : Z) (body author : string) (system : bool) : Json :=
  JObj [("id", JNum id); ("body", JStr body);
        ("author", JObj [("username", JStr author)]);
        ("system", JBool system)].

Definition sample_notes : list Json :=
  [note_json 1 "please fix" "alice" false;
   note_json 2 "added 1 commit" "alice" true;
   note_json 3 "done" "claude" false].




(** * Theorems *)

(** ** Basic facts *)

Lemma truthy_Some v s : truthy v = Some s <-> v = Some s /\ s <> "".
Proof.
  unfold truthy. destruct v as [x|]; [|split; [discriminate | intros [? _]; discriminate]].
  destruct (decide (x = "")) as [->|Hne]; split.
  - discriminate.
  - intros [[= <-] Hs]. congruence.
  - intros [= ->]. auto.
  - intros [[= ->] _]. reflexivity.
Qed.

Lemma truthy_None v : truthy v = None <-> ~ present v.
Proof.
  split.
  - intros Hn (s & -> & Hs).
    assert (truthy (Some s) = Some s) by (by apply truthy_Some). congruence.
  - intros Hn. destruct (truthy v) as [s|] eqn:E; [|reflexivity].
    exfalso. apply Hn. exists s. by apply truthy_Some.
Qed.

Lemma truthy_present v s : v = Some s -> s <> "" -> truthy v = Some s.
Proof. intros. by apply truthy_Some. Qed.

Lemma js_or_truthy a b s : truthy a = Some s -> truthy (a ||| b) = Some s.
Proof. intros H. unfold js_or. by rewrite H. Qed.

Lemma js_or_falsy a b : truthy a = None -> a ||| b = b.
Proof. intros H. unfold js_or. by rewrite H. Qed.

Lemma ok_range r : ok r = true <-> 200 <= status r <= 299.
Proof. unfold ok. rewrite andb_true_iff, !Z.leb_le. reflexivity. Qed.

Lemma bind_Return_inv {A B} (m : Async A) (k : A -> Async B) (w w' : World) (b : B) :
  bind m k w = (Return b, w') ->
  exists a w1, m w = (Return a, w1) /\ k a w1 = (Return b, w').
Proof.
  unfold bind. destruct (m w) as [[a|e] w1]; [eauto | discriminate].
Qed.

Lemma lift_Return_inv {A} (c : Completion A) (w w' : World) (a : A) :
  lift c w = (Return a, w') -> c = Return a.
Proof. by intros [= -> _]. Qed.

Lemma getGitLabToken_any_world (env : Env) (w1 w2 : World) :
  fst (getGitLabToken env w1) = fst (getGitLabToken env w2).
Proof.
  unfold getGitLabToken. cbv zeta.
  destruct (truthy _); [done|].
  destruct (truthy _); [|done]. by destruct (decide _).
Qed.

(** ** Token provider *)

(** C5. Token resolution follows a fixed priority order and depends on the
    environment only: GITLAB_TOKEN, then GITLAB_ACCESS_TOKEN, then
    PRIVATE_TOKEN, the first present one being returned whether or not a
    job token is there; the job token of a GitLab CI run is returned when
    no explicit variable is present; with no source the provider fails. *)
Theorem getGitLabToken_priority (env : Env) (w : World) :
  (forall t, env !! "GITLAB_TOKEN" = Some t -> t <> "" ->
     fst (getGitLabToken env w) = Return t)
  /\ (forall t, ~ present (env !! "GITLAB_TOKEN") ->
        env !! "GITLAB_ACCESS_TOKEN" = Some t -> t <> "" ->
        fst (getGitLabToken env w) = Return t)
  /\ (forall t, ~ present (env !! "GITLAB_TOKEN") ->
        ~ present (env !! "GITLAB_ACCESS_TOKEN") ->
        env !! "PRIVATE_TOKEN" = Some t -> t <> "" ->
        fst (getGitLabToken env w) = Return t)
  /\ (forall t, ~ present (env !! "GITLAB_TOKEN") ->
        ~ present (env !! "GITLAB_ACCESS_TOKEN") ->
        ~ present (env !! "PRIVATE_TOKEN") ->
        env !! "CI_JOB_TOKEN" = Some t -> t <> "" ->
        env !! "GITLAB_CI" = Some "true" ->
        fst (getGitLabToken env w) = Return t)
  /\ (~ present (env !! "GITLAB_TOKEN") ->
      ~ present (env !! "GITLAB_ACCESS_TOKEN") ->
      ~ present (env !! "PRIVATE_TOKEN") ->
      ~ present (env !! "CI_JOB_TOKEN") \/ env !! "GITLAB_CI" <> Some "true" ->
      fst (getGitLabToken env w) = Throw (Error no_token_message))
  /\ (forall w', fst (getGitLabToken env w') = fst (getGitLabToken env w)).
Proof.
  unfold getGitLabToken. cbv zeta. repeat split.
  - intros t H1 Ht.
    by rewrite (js_or_truthy _ _ t)
      by (by apply js_or_truthy, truthy_present).
  - intros t N1 H2 Ht. apply truthy_None in N1.
    rewrite (js_or_falsy (env !! "GITLAB_TOKEN")) by done.
    by rewrite (js_or_truthy _ _ t) by (by apply truthy_present).
  - intros t N1 N2 H3 Ht. apply truthy_None in N1, N2.
    rewrite (js_or_falsy (env !! "GITLAB_TOKEN")) by done.
    rewrite (js_or_falsy (env !! "GITLAB_ACCESS_TOKEN")) by done.
    by rewrite (truthy_present _ t).
  - intros t N1 N2 N3 H4 Ht Hci. apply truthy_None in N1, N2, N3.
    rewrite (js_or_falsy (env !! "GITLAB_TOKEN")) by done.
    rewrite (js_or_falsy (env !! "GITLAB_ACCESS_TOKEN")) by done.
    rewrite N3, (truthy_present _ t) by done.
    by rewrite decide_True.
  - intros N1 N2 N3 N4. apply truthy_None in N1, N2, N3.
    rewrite (js_or_falsy (env !! "GITLAB_TOKEN")) by done.
    rewrite (js_or_falsy (env !! "GITLAB_ACCESS_TOKEN")) by done.
    rewrite N3.
    destruct N4 as [N4|N4].
    + apply truthy_None in N4. by rewrite N4.
    + destruct (truthy (env !! "CI_JOB_TOKEN")); [|done]. by rewrite decide_False.
  - intros w'.
    destruct (truthy _); [done|].
    destruct (truthy _); [|done]. by destruct (decide _).
Qed.

(** Discharges [~ present (env !! key)] for a concrete environment. *)
Ltac absent :=
  let s := fresh "s" in
  let H := fresh "H" in
  let Hs := fresh "Hs" in
  intros (s & H & Hs); vm_compute in H;
  first [ discriminate H | injection H as <-; by apply Hs ].

Lemma getGitLabToken_priority_witness :
  fst (getGitLabToken env_scenario3 (fresh_world [])) = Return "abc"
  /\ fst (getGitLabToken env_access_token (fresh_world [])) = Return "pat"
  /\ fst (getGitLabToken env_private_token (fresh_world [])) = Return "priv"
  /\ fst (getGitLabToken env_job_token (fresh_world [])) = Return "job"
  /\ fst (getGitLabToken env_stray_job_token (fresh_world []))
     = Throw (Error no_token_message).
Proof.
  split; [|split; [|split; [|split]]].
  - destruct (getGitLabToken_priority env_scenario3 (fresh_world []))
      as (H & _).
    apply H; [reflexivity | discriminate].
  - destruct (getGitLabToken_priority env_access_token (fresh_world []))
      as (_ & H & _).
    apply H; [absent | reflexivity | discriminate].
  - destruct (getGitLabToken_priority env_private_token (fresh_world []))
      as (_ & _ & H & _).
    apply H; [absent | absent | reflexivity | discriminate].
  - destruct (getGitLabToken_priority env_job_token (fresh_world []))
      as (_ & _ & _ & H & _).
    apply H; [absent | absent | absent | reflexivity | discriminate | reflexivity].
  - destruct (getGitLabToken_priority env_stray_job_token (fresh_world []))
      as (_ & _ & _ & _ & H & _).
    apply H; [absent | absent | absent | right; vm_compute; discriminate].
Defined.

(** C7. Validation never throws. Every call sends one request and one
    only: the GET of the [/user] endpoint below the base URL, with the
    token in the PRIVATE-TOKEN header; it consumes the answer to that
    request and prints nothing on standard output. The answer is [true]
    exactly when that request was answered with a status from 200 to
    299; then, and on every other delivered answer, nothing else has
    changed. A rejected request is answered with [false], after one line
    on standard error. *)
Theorem validateGitLabToken_sound (token baseUrl : string) (w : World) :
  exists b lines,
    validateGitLabToken token baseUrl w
    = (Return b,
       mkWorld (tl (network w)) (requests w ++ [validation_request token baseUrl])
               (timers w) (stdout w) (stderr w ++ lines) (files w))
    /\ (b = true <->
        exists r, head (network w) = Some (Delivered r) /\ 200 <= status r <= 299)
    /\ (forall r, head (network w) = Some (Delivered r) -> lines = [])
    /\ (forall e, head (network w) = Some (Rejected e) ->
          b = false /\ lines = ["Token validation failed: " +:+ message e])
    /\ (network w = [] -> b = false).
Proof.
  unfold validateGitLabToken, validation_request, try_catch, bind, fetch, ret,
    console_error.
  destruct (network w) as [|[r|e] rest] eqn:Hnet; simpl.
  - exists false, ["Token validation failed: fetch failed"].
    split; [reflexivity|]. split; [split; [done | intros (r & [=] & _)]|].
    split; [intros r [=]|]. split; [intros e [=] | done].
  - exists (ok r), []. rewrite app_nil_r. split; [reflexivity|].
    split; [split|].
    + intros Hok. exists r. split; [done|]. by apply ok_range.
    + intros (r' & [= <-] & Hr). by apply ok_range.
    + split; [done|]. split; [intros e [=] | done].
  - exists false, ["Token validation failed: " +:+ message e].
    split; [reflexivity|]. split; [split; [done | intros (r & [=] & _)]|].
    split; [intros r [=]|]. split; [by intros e' [= <-] | done].
Qed.

Lemma validateGitLabToken_sound_witness :
  fst (validateGitLabToken "abc" "https://gitlab.com/api/v4"
         (fresh_world [Rejected (TypeError "fetch failed")])) = Return false
  /\ fst (validateGitLabToken "abc" "https://gitlab.com/api/v4" (fresh_world []))
     = Return false
  /\ validateGitLabToken "abc" "https://gitlab.com/api/v4"
       (fresh_world [respond 200 "{}" None])
     = (Return true,
        mkWorld [] [validation_request "abc" "https://gitlab.com/api/v4"] [] [] [] ∅).
Proof.
  split; [|split].
  - destruct (validateGitLabToken_sound "abc" "https://gitlab.com/api/v4"
                (fresh_world [Rejected (TypeError "fetch failed")]))
      as (b & lines & -> & _ & _ & Hrej & _).
    simpl. f_equal. by apply (Hrej (TypeError "fetch failed")).
  - destruct (validateGitLabToken_sound "abc" "https://gitlab.com/api/v4"
                (fresh_world []))
      as (b & lines & -> & _ & _ & _ & Hnone).
    simpl. f_equal. by apply Hnone.
  - destruct (validateGitLabToken_sound "abc" "https://gitlab.com/api/v4"
                (fresh_world [respond 200 "{}" None]))
      as (b & lines & -> & Htrue & Hlines & _).
    rewrite (Hlines _ eq_refl).
    assert (b = true) as ->; [|reflexivity].
    apply Htrue. eexists. split; [reflexivity|]. simpl. lia.
Defined.

(** ** Context resolver *)

Lemma parseGitLabContext_eventType (env : Env) ctx :
  parseGitLabContext env = Return ctx ->
  eventType ctx =
    match truthy (env !! "CI_MERGE_REQUEST_IID") with
    | Some _ => merge_request
    | None =>
        match truthy (env !! "CI_COMMIT_REF_NAME") with
        | Some _ =>
            if decide (env !! "CI_COMMIT_REF_NAME"
                       ≠ env !! "CI_MERGE_REQUEST_TARGET_BRANCH_NAME")
            then push else pipeline
        | None => pipeline
        end
    end.
Proof.
  unfold parseGitLabContext.
  destruct (truthy (env !! "CI_PROJECT_ID")); [|discriminate].
  destruct (truthy (env !! "CI_PROJECT_NAME")); [|discriminate].
  destruct (truthy (env !! "CI_PROJECT_NAMESPACE")); [|discriminate].
  by intros [= <-].
Qed.

(** C6. For every accepted environment: a present merge-request
    identifier gives [merge_request] whatever else is set; otherwise a
    present commit reference that differs from the merge-target reference
    (an unset target differs from every reference) gives [push]; otherwise
    the event is [pipeline]. *)
Theorem parseGitLabContext_classification (env : Env) (ctx : GitLabPlatformContext) :
  parseGitLabContext env = Return ctx ->
  (present (env !! "CI_MERGE_REQUEST_IID") -> eventType ctx = merge_request)
  /\ (~ present (env !! "CI_MERGE_REQUEST_IID") ->
      present (env !! "CI_COMMIT_REF_NAME") ->
      env !! "CI_COMMIT_REF_NAME" <> env !! "CI_MERGE_REQUEST_TARGET_BRANCH_NAME" ->
      eventType ctx = push)
  /\ (~ present (env !! "CI_MERGE_REQUEST_IID") ->
      present (env !! "CI_COMMIT_REF_NAME") ->
      env !! "CI_MERGE_REQUEST_TARGET_BRANCH_NAME" = None ->
      eventType ctx = push)
  /\ (~ present (env !! "CI_MERGE_REQUEST_IID") ->
      ~ present (env !! "CI_COMMIT_REF_NAME")
      \/ env !! "CI_COMMIT_REF_NAME" = env !! "CI_MERGE_REQUEST_TARGET_BRANCH_NAME" ->
      eventType ctx = pipeline).
Proof.
  intros Hctx. rewrite (parseGitLabContext_eventType env ctx Hctx).
  repeat split.
  - intros (s & Hs & Hne). by rewrite (truthy_present _ s).
  - intros Hmr (s & Hs & Hne) Hdiff. apply truthy_None in Hmr. rewrite Hmr.
    rewrite (truthy_present _ s) by done. by rewrite decide_True.
  - intros Hmr (s & Hs & Hne) Hunset. apply truthy_None in Hmr. rewrite Hmr.
    rewrite (truthy_present _ s) by done. rewrite decide_True; [done|].
    rewrite Hs, Hunset. discriminate.
  - intros Hmr Hsame. apply truthy_None in Hmr. rewrite Hmr.
    destruct Hsame as [Href|Href].
    + apply truthy_None in Href. by rewrite Href.
    + destruct (truthy (env !! "CI_COMMIT_REF_NAME")); [|done].
      rewrite decide_False; [done|]. intros Hn. by apply Hn.
Qed.

Ltac is_present v := exists v; split; [reflexivity | discriminate].

Lemma parseGitLabContext_classification_witness :
  (exists ctx, parseGitLabContext env_scenario1 = Return ctx
               /\ eventType ctx = merge_request
               /\ projectId ctx = Num 123
               /\ mergeRequestIid ctx = Some (Num 789))
  /\ (exists ctx, parseGitLabContext env_scenario2 = Return ctx /\ eventType ctx = push)
  /\ (exists ctx, parseGitLabContext env_pipeline = Return ctx /\ eventType ctx = pipeline).
Proof.
  split; [|split].
  - eexists. split; [reflexivity|]. split; [|split; reflexivity].
    destruct (parseGitLabContext_classification env_scenario1 _ eq_refl) as (H & _).
    apply H. is_present "789".
  - eexists. split; [reflexivity|].
    destruct (parseGitLabContext_classification env_scenario2 _ eq_refl)
      as (_ & _ & H & _).
    apply H; [absent | is_present "feature" | reflexivity].
  - eexists. split; [reflexivity|].
    destruct (parseGitLabContext_classification env_pipeline _ eq_refl)
      as (_ & _ & _ & H).
    apply H; [absent | right; reflexivity].
Defined.

Example scenario1_resolves : parseGitLabContext env_scenario1 = Return context_scenario1.
Proof. reflexivity. Qed.

(** The two guards of the parser: a missing project id is reported under
    its name, a missing project name or namespace under both names, and
    every returned context has a non-empty owner and name. *)
Lemma parseGitLabContext_guards (env : Env) :
  (~ present (env !! "CI_PROJECT_ID") ->
   parseGitLabContext env
   = Throw (Error "CI_PROJECT_ID environment variable is required for GitLab context"))
  /\ (present (env !! "CI_PROJECT_ID") ->
      ~ present (env !! "CI_PROJECT_NAME") \/ ~ present (env !! "CI_PROJECT_NAMESPACE") ->
      parseGitLabContext env
      = Throw (Error "CI_PROJECT_NAME and CI_PROJECT_NAMESPACE are required"))
  /\ (forall ctx, parseGitLabContext env = Return ctx ->
      env !! "CI_PROJECT_NAMESPACE" = Some (owner (repository ctx))
      /\ owner (repository ctx) <> ""
      /\ env !! "CI_PROJECT_NAME" = Some (name (repository ctx))
      /\ name (repository ctx) <> ""
      /\ fullName (repository ctx) = env !! "CI_PROJECT_PATH").
Proof.
  unfold parseGitLabContext. split; [|split].
  - intros Hid. apply truthy_None in Hid. by rewrite Hid.
  - intros (s & Hs & Hne) Hmissing. rewrite (truthy_present _ s) by done.
    destruct Hmissing as [H|H]; apply truthy_None in H; rewrite H; [done|].
    by destruct (truthy (env !! "CI_PROJECT_NAME")).
  - intros ctx.
    destruct (truthy (env !! "CI_PROJECT_ID")); [|discriminate].
    destruct (truthy (env !! "CI_PROJECT_NAME")) as [n|] eqn:Hn; [|discriminate].
    destruct (truthy (env !! "CI_PROJECT_NAMESPACE")) as [o|] eqn:Ho; [|discriminate].
    intros [= <-]. simpl.
    apply truthy_Some in Hn as [Hn Hn'], Ho as [Ho Ho']. done.
Qed.

(** C3. The project path is never checked: the environment of scenario 1
    has a project id, name and namespace and no CI_PROJECT_PATH, and the
    parser returns a context whose [repository.fullName] is undefined. *)
Theorem parseGitLabContext_fullName_unchecked :
  env_scenario1 !! "CI_PROJECT_PATH" = None
  /\ exists ctx,
       parseGitLabContext env_scenario1 = Return ctx
       /\ fullName (repository ctx) = None.
Proof. split; [reflexivity|]. exists context_scenario1. split; reflexivity. Qed.

(** ** Permission checker *)

(** C4. The check never throws; it answers [true] only when the lookup
    succeeded and the access level it fetched is a number of at least 30;
    it answers [false] whenever the lookup fails, be it the request, the
    status, the parse of the body or the shape of the permissions. For a
    numeric access level the answer is exactly the comparison with 30. *)
Theorem checkWritePermissions_fail_closed
    (client : GitLabApiClient) (context : GitLabPlatformContext) (w : World) :
  exists b w',
    checkWritePermissions client context w = (Return b, w')
    /\ (b = true ->
        exists permissions level n,
          fst (getUserPermissions client w) = Return permissions
          /\ access_level_of permissions = Return level
          /\ ToNumber level = Num n /\ 30 <= n)
    /\ (forall e, fst (getUserPermissions client w) = Throw e -> b = false)
    /\ (forall permissions e,
          fst (getUserPermissions client w) = Return permissions ->
          access_level_of permissions = Throw e -> b = false)
    /\ (forall fields access n,
          fst (getUserPermissions client w) = Return (Some (JObj fields)) ->
          lookup_field "project_access" fields = Some (JObj access) ->
          lookup_field "access_level" access = Some (JNum n) ->
          b = true <-> 30 <= n).
Proof.
  unfold checkWritePermissions, try_catch, bind, lift, ret, console_error.
  destruct (getUserPermissions client w) as [[permissions|e] w1]; simpl.
  - destruct (access_level_of permissions) as [level|e] eqn:Hlevel; simpl.
    + eexists _, _. split; [reflexivity|]. split; [|split; [|split]].
      * unfold js_ge. destruct (ToNumber level) as [|n] eqn:Hn; [done|].
        intros Hge. exists permissions, level, n. repeat split; try done.
        by apply Z.leb_le.
      * discriminate.
      * intros p e [= <-]. by rewrite Hlevel.
      * intros fields access n [= ->] Hpa Hal. revert Hlevel.
        unfold access_level_of. simpl. rewrite Hpa. simpl. rewrite Hal. simpl.
        destruct (n =? 0) eqn:Hz; simpl; intros [= <-]; unfold js_ge; simpl;
          rewrite Z.leb_le; [|done].
        apply Z.eqb_eq in Hz. lia.
    + eexists _, _. split; [reflexivity|]. split; [|split; [|split]]; try done.
      intros fields access n [= ->] Hpa Hal. revert Hlevel.
      unfold access_level_of. simpl. by rewrite Hpa.
  - eexists _, _. split; [reflexivity|]. split; [|split; [|split]]; done.
Qed.

Lemma checkWritePermissions_fail_closed_witness :
  fst (checkWritePermissions sample_client context_scenario1 world_reset_reset_2xx)
  = Return true
  /\ fst (checkWritePermissions sample_client context_scenario1
            (fresh_world [respond 200 "{}" (Some (project_json 20))])) = Return false
  /\ fst (checkWritePermissions sample_client context_scenario1
            (fresh_world [respond 503 "busy" None])) = Return false
  /\ fst (checkWritePermissions sample_client context_scenario1
            (fresh_world [respond 200 "<html>" None])) = Return false
  /\ fst (checkWritePermissions sample_client context_scenario1
            (fresh_world [respond 200 "{}" (Some (JObj []))])) = Return false.
Proof.
  split; [|split; [|split; [|split]]].
  - destruct (checkWritePermissions_fail_closed sample_client context_scenario1
                world_reset_reset_2xx) as (b & w' & -> & _ & _ & _ & H).
    simpl. f_equal.
    apply (H _ _ 40 eq_refl eq_refl eq_refl). lia.
  - destruct (checkWritePermissions_fail_closed sample_client context_scenario1
                (fresh_world [respond 200 "{}" (Some (project_json 20))]))
      as (b & w' & -> & _ & _ & _ & H).
    simpl. f_equal.
    destruct b; [|reflexivity].
    assert (30 <= 20) by (by apply (H _ _ 20 eq_refl eq_refl eq_refl)). lia.
  - destruct (checkWritePermissions_fail_closed sample_client context_scenario1
                (fresh_world [respond 503 "busy" None])) as (b & w' & -> & _ & H & _).
    simpl. f_equal. by apply (H (Error "GitLab API error 503: busy")).
  - destruct (checkWritePermissions_fail_closed sample_client context_scenario1
                (fresh_world [respond 200 "<html>" None])) as (b & w' & -> & _ & H & _).
    simpl. f_equal. by apply (H (SyntaxError "Unexpected token in JSON")).
  - destruct (checkWritePermissions_fail_closed sample_client context_scenario1
                (fresh_world [respond 200 "{}" (Some (JObj []))]))
      as (b & w' & -> & _ & _ & H & _).
    simpl. f_equal.
    by apply (H None
                (TypeError "Cannot read properties of undefined (reading 'project_access')")).
Defined.

(** ** Backoff retrier *)

Lemma retry_loop_unfold {A} (operation : Async A) options more delay w :
  retry_loop operation options more delay w =
  match operation w with
  | (Return a, w') => (Return a, w')
  | (Throw e, w') =>
      match more with
      | O => (Throw e, w')
      | S more' =>
          retry_loop operation options more'
            (Z.min (delay * backoffFactor options) (maxDelayMs options))
            (snd (sleep delay w'))
      end
  end.
Proof.
  destruct more; simpl; unfold try_catch, bind, throw;
    by destruct (operation w) as [[a|e] w'].
Qed.

(** An operation that succeeds at once is run once, with no delay. *)
Lemma retryWithBackoff_first_success {A} (operation : Async A) options w a w' :
  operation w = (Return a, w') ->
  retryWithBackoff operation options w = (Return a, w').
Proof.
  intros H. unfold retryWithBackoff. by rewrite retry_loop_unfold, H.
Qed.

(** The requests of a retried [fetch]: the same request, at least once and
    at most once per attempt. *)
Lemma retry_loop_fetch_requests rq options more delay w :
  exists k, (1 <= k <= S more)%nat
    /\ requests (snd (retry_loop (fetch rq) options more delay w))
       = requests w ++ replicate k rq.
Proof.
  revert delay w. induction more as [|more IH]; intros delay w;
    rewrite retry_loop_unfold; unfold fetch at 1.
  - exists 1%nat. split; [lia|]. by destruct (network w) as [|[r|e] rest].
  - destruct (network w) as [|[r|e] rest]; simpl.
    + edestruct IH as (k & Hk & ->). exists (S k). split; [lia|].
      simpl. by rewrite <- app_assoc.
    + exists 1%nat. split; [lia|]. done.
    + edestruct IH as (k & Hk & ->). exists (S k). split; [lia|].
      simpl. by rewrite <- app_assoc.
Qed.

Lemma makeRequest_requests this endpoint options w :
  exists k, (1 <= k <= 3)%nat
    /\ requests (snd (makeRequest this endpoint options w))
       = requests w ++ replicate k (client_request this endpoint options).
Proof.
  destruct (retry_loop_fetch_requests (client_request this endpoint options)
              client_policy (pred (maxAttempts client_policy))
              (initialDelayMs client_policy) w) as (k & Hk & Hreq).
  exists k. split; [done|].
  unfold makeRequest, makeRequest_with, retryWithBackoff, bind.
  unfold client_request in Hreq.
  destruct (retry_loop _ _ _ _ w) as [[r|e] w1]; [|done].
  by destruct (ok r).
Qed.

(** A response that is not ok ends the call at the first attempt, whatever
    the retrier, as long as the retrier hands back the result of an
    operation that succeeds at once: the operation given to the retrier is
    the bare [fetch], which succeeds on every status. The error carries the
    status and the body, and nothing is retried. *)
Lemma makeRequest_with_not_ok (retry : Retrier) this endpoint options w r rest :
  (forall A (operation : Async A) policy w a w',
      operation w = (Return a, w') -> retry A operation policy w = (Return a, w')) ->
  network w = Delivered r :: rest -> ok r = false ->
  makeRequest_with retry this endpoint options w
  = (Throw (Error ("GitLab API error " +:+ pretty (status r) +:+ ": " +:+ body r)),
     mkWorld rest (requests w ++ [client_request this endpoint options]) (timers w)
             (stdout w) (stderr w) (files w)).
Proof.
  intros Hretry Hnet Hok. unfold makeRequest_with, bind.
  erewrite Hretry; [|unfold fetch; rewrite Hnet; reflexivity].
  by rewrite Hok.
Qed.

Lemma makeRequest_not_ok this endpoint options w r rest :
  network w = Delivered r :: rest -> ok r = false ->
  makeRequest this endpoint options w
  = (Throw (Error ("GitLab API error " +:+ pretty (status r) +:+ ": " +:+ body r)),
     mkWorld rest (requests w ++ [client_request this endpoint options]) (timers w)
             (stdout w) (stderr w) (files w)).
Proof.
  apply makeRequest_with_not_ok. intros A. apply retryWithBackoff_first_success.
Qed.

(** C1. A call whose first two responses are 500 and whose third is 200:
    the client sends one request, consumes one response, sleeps through
    no delay and throws the error of the first response; the two other
    responses are never asked for. *)
Theorem makeRequest_gives_up_on_first_5xx :
  exists w',
    getProject sample_client world_5xx_5xx_2xx
    = (Throw (Error "GitLab API error 500: boom"), w')
    /\ length (requests w') = 1%nat
    /\ timers w' = []
    /\ network w' = [respond 500 "boom" None; respond 200 "{}" (Some (project_json 40))].
Proof. eexists. split; [reflexivity|]. repeat split. Qed.

(** The retrier itself does retry: two rejected requests and a success
    make three attempts with delays of 1000 and 2000 ms. *)
Example makeRequest_retries_rejections :
  exists w',
    getProject sample_client world_reset_reset_2xx = (Return (project_json 40), w')
    /\ length (requests w') = 3%nat
    /\ timers w' = [1000; 2000].
Proof. eexists. split; [reflexivity|]. repeat split. Qed.

(** Three rejected requests exhaust the budget: three attempts, and the
    last failure is the one that is thrown. *)
Example makeRequest_exhausts_budget :
  exists w',
    getProject sample_client
      (fresh_world [Rejected (TypeError "reset 1"); Rejected (TypeError "reset 2");
                    Rejected (TypeError "reset 3");
                    respond 200 "{}" (Some (project_json 40))])
    = (Throw (TypeError "reset 3"), w')
    /\ length (requests w') = 3%nat
    /\ timers w' = [1000; 2000].
Proof. eexists. split; [reflexivity|]. repeat split. Qed.

(** The commit operation of the file server raises inside the retried
    operation, so the same three responses end in success there. *)
Example create_commit_retries_5xx :
  exists result w',
    create_commit ∅ "123" "claude/fix" "msg" "abc" [] [] world_5xx_5xx_2xx
    = (Return result, w')
    /\ length (requests w') = 3%nat
    /\ timers w' = [1000; 2000].
Proof. eexists _, _. split; [reflexivity|]. repeat split. Qed.

(** A body that is [null] is an error inside the operation as well, so
    the commit is sent again. *)
Example create_commit_retries_null_body :
  exists e w',
    create_commit ∅ "123" "claude/fix" "msg" "abc" [] []
      (fresh_world [respond 200 "null" (Some JNull); respond 200 "null" (Some JNull);
                    respond 200 "null" (Some JNull)])
    = (Throw e, w')
    /\ length (requests w') = 3%nat.
Proof. eexists _, _. split; [reflexivity|]. reflexivity. Qed.

(** ** Branch resolution *)

Lemma fetch_delivered rq w r rest :
  network w = Delivered r :: rest ->
  fetch rq w = (Return r, mkWorld rest (requests w ++ [rq]) (timers w)
                                  (stdout w) (stderr w) (files w)).
Proof. intros H. unfold fetch. by rewrite H. Qed.

Lemma commit_id_has_head r head w :
  has_head r head -> commit_id r w = (Return (Some (JStr head)), w).
Proof.
  intros (_ & branchData & commit & Hp & Hc & Hid).
  unfold commit_id, bind, json, lift, ret. by rewrite Hp, Hc, Hid.
Qed.

Lemma not_found_not_ok r : status r = 404 -> ok r = false.
Proof. unfold ok. by intros ->. Qed.

Lemma first_base_or_default env base :
  first_base env base -> or_default (env !! "BASE_BRANCH") "main" = base.
Proof.
  unfold or_default. intros [[H Hne]|[H ->]].
  - by rewrite (truthy_present _ base).
  - apply truthy_None in H. by rewrite H.
Qed.

(** C9. When the read of the target branch says that the branch exists
    with head [head], the helper returns [head]; the read is the only
    request it sends, and nothing else in the world changes. Two calls in
    succession on a branch that exists return the same head and send two
    reads. The read has no method of its own: it is a GET, and no
    mutating request is sent. *)
Theorem getOrCreateBranchRef_idempotent
    (env : Env) (projectId branchName gitlabToken : string) (w : World) :
  (forall r head rest,
     network w = Delivered r :: rest -> has_head r head ->
     getOrCreateBranchRef env projectId branchName gitlabToken w
     = (Return (Some (JStr head)),
        mkWorld rest
                (requests w ++ [read_branch env projectId branchName gitlabToken])
                (timers w) (stdout w) (stderr w) (files w)))
  /\ (forall r1 r2 head rest,
        network w = Delivered r1 :: Delivered r2 :: rest ->
        has_head r1 head -> has_head r2 head ->
        (once <- getOrCreateBranchRef env projectId branchName gitlabToken ;;
         twice <- getOrCreateBranchRef env projectId branchName gitlabToken ;;
         ret (once, twice)) w
        = (Return (Some (JStr head), Some (JStr head)),
           mkWorld rest
                   (requests w ++ [read_branch env projectId branchName gitlabToken;
                                   read_branch env projectId branchName gitlabToken])
                   (timers w) (stdout w) (stderr w) (files w)))
  /\ method (read_branch env projectId branchName gitlabToken) = None.
Proof.
  assert (Hone : forall w r head rest,
             network w = Delivered r :: rest -> has_head r head ->
             getOrCreateBranchRef env projectId branchName gitlabToken w
             = (Return (Some (JStr head)),
                mkWorld rest
                  (requests w ++ [read_branch env projectId branchName gitlabToken])
                  (timers w) (stdout w) (stderr w) (files w))).
  { clear w. intros w r head rest Hnet Hhead.
    unfold getOrCreateBranchRef. cbv zeta. unfold bind at 1.
    rewrite (fetch_delivered _ w r rest Hnet).
    rewrite (proj1 Hhead). by rewrite (commit_id_has_head r head). }
  split; [apply Hone|]. split; [|reflexivity].
  intros r1 r2 head rest Hnet H1 H2.
  unfold bind at 1. rewrite (Hone w r1 head _ Hnet H1).
  unfold bind at 1. erewrite Hone; [|reflexivity|exact H2].
  unfold ret. simpl. by rewrite <- app_assoc.
Qed.

Ltac prove_has_head :=
  split; [reflexivity | eexists _, _; split; [reflexivity | split; reflexivity]].

Lemma getOrCreateBranchRef_idempotent_witness :
  fst (getOrCreateBranchRef ∅ "123" "claude/fix" "abc" world_branch_exists)
  = Return (Some (JStr "fff666"))
  /\ fst ((once <- getOrCreateBranchRef ∅ "123" "claude/fix" "abc" ;;
           twice <- getOrCreateBranchRef ∅ "123" "claude/fix" "abc" ;;
           ret (once, twice)) world_branch_exists)
     = Return (Some (JStr "fff666"), Some (JStr "fff666")).
Proof.
  destruct (getOrCreateBranchRef_idempotent ∅ "123" "claude/fix" "abc"
              world_branch_exists) as (Hone & Htwice & _).
  split.
  - erewrite Hone; [reflexivity | reflexivity | prove_has_head].
  - erewrite Htwice; [reflexivity | reflexivity | prove_has_head | prove_has_head].
Defined.

(** C8, as the specification words it, fails: with no override and a
    missing target branch the helper does not ask the project for its
    default branch; its second request reads the branch [main], and the
    new branch is created from the head of [main]. *)
Lemma getOrCreateBranchRef_reads_main_first :
  let result := getOrCreateBranchRef ∅ "123" "claude/fix" "abc" world_branch_missing in
  (∅ : Env) !! "BASE_BRANCH" = None
  /\ fst result = Return (Some (JStr "aaa111"))
  /\ url <$> requests (snd result)
     = ["https://gitlab.com/api/v4/projects/123/repository/branches/claude%2Ffix";
        "https://gitlab.com/api/v4/projects/123/repository/branches/main";
        "https://gitlab.com/api/v4/projects/123/repository/branches"]
  /\ requests (snd result) !! 1%nat <> Some (fallback_as_specified ∅ "123" "abc").
Proof.
  cbv zeta. split; [reflexivity|]. split; [reflexivity|]. split; [reflexivity|].
  intros H. apply (f_equal (fmap url)) in H. vm_compute in H. discriminate H.
Qed.

(** C8, amended. After a 404 on the target branch the helper reads the
    override branch when BASE_BRANCH is present and the branch [main]
    otherwise. When that read succeeds, the target branch is created from
    its head. When it does not, the helper asks the project for its
    default branch, reads that branch and creates the target from its
    head. When the create call succeeds, the head the branch was created
    from is returned. *)
Theorem getOrCreateBranchRef_fallback
    (env : Env) (projectId branchName gitlabToken base : string)
    (w : World) (missing : Response) (rest0 : list FetchOutcome) :
  network w = Delivered missing :: rest0 ->
  status missing = 404 ->
  first_base env base ->
  (forall found created head rest,
     rest0 = Delivered found :: Delivered created :: rest ->
     has_head found head -> ok created = true ->
     getOrCreateBranchRef env projectId branchName gitlabToken w
     = (Return (Some (JStr head)),
        mkWorld rest
          (requests w ++ [read_branch env projectId branchName gitlabToken;
                          read_branch env projectId base gitlabToken;
                          create_branch env projectId branchName head gitlabToken])
          (timers w) (stdout w ++ ["Successfully created branch " +:+ branchName])
          (stderr w) (files w)))
  /\ (forall failed project found created defaultBranch head rest,
        rest0 = Delivered failed :: Delivered project :: Delivered found
                :: Delivered created :: rest ->
        ok failed = false ->
        reports_default_branch project defaultBranch ->
        has_head found head -> ok created = true ->
        getOrCreateBranchRef env projectId branchName gitlabToken w
        = (Return (Some (JStr head)),
           mkWorld rest
             (requests w ++ [read_branch env projectId branchName gitlabToken;
                             read_branch env projectId base gitlabToken;
                             read_project env projectId gitlabToken;
                             read_branch env projectId defaultBranch gitlabToken;
                             create_branch env projectId branchName head gitlabToken])
             (timers w) (stdout w ++ ["Successfully created branch " +:+ branchName])
             (stderr w) (files w))).
Proof.
  intros Hnet H404 Hbase.
  apply first_base_or_default in Hbase.
  pose proof (not_found_not_ok _ H404) as Hnok.
  split.
  - intros found created head rest -> Hhead Hcreated.
    unfold getOrCreateBranchRef. cbv zeta. rewrite Hbase.
    unfold bind at 1. rewrite (fetch_delivered _ w missing _ Hnet).
    rewrite Hnok, H404, Z.eqb_refl. cbn [negb]. cbv iota.
    unfold bind at 1. erewrite fetch_delivered by reflexivity.
    unfold bind at 1. rewrite (proj1 Hhead). cbn [negb]. cbv iota.
    rewrite (commit_id_has_head found head) by done.
    unfold bind at 1. erewrite fetch_delivered by reflexivity.
    rewrite Hcreated. cbn [negb]. cbv iota.
    unfold bind, console_log, ret. simpl.
    by rewrite <- !app_assoc.
  - intros failed project found created defaultBranch head rest ->
      Hfailed (Hpok & projectData & Hparsed & Hdefault) Hhead Hcreated.
    unfold getOrCreateBranchRef. cbv zeta. rewrite Hbase.
    unfold bind at 1. rewrite (fetch_delivered _ w missing _ Hnet).
    rewrite Hnok, H404, Z.eqb_refl. cbn [negb]. cbv iota.
    unfold bind at 1. erewrite fetch_delivered by reflexivity.
    unfold bind at 1. rewrite Hfailed. cbn [negb]. cbv iota.
    unfold bind at 1. erewrite fetch_delivered by reflexivity.
    rewrite Hpok. cbn [negb]. cbv iota.
    unfold bind at 1. unfold json at 1. rewrite Hparsed. unfold ret at 1.
    unfold bind at 1. unfold lift at 1. rewrite Hdefault.
    unfold bind at 1. simpl from_option.
    erewrite fetch_delivered by reflexivity.
    rewrite (proj1 Hhead). cbn [negb]. cbv iota.
    rewrite (commit_id_has_head found head) by done.
    unfold bind at 1. erewrite fetch_delivered by reflexivity.
    rewrite Hcreated. cbn [negb]. cbv iota.
    unfold bind, console_log, ret. simpl.
    by rewrite <- !app_assoc.
Qed.

Lemma getOrCreateBranchRef_fallback_witness :
  fst (getOrCreateBranchRef ∅ "123" "claude/fix" "abc" world_branch_missing)
  = Return (Some (JStr "aaa111"))
  /\ fst (getOrCreateBranchRef ∅ "123" "claude/fix" "abc" world_main_missing)
     = Return (Some (JStr "ddd444")).
Proof.
  assert (Hbase : first_base ∅ "main") by (right; split; [absent | reflexivity]).
  split.
  - destruct (getOrCreateBranchRef_fallback ∅ "123" "claude/fix" "abc" "main"
                world_branch_missing _ _ eq_refl eq_refl Hbase) as [H _].
    erewrite H; [reflexivity | reflexivity | prove_has_head | reflexivity].
  - destruct (getOrCreateBranchRef_fallback ∅ "123" "claude/fix" "abc" "main"
                world_main_missing _ _ eq_refl eq_refl Hbase) as [_ H].
    erewrite H; [reflexivity | reflexivity | reflexivity | | prove_has_head | reflexivity].
    split; [reflexivity | eexists; split; reflexivity].
Defined.

(** ** Updating a comment *)

(** C10, as stated, fails: with the entity id 0 and the entity type
    [issue] both supplied, the update is not routed to the notes endpoint;
    the method throws and sends nothing. *)
Lemma updateComment_rejects_zero_id :
  ~ routed_as_specified sample_client (Num 5) "done" (Num 0) entity_issue
      (fresh_world [respond 200 "{}" (Some (JObj []))]).
Proof.
  intros (k & Hk & Hreq). vm_compute in Hreq.
  destruct k; [lia | discriminate Hreq].
Qed.

(** C10, amended. When the entity id is omitted, zero or NaN, or the
    entity type is omitted, the method throws before any request is sent:
    the world is left as it was. When the entity id is a non-zero number
    and the entity type is supplied, every request of the call is the PUT
    on the notes endpoint of the merge request or of the issue, as the
    entity type says, and there is at least one and at most three. *)
Theorem updateComment_routing (this : GitLabApiClient) (noteId : number)
    (body : string) (entityId : option number) (entityType : option EntityType)
    (w : World) :
  (entityId = None \/ entityId = Some (Num 0) \/ entityId = Some NaN
   \/ entityType = None ->
   updateComment this noteId body entityId entityType w
   = (Throw (Error "entityId and entityType are required for GitLab updateComment"), w))
  /\ (forall n type,
        entityId = Some (Num n) -> n <> 0 -> entityType = Some type ->
        exists k, (1 <= k <= 3)%nat
          /\ requests (snd (updateComment this noteId body entityId entityType w))
             = requests w ++ replicate k (update_note this type (Num n) noteId body)).
Proof.
  split.
  - intros [ -> | [ -> | [ -> | -> ] ] ]; unfold updateComment; simpl; try done.
    by destruct (truthy_number entityId).
  - intros n type -> Hn ->. unfold updateComment, truthy_number.
    rewrite decide_False by done.
    unfold update_note.
    match goal with
    | |- context [makeRequest this ?endpoint ?options] =>
        destruct (makeRequest_requests this endpoint options w) as (k & Hk & Hreq);
        exists k; split; [done|];
        unfold bind; destruct (makeRequest this endpoint options w) as [[r|e] w1]
    end.
    + simpl in Hreq. unfold json. destruct (parsed r); simpl;
        rewrite Hreq; by destruct type.
    + simpl in Hreq. simpl. rewrite Hreq. by destruct type.
Qed.

Lemma updateComment_routing_witness :
  updateComment sample_client (Num 5) "done" None (Some entity_issue)
    (fresh_world [respond 200 "{}" (Some (JObj []))])
  = (Throw (Error "entityId and entityType are required for GitLab updateComment"),
     fresh_world [respond 200 "{}" (Some (JObj []))])
  /\ exists k, (1 <= k <= 3)%nat
       /\ requests (snd (updateComment sample_client (Num 5) "done" (Some (Num 7))
                           (Some entity_merge_request)
                           (fresh_world [respond 200 "{}" (Some (JObj []))])))
          = replicate k (update_note sample_client entity_merge_request (Num 7) (Num 5) "done").
Proof.
  split.
  - destruct (updateComment_routing sample_client (Num 5) "done" None
                (Some entity_issue) (fresh_world [respond 200 "{}" (Some (JObj []))]))
      as [H _].
    apply H. by left.
  - destruct (updateComment_routing sample_client (Num 5) "done" (Some (Num 7))
                (Some entity_merge_request)
                (fresh_world [respond 200 "{}" (Some (JObj []))])) as [_ H].
    apply (H 7 entity_merge_request eq_refl); [lia | reflexivity].
Defined.

(** ** The token in the output of the entrypoint *)

(** C2, as stated, fails: a run that succeeds prints the token in full on
    standard output, in the directive that hands it to the next stage, and
    the same run with another token prints other lines. *)
Lemma run_prints_token :
  let w' := snd (run env_prepare world_prepare) in
  fst (run env_prepare world_prepare) = 0
  /\ "::set-output name=gitlab_token::s3cr3t" ∈ stdout w'
  /\ discloses "s3cr3t" w' = true
  /\ stdout w'
     <> stdout (snd (run (<["GITLAB_TOKEN" := "0ther"]> env_scenario1) world_prepare)).
Proof.
  cbv zeta. split; [reflexivity|]. split; [|split; [reflexivity|]].
  - apply (bool_decide_unpack _). vm_compute. exact I.
  - intros H. vm_compute in H. discriminate H.
Qed.

Section UpToTokens.

Variables t1 t2 : string.

Lemma same_token_refl a : same_token t1 t2 a a.
Proof. by left. Qed.

Lemma same_line_refl a : same_line t1 t2 a a.
Proof. by left. Qed.

Lemma same_headers_refl h : same_headers t1 t2 h h.
Proof. intros key. by left. Qed.

Lemma same_request_refl a : same_request t1 t2 a a.
Proof. repeat split; try done. apply same_headers_refl. Qed.

Lemma same_line_directive a b :
  same_token t1 t2 a b -> same_line t1 t2 (token_directive a) (token_directive b).
Proof. intros [-> | [-> ->]]; [by left | by right]. Qed.

(** Headers that hold the token under PRIVATE-TOKEN and are otherwise
    built alike, below whatever the caller gave. *)
Lemma same_headers_token (given rest : gmap string string) a b :
  same_token t1 t2 a b ->
  same_headers t1 t2 (given ∪ <["PRIVATE-TOKEN" := a]> rest)
                     (given ∪ <["PRIVATE-TOKEN" := b]> rest).
Proof.
  intros [-> | [-> ->]] key; [by left|].
  rewrite !lookup_union.
  destruct (decide (key = "PRIVATE-TOKEN")) as [->|Hne].
  - rewrite !lookup_insert_eq.
    destruct (given !! "PRIVATE-TOKEN"); simpl; [by left | by right].
  - rewrite !lookup_insert_ne by done. by left.
Qed.

Lemma Forall2_refl {A} (R : A -> A -> Prop) (l : list A) :
  (forall a, R a a) -> Forall2 R l l.
Proof. intros HR. induction l; constructor; auto. Qed.

Lemma same_observations_refl w : same_observations t1 t2 w w.
Proof.
  unfold same_observations. repeat split; try done.
  - apply Forall2_refl, same_request_refl.
  - apply Forall2_refl, same_line_refl.
Qed.

Section Simulation.

Context {A1 A2 : Type}.
Implicit Types (R : A1 -> A2 -> Prop).

Lemma sim_ret R a b : R a b -> sim t1 t2 R (ret a) (ret b).
Proof. intros HR w1 w2 Hw. by split. Qed.

Lemma sim_throw R e : sim t1 t2 R (throw e) (throw e).
Proof. intros w1 w2 Hw. by split. Qed.

Lemma sim_try_catch R m1 m2 h1 h2 :
  sim t1 t2 R m1 m2 ->
  (forall e, sim t1 t2 R (h1 e) (h2 e)) ->
  sim t1 t2 R (try_catch m1 h1) (try_catch m2 h2).
Proof.
  intros Hm Hh w1 w2 Hw. specialize (Hm w1 w2 Hw). unfold try_catch.
  destruct (m1 w1) as [[a|e1] w1'], (m2 w2) as [[b|e2] w2']; try done.
  destruct Hm as [-> Hw']. by apply Hh.
Qed.

End Simulation.

Lemma sim_bind {A1 A2 B1 B2} (R : A1 -> A2 -> Prop) (S : B1 -> B2 -> Prop)
    m1 m2 k1 k2 :
  sim t1 t2 R m1 m2 ->
  (forall a b, R a b -> sim t1 t2 S (k1 a) (k2 b)) ->
  sim t1 t2 S (bind m1 k1) (bind m2 k2).
Proof.
  intros Hm Hk w1 w2 Hw. specialize (Hm w1 w2 Hw). unfold bind.
  destruct (m1 w1) as [[a|e1] w1'], (m2 w2) as [[b|e2] w2']; try done.
  destruct Hm as [HR Hw']. by apply Hk.
Qed.

Lemma sim_sleep ms : sim t1 t2 eq (sleep ms) (sleep ms).
Proof.
  intros w1 w2 (Hn & Hr & Ht & Ho & He & Hf). simpl. split; [done|].
  unfold same_observations; simpl. by rewrite Ht.
Qed.

Lemma sim_retry_loop {A1 A2} (R : A1 -> A2 -> Prop) op1 op2 options more delay :
  sim t1 t2 R op1 op2 ->
  sim t1 t2 R (retry_loop op1 options more delay) (retry_loop op2 options more delay).
Proof.
  intros Hop. revert delay. induction more as [|more IH]; intros delay; simpl.
  - apply sim_try_catch; [done|]. intros e. apply sim_throw.
  - apply sim_try_catch; [done|]. intros e.
    apply (sim_bind eq); [apply sim_sleep | intros _ _ _; apply IH].
Qed.


Lemma sim_lift {A} (c : Completion A) : sim t1 t2 eq (lift c) (lift c).
Proof. intros w1 w2 Hw. unfold lift. by destruct c. Qed.

Lemma sim_console_log a b : same_line t1 t2 a b -> sim t1 t2 eq (console_log a) (console_log b).
Proof.
  intros Hl w1 w2 (Hn & Hr & Ht & Ho & He & Hf). simpl. split; [done|].
  unfold same_observations; simpl. repeat split; try done.
  apply Forall2_app; [done|]. by constructor.
Qed.

Lemma sim_console_error a : sim t1 t2 eq (console_error a) (console_error a).
Proof.
  intros w1 w2 (Hn & Hr & Ht & Ho & He & Hf). simpl. split; [done|].
  unfold same_observations; simpl. by rewrite He.
Qed.

Lemma sim_writeFile path content : sim t1 t2 eq (writeFile path content) (writeFile path content).
Proof.
  intros w1 w2 (Hn & Hr & Ht & Ho & He & Hf). simpl. split; [done|].
  unfold same_observations; simpl. by rewrite Hf.
Qed.

Lemma sim_fetch rq1 rq2 : same_request t1 t2 rq1 rq2 -> sim t1 t2 eq (fetch rq1) (fetch rq2).
Proof.
  intros Hrq w1 w2 (Hn & Hr & Ht & Ho & He & Hf). unfold fetch. rewrite Hn.
  assert (same_observations t1 t2
            (mkWorld (tl (network w2)) (requests w1 ++ [rq1]) (timers w1)
                     (stdout w1) (stderr w1) (files w1))
            (mkWorld (tl (network w2)) (requests w2 ++ [rq2]) (timers w2)
                     (stdout w2) (stderr w2) (files w2))).
  { unfold same_observations; simpl. repeat split; try done.
    apply Forall2_app; [done|]. by constructor. }
  by destruct (network w2) as [|[r|e] rest].
Qed.

Lemma sim_makeRequest c1 c2 endpoint options :
  same_client t1 t2 c1 c2 ->
  sim t1 t2 eq (makeRequest c1 endpoint options) (makeRequest c2 endpoint options).
Proof.
  intros (Hp & Hb & Ht). unfold makeRequest, makeRequest_with. cbv zeta.
  apply (sim_bind eq).
  - apply sim_retry_loop, sim_fetch. unfold same_request; simpl. rewrite Hb.
    repeat split; try done. by apply same_headers_token.
  - intros r _ <-. destruct (ok r); simpl.
    + by apply sim_ret.
    + apply (sim_bind eq); [by apply sim_ret|]. intros t _ <-. apply sim_throw.
Qed.

Lemma sim_json r : sim t1 t2 eq (json r) (json r).
Proof. unfold json. destruct (parsed r); [by apply sim_ret | apply sim_throw]. Qed.

Lemma sim_getUserPermissions c1 c2 :
  same_client t1 t2 c1 c2 -> sim t1 t2 eq (getUserPermissions c1) (getUserPermissions c2).
Proof.
  intros Hc. unfold getUserPermissions, project_endpoint. rewrite (proj1 Hc).
  apply (sim_bind eq); [by apply sim_makeRequest|]. intros r _ <-.
  apply (sim_bind eq); [apply sim_json|]. intros p _ <-. apply sim_lift.
Qed.

Lemma sim_getMergeRequest c1 c2 iid :
  same_client t1 t2 c1 c2 -> sim t1 t2 eq (getMergeRequest c1 iid) (getMergeRequest c2 iid).
Proof.
  intros Hc. unfold getMergeRequest, project_endpoint. rewrite (proj1 Hc).
  apply (sim_bind eq); [by apply sim_makeRequest|]. intros r _ <-. apply sim_json.
Qed.

Lemma sim_getIssue c1 c2 iid :
  same_client t1 t2 c1 c2 -> sim t1 t2 eq (getIssue c1 iid) (getIssue c2 iid).
Proof.
  intros Hc. unfold getIssue, project_endpoint. rewrite (proj1 Hc).
  apply (sim_bind eq); [by apply sim_makeRequest|]. intros r _ <-. apply sim_json.
Qed.

Lemma sim_checkWritePermissions c1 c2 context :
  same_client t1 t2 c1 c2 ->
  sim t1 t2 eq (checkWritePermissions c1 context) (checkWritePermissions c2 context).
Proof.
  intros Hc. unfold checkWritePermissions. apply sim_try_catch.
  - apply (sim_bind eq); [by apply sim_getUserPermissions|]. intros p _ <-.
    apply (sim_bind eq); [apply sim_lift|]. intros l _ <-. by apply sim_ret.
  - intros e. apply (sim_bind eq); [apply sim_console_error|].
    intros _ _ _. by apply sim_ret.
Qed.

Lemma sim_check_trigger c1 c2 context :
  same_client t1 t2 c1 c2 ->
  sim t1 t2 eq (check_trigger c1 context) (check_trigger c2 context).
Proof.
  intros Hc. unfold check_trigger.
  destruct (eventType context).
  - destruct (truthy_number (mergeRequestIid context)); [|by apply sim_ret].
    apply (sim_bind eq); [by apply sim_getMergeRequest|]. intros mr _ <-.
    apply (sim_bind eq); [apply sim_lift|]. intros b _ <-.
    apply (sim_bind eq); [apply sim_console_log, same_line_refl|].
    intros _ _ _. by apply sim_ret.
  - destruct (truthy_number (issueIid context)); [|by apply sim_ret].
    apply (sim_bind eq); [by apply sim_getIssue|]. intros mr _ <-.
    apply (sim_bind eq); [apply sim_lift|]. intros b _ <-.
    apply (sim_bind eq); [apply sim_console_log, same_line_refl|].
    intros _ _ _. by apply sim_ret.
  - apply (sim_bind eq); [apply sim_console_log, same_line_refl|].
    intros _ _ _. by apply sim_ret.
  - apply (sim_bind eq); [apply sim_console_log, same_line_refl|].
    intros _ _ _. by apply sim_ret.
Qed.

Lemma sim_validateGitLabToken a b baseUrl :
  same_token t1 t2 a b ->
  sim t1 t2 eq (validateGitLabToken a baseUrl) (validateGitLabToken b baseUrl).
Proof.
  intros Hab. unfold validateGitLabToken. apply sim_try_catch.
  - apply (sim_bind eq).
    + apply sim_fetch. repeat split; try done. simpl.
      rewrite <- !insert_empty, <- (left_id_L ∅ (∪) (<["PRIVATE-TOKEN" := a]> ∅)),
        <- (left_id_L ∅ (∪) (<["PRIVATE-TOKEN" := b]> ∅)).
      by apply same_headers_token.
    + intros r _ <-. by apply sim_ret.
  - intros e. apply (sim_bind eq); [apply sim_console_error|].
    intros _ _ _. by apply sim_ret.
Qed.

Lemma truthy_js_or a b :
  truthy (a ||| b) = match truthy a with Some s => Some s | None => truthy b end.
Proof. unfold js_or. by destruct (truthy a) eqn:E. Qed.

(** Rewrites the lookups of the first environment that are not token
    variables into lookups of the second. *)
Ltac other_variables Hagree :=
  repeat match goal with
         | |- context [?env !! ?key] =>
             rewrite (proj1 Hagree key)
               by (apply (bool_decide_unpack _); vm_compute; exact I)
         end.

(** Closes a case in which a token variable is present in one
    environment and absent in the other. *)
Ltac clash H :=
  exfalso; first [ discriminate (proj1 H eq_refl) | discriminate (proj2 H eq_refl) ].

Section TwoEnvironments.

Variables env1 env2 : Env.
Hypothesis Hagree : same_but_tokens t1 t2 env1 env2.

Lemma same_platform : isCurrentPlatform env1 = isCurrentPlatform env2.
Proof.
  unfold isCurrentPlatform, isGitLabEnvironment. by other_variables Hagree.
Qed.

Lemma same_context : parseContext env1 = parseContext env2.
Proof.
  unfold parseContext, parseGitLabContext. by other_variables Hagree.
Qed.

Lemma same_api_url :
  or_default (env1 !! "GITLAB_API_URL") (GITLAB_API_URL env1)
  = or_default (env2 !! "GITLAB_API_URL") (GITLAB_API_URL env2).
Proof. unfold GITLAB_API_URL. by other_variables Hagree. Qed.

Lemma sim_getGitLabToken :
  sim t1 t2 (same_token t1 t2) (getGitLabToken env1) (getGitLabToken env2).
Proof.
  unfold getGitLabToken. cbv zeta. rewrite !truthy_js_or.
  rewrite (proj1 Hagree "GITLAB_CI")
    by (apply (bool_decide_unpack _); vm_compute; exact I).
  assert (Hexplicit : forall a b : string,
             same_token t1 t2 a b ->
             sim t1 t2 (same_token t1 t2)
               (console_log "Using explicit GitLab token" ;;; ret a)
               (console_log "Using explicit GitLab token" ;;; ret b)).
  { intros a b Hab. apply (sim_bind eq); [apply sim_console_log, same_line_refl|].
    intros _ _ _. by apply sim_ret. }
  destruct (proj2 Hagree "GITLAB_TOKEN") as [<- | [-> ->]];
    [|apply Hexplicit; by right].
  destruct (truthy (env1 !! "GITLAB_TOKEN")); [apply Hexplicit; by left|].
  destruct (proj2 Hagree "GITLAB_ACCESS_TOKEN") as [<- | [-> ->]];
    [|apply Hexplicit; by right].
  destruct (truthy (env1 !! "GITLAB_ACCESS_TOKEN")); [apply Hexplicit; by left|].
  destruct (proj2 Hagree "PRIVATE_TOKEN") as [<- | [-> ->]];
    [|apply Hexplicit; by right].
  destruct (truthy (env1 !! "PRIVATE_TOKEN")); [apply Hexplicit; by left|].
  assert (Hjob : forall a b : string,
             same_token t1 t2 a b ->
             sim t1 t2 (same_token t1 t2)
               (if decide (env2 !! "GITLAB_CI" = Some "true")
                then console_log "Using GitLab CI Job Token (limited permissions)" ;;;
                     ret a
                else throw (Error no_token_message))
               (if decide (env2 !! "GITLAB_CI" = Some "true")
                then console_log "Using GitLab CI Job Token (limited permissions)" ;;;
                     ret b
                else throw (Error no_token_message))).
  { intros a b Hab. destruct (decide _); [|apply sim_throw].
    apply (sim_bind eq); [apply sim_console_log, same_line_refl|].
    intros _ _ _. by apply sim_ret. }
  destruct (proj2 Hagree "CI_JOB_TOKEN") as [<- | [-> ->]];
    [|apply Hjob; by right].
  destruct (truthy (env1 !! "CI_JOB_TOKEN")); [apply Hjob; by left | apply sim_throw].
Qed.

Lemma sim_getAuthToken :
  sim t1 t2 (same_token t1 t2) (getAuthToken env1) (getAuthToken env2).
Proof.
  unfold getAuthToken. cbv zeta. rewrite same_api_url.
  apply (sim_bind (same_token t1 t2)); [apply sim_getGitLabToken|].
  intros a b Hab.
  apply (sim_bind eq); [by apply sim_validateGitLabToken|]. intros valid _ <-.
  destruct valid; simpl; [by apply sim_ret | apply sim_throw].
Qed.

Lemma sim_createApiClient a b :
  same_token t1 t2 a b ->
  sim t1 t2 (same_client t1 t2)
    (lift (createApiClient env1 a)) (lift (createApiClient env2 b)).
Proof.
  intros Hab. unfold createApiClient. rewrite same_context, same_api_url.
  destruct (parseContext env2); [by apply sim_ret | apply sim_throw].
Qed.

Lemma sim_prepare : sim t1 t2 eq (prepare env1) (prepare env2).
Proof.
  unfold prepare. rewrite same_platform, same_context.
  apply (sim_bind eq); [apply sim_console_log, same_line_refl|]. intros _ _ _.
  apply (sim_bind eq).
  { destruct (isCurrentPlatform env2); simpl; [by apply sim_ret | apply sim_throw]. }
  intros _ _ _.
  apply (sim_bind eq); [apply sim_lift|]. intros context _ <-.
  apply (sim_bind eq); [apply sim_console_log, same_line_refl|]. intros _ _ _.
  apply (sim_bind (same_token t1 t2)); [apply sim_getAuthToken|]. intros a b Hab.
  apply (sim_bind eq); [apply sim_console_log, same_line_refl|]. intros _ _ _.
  apply (sim_bind (same_client t1 t2)); [by apply sim_createApiClient|].
  intros c1 c2 Hc.
  apply (sim_bind eq).
  { unfold validatePermissions. by apply sim_checkWritePermissions. }
  intros allowed _ <-.
  apply (sim_bind eq).
  { destruct allowed; simpl; [by apply sim_ret | apply sim_throw]. }
  intros _ _ _.
  apply (sim_bind eq); [apply sim_console_log, same_line_refl|]. intros _ _ _.
  apply (sim_bind eq); [by apply sim_check_trigger|]. intros trigger _ <-.
  apply (sim_bind eq); [apply sim_writeFile|]. intros _ _ _.
  apply (sim_bind eq); [apply sim_console_log, same_line_refl|]. intros _ _ _.
  apply (sim_bind eq); [apply sim_console_log, same_line_refl|]. intros _ _ _.
  apply (sim_bind eq).
  { by apply sim_console_log, same_line_directive. }
  intros _ _ _.
  apply (sim_bind eq); [apply sim_console_log, same_line_refl|]. intros _ _ _.
  destruct trigger; simpl; apply sim_console_log, same_line_refl.
Qed.

(** Two runs whose environments differ in the token only end with the
    same status and leave the same observations up to the token. *)
Lemma run_same_but_tokens w :
  fst (run env1 w) = fst (run env2 w)
  /\ same_observations t1 t2 (snd (run env1 w)) (snd (run env2 w)).
Proof.
  pose proof (sim_prepare w w (same_observations_refl w)) as H.
  unfold run.
  destruct (prepare env1 w) as [[[]|e1] w1], (prepare env2 w) as [[[]|e2] w2];
    try done.
  - by destruct H.
  - destruct H as [<- Hw]. split; [done|].
    pose proof (sim_bind eq eq _ _ _ _
                  (sim_console_error ("准备阶段失败: " +:+ message e1))
                  (fun _ _ _ =>
                     sim_writeFile "prepare.env"
                       ("PREPARE_ERROR=" +:+ message e1 +:+ nl
                        +:+ "CONTAINS_TRIGGER=false" +:+ nl)) w1 w2 Hw) as Hr.
    simpl in Hr. simpl. by destruct Hr.
Qed.

End TwoEnvironments.

End UpToTokens.

Lemma insert_same_but_tokens (env : Env) key t1 t2 :
  key ∈ token_variables -> t1 <> "" -> t2 <> "" ->
  same_but_tokens t1 t2 (<[key := t1]> env) (<[key := t2]> env).
Proof.
  intros Hkey Ht1 Ht2. split.
  - intros k Hk. by rewrite !lookup_insert_ne by (by intros ->).
  - intros k. destruct (decide (key = k)) as [->|Hne].
    + rewrite !lookup_insert_eq. simpl. rewrite !decide_False by done. by right.
    + rewrite !lookup_insert_ne by done. by left.
Qed.

(** A run that succeeds has printed the directive with the token that
    the provider resolved. *)
Lemma prepare_prints_token (env : Env) (w w' : World) :
  prepare env w = (Return tt, w') ->
  exists token,
    fst (getGitLabToken env w) = Return token
    /\ token_directive token ∈ stdout w'.
Proof.
  unfold prepare. intros H.
  apply bind_Return_inv in H as (_ & w1 & _ & H).
  apply bind_Return_inv in H as (_ & w2 & _ & H).
  apply bind_Return_inv in H as (context & w3 & _ & H).
  apply bind_Return_inv in H as (_ & w4 & _ & H).
  apply bind_Return_inv in H as (gitlabToken & w5 & Htoken & H).
  unfold getAuthToken in Htoken. cbv zeta in Htoken.
  apply bind_Return_inv in Htoken as (token & w4' & Hresolved & Htoken).
  apply bind_Return_inv in Htoken as (isValid & w4'' & _ & Htoken).
  destruct isValid; [|discriminate]. injection Htoken as <- _.
  apply bind_Return_inv in H as (_ & w6 & _ & H).
  apply bind_Return_inv in H as (apiClient & w7 & _ & H).
  apply bind_Return_inv in H as (hasPermissions & w8 & _ & H).
  apply bind_Return_inv in H as (_ & w9 & _ & H).
  apply bind_Return_inv in H as (_ & w10 & _ & H).
  apply bind_Return_inv in H as (containsTrigger & w11 & _ & H).
  exists token. split.
  - by rewrite (getGitLabToken_any_world env w w4), Hresolved.
  - unfold bind, writeFile, console_log in H.
    destruct containsTrigger; simpl in H; injection H as <-; simpl;
      rewrite !elem_of_app, !list_elem_of_singleton; tauto.
Qed.

(** C2, amended. Take two runs of the entrypoint on the same network whose
    environments differ only in the value of one token variable, [t1] in
    the first and [t2] in the second. They end with the same exit status,
    write the same files (the side channel never depends on the token),
    print the same lines on standard error, set the same timers and
    consume the same answers. Line by line their standard outputs are
    equal, except where the first prints the directive that hands on
    [t1] and the second the directive that hands on [t2]. Request by
    request they send the same URL, method and body and the same value of
    every header, except that PRIVATE-TOKEN may carry [t1] in the first
    and [t2] in the second. A run that exits with status 0 has printed
    the directive with the token it resolved, in full. *)
Theorem run_confines_token (env : Env) (key t1 t2 : string) (w : World) :
  key ∈ token_variables -> t1 <> "" -> t2 <> "" ->
  let r1 := run (<[key := t1]> env) w in
  let r2 := run (<[key := t2]> env) w in
  fst r1 = fst r2
  /\ files (snd r1) = files (snd r2)
  /\ stderr (snd r1) = stderr (snd r2)
  /\ Forall2 (same_line t1 t2) (stdout (snd r1)) (stdout (snd r2))
  /\ Forall2 (same_request t1 t2) (requests (snd r1)) (requests (snd r2))
  /\ timers (snd r1) = timers (snd r2)
  /\ network (snd r1) = network (snd r2)
  /\ (fst r1 = 0 ->
      exists token,
        fst (getGitLabToken (<[key := t1]> env) w) = Return token
        /\ token_directive token ∈ stdout (snd r1)).
Proof.
  intros Hkey Ht1 Ht2 r1 r2.
  destruct (run_same_but_tokens t1 t2 _ _
              (insert_same_but_tokens env key t1 t2 Hkey Ht1 Ht2) w)
    as (Hexit & Hn & Hr & Ht & Ho & He & Hf).
  repeat split; try done.
  subst r1. unfold run.
  destruct (prepare (<[key := t1]> env) w) as [[[]|e] w'] eqn:Hprepare;
    [|discriminate].
  intros _. by apply prepare_prints_token.
Qed.

Lemma run_confines_token_witness :
  files (snd (run env_prepare world_prepare))
  = files (snd (run (<["GITLAB_TOKEN" := "0ther"]> env_scenario1) world_prepare))
  /\ Forall2 (same_line "s3cr3t" "0ther")
       (stdout (snd (run env_prepare world_prepare)))
       (stdout (snd (run (<["GITLAB_TOKEN" := "0ther"]> env_scenario1) world_prepare)))
  /\ Forall2 (same_request "s3cr3t" "0ther")
       (requests (snd (run env_prepare world_prepare)))
       (requests (snd (run (<["GITLAB_TOKEN" := "0ther"]> env_scenario1)
                         world_prepare)))
  /\ token_directive "s3cr3t" ∈ stdout (snd (run env_prepare world_prepare)).
Proof.
  destruct (run_confines_token env_scenario1 "GITLAB_TOKEN" "s3cr3t" "0ther"
              world_prepare) as (_ & Hfiles & _ & Hout & Hreq & _ & _ & Hprints).
  - constructor.
  - discriminate.
  - discriminate.
  - split; [exact Hfiles|]. split; [exact Hout|]. split; [exact Hreq|].
    destruct (Hprints eq_refl) as (token & Htoken & Hin).
    injection Htoken as <-. exact Hin.
Defined.

(** * More of the code *)

(** ** Context resolver: what is required, what is derived *)

Lemma present_truthy v : present v <-> exists s, truthy v = Some s.
Proof.
  split.
  - intros (s & -> & Hs). exists s. by apply truthy_present.
  - intros (s & Hs). exists s. by apply truthy_Some.
Qed.

(** X1. The parser accepts an environment exactly when the project id,
    the project name and the project namespace are present: no other
    variable, and no optional input, can make it fail. *)
Theorem parseGitLabContext_accepts_iff (env : Env) :
  (exists ctx, parseGitLabContext env = Return ctx)
  <-> present (env !! "CI_PROJECT_ID")
      /\ present (env !! "CI_PROJECT_NAME")
      /\ present (env !! "CI_PROJECT_NAMESPACE").
Proof.
  rewrite !present_truthy. unfold parseGitLabContext.
  destruct (truthy (env !! "CI_PROJECT_ID")) as [i|];
    destruct (truthy (env !! "CI_PROJECT_NAME")) as [n|];
    destruct (truthy (env !! "CI_PROJECT_NAMESPACE")) as [o|];
    (split; [intros [ctx Hctx] | intros ([? Hi] & [? Hn] & [? Ho])]);
    try discriminate; [repeat split; eauto | eauto].
Qed.

(** X2. In every context the parser returns, the merge-request iid is set
    exactly when the event is a merge request, and it is then the
    [parseInt] of CI_MERGE_REQUEST_IID; the issue iid is never set and the
    event is never an issue. *)
Theorem parseGitLabContext_iid_matches_event (env : Env) (ctx : GitLabPlatformContext) :
  parseGitLabContext env = Return ctx ->
  (is_Some (mergeRequestIid ctx) <-> eventType ctx = merge_request)
  /\ (forall n, mergeRequestIid ctx = Some n ->
        exists s, env !! "CI_MERGE_REQUEST_IID" = Some s /\ s <> "" /\ n = parseInt s)
  /\ issueIid ctx = None
  /\ eventType ctx <> issue.
Proof.
  unfold parseGitLabContext.
  destruct (truthy (env !! "CI_PROJECT_ID")) as [pid|]; [|discriminate].
  destruct (truthy (env !! "CI_PROJECT_NAME")) as [pname|]; [|discriminate].
  destruct (truthy (env !! "CI_PROJECT_NAMESPACE")) as [pns|]; [|discriminate].
  intros [= <-]. simpl.
  destruct (truthy (env !! "CI_MERGE_REQUEST_IID")) as [s|] eqn:Hmr; simpl.
  - apply truthy_Some in Hmr as [Hs Hne]. repeat split; eauto.
    intros n [= <-]. eauto.
  - split; [|split; [|split]]; try done.
    + split; [by intros [? [=]]|].
      destruct (truthy (env !! "CI_COMMIT_REF_NAME")) as [ref|]; [|discriminate].
      by destruct (decide _).
    + destruct (truthy (env !! "CI_COMMIT_REF_NAME")) as [ref|]; [|discriminate].
      by destruct (decide _).
Qed.

Lemma parseGitLabContext_iid_matches_event_witness :
  mergeRequestIid context_scenario1 = Some (Num 789)
  /\ eventType context_scenario1 = merge_request.
Proof.
  destruct (parseGitLabContext_iid_matches_event env_scenario1 context_scenario1 eq_refl)
    as (Hiff & _).
  split; [reflexivity|]. apply Hiff. by eexists.
Defined.

(** X3. On every context the parser returns, [isIssueEvent] is false, and
    [isMergeRequestEvent] is true exactly when CI_MERGE_REQUEST_IID is
    present and [parseInt] reads a number other than 0 from it: an iid
    that is not a number gives a merge-request event that the predicate
    does not recognise. *)
Theorem parsed_context_event_predicates (env : Env) (ctx : GitLabPlatformContext) :
  parseGitLabContext env = Return ctx ->
  isIssueEvent ctx = false
  /\ (isMergeRequestEvent ctx = true <->
      exists s z, env !! "CI_MERGE_REQUEST_IID" = Some s /\ s <> ""
                  /\ parseInt s = Num z /\ z <> 0).
Proof.
  unfold parseGitLabContext.
  destruct (truthy (env !! "CI_PROJECT_ID")) as [pid|]; [|discriminate].
  destruct (truthy (env !! "CI_PROJECT_NAME")) as [pname|]; [|discriminate].
  destruct (truthy (env !! "CI_PROJECT_NAMESPACE")) as [pns|]; [|discriminate].
  intros [= <-]. unfold isIssueEvent, isMergeRequestEvent. simpl.
  destruct (truthy (env !! "CI_MERGE_REQUEST_IID")) as [s|] eqn:Hmr; simpl.
  - apply truthy_Some in Hmr as [Hs Hne]. split; [done|].
    rewrite bool_decide_eq_true. split.
    + intros [n Hn]. exists s. destruct (parseInt s) as [|z]; [done|].
      exists z. simpl in Hn. destruct (decide (z = 0)); [done|]. done.
    + intros (s' & z & Hs' & _ & Hz & Hnz). assert (s' = s) as -> by congruence.
      rewrite Hz. simpl. rewrite decide_False by done. by eexists.
  - apply truthy_None in Hmr. split.
    + destruct (truthy (env !! "CI_COMMIT_REF_NAME")) as [ref|]; [|done]. by destruct (decide _).
    + split.
      * destruct (truthy (env !! "CI_COMMIT_REF_NAME")) as [ref|]; [|done]. by destruct (decide _).
      * intros (s & z & Hs & Hne & _). destruct Hmr. by exists s.
Qed.

Lemma parsed_context_event_predicates_witness :
  isMergeRequestEvent context_scenario1 = true
  /\ (exists ctx, parseGitLabContext env_odd_iid = Return ctx
                  /\ eventType ctx = merge_request
                  /\ isMergeRequestEvent ctx = false).
Proof.
  split.
  - destruct (parsed_context_event_predicates env_scenario1 context_scenario1 eq_refl)
      as (_ & Hiff).
    apply Hiff. exists "789", 789. repeat split; discriminate.
  - eexists. split; [reflexivity|]. split; [reflexivity|].
    destruct (parsed_context_event_predicates env_odd_iid _ eq_refl) as (_ & Hiff).
    apply not_true_is_false. intros Htrue. apply Hiff in Htrue.
    destruct Htrue as (s & z & Hs & _ & Hz & _).
    vm_compute in Hs. injection Hs as <-. discriminate Hz.
Defined.

Lemma or_default_nonempty v d : d <> "" -> or_default v d <> "".
Proof.
  intros Hd. unfold or_default. destruct (truthy v) as [s|] eqn:E; simpl; [|done].
  by apply truthy_Some in E as [_ Hs].
Qed.

(** X4. The fallbacks of the parser. The run id, the actor, the trigger
    phrase and the branch prefix of a returned context are never empty:
    a variable that is unset or empty gives way to the next source and
    in the end to the default. The job id is preferred to the pipeline
    id, and the sticky-comment flag is set by the exact string [true]
    only. *)
Theorem parseGitLabContext_fallbacks (env : Env) (ctx : GitLabPlatformContext) :
  parseGitLabContext env = Return ctx ->
  runId ctx <> "" /\ actor ctx <> ""
  /\ triggerPhrase (inputs ctx) <> "" /\ branchPrefix (inputs ctx) <> ""
  /\ (~ present (env !! "TRIGGER_PHRASE") -> triggerPhrase (inputs ctx) = "@claude")
  /\ (~ present (env !! "BRANCH_PREFIX") -> branchPrefix (inputs ctx) = "claude/")
  /\ (forall s, env !! "CI_JOB_ID" = Some s -> s <> "" -> runId ctx = s)
  /\ (forall s, ~ present (env !! "CI_JOB_ID") ->
        env !! "CI_PIPELINE_ID" = Some s -> s <> "" -> runId ctx = s)
  /\ (~ present (env !! "CI_JOB_ID") -> ~ present (env !! "CI_PIPELINE_ID") ->
      runId ctx = "unknown")
  /\ (useStickyComment (inputs ctx) = true <-> env !! "USE_STICKY_COMMENT" = Some "true").
Proof.
  unfold parseGitLabContext.
  destruct (truthy (env !! "CI_PROJECT_ID")) as [pid|]; [|discriminate].
  destruct (truthy (env !! "CI_PROJECT_NAME")) as [pname|]; [|discriminate].
  destruct (truthy (env !! "CI_PROJECT_NAMESPACE")) as [pns|]; [|discriminate].
  intros [= <-]. simpl.
  split; [by apply or_default_nonempty|]. split; [by apply or_default_nonempty|].
  split; [by apply or_default_nonempty|]. split; [by apply or_default_nonempty|].
  unfold or_default. rewrite truthy_js_or.
  split; [|split; [|split; [|split; [|split]]]].
  - intros H. apply truthy_None in H. by rewrite H.
  - intros H. apply truthy_None in H. by rewrite H.
  - intros s Hs Hne. by rewrite (truthy_present _ s).
  - intros s Hjob Hs Hne. apply truthy_None in Hjob. rewrite Hjob.
    by rewrite (truthy_present _ s).
  - intros Hjob Hpipe. apply truthy_None in Hjob, Hpipe. by rewrite Hjob, Hpipe.
  - apply bool_decide_eq_true.
Qed.

Lemma parseGitLabContext_fallbacks_witness :
  runId context_scenario1 = "unknown"
  /\ triggerPhrase (inputs context_scenario1) = "@claude"
  /\ branchPrefix (inputs context_scenario1) = "claude/".
Proof.
  destruct (parseGitLabContext_fallbacks env_scenario1 context_scenario1 eq_refl)
    as (_ & _ & _ & _ & Htrigger & Hprefix & _ & _ & Hrun & _).
  split; [|split].
  - apply Hrun; absent.
  - apply Htrigger; absent.
  - apply Hprefix; absent.
Defined.

(** ** Platform detection *)

(** X5. An environment the parser accepts is a GitLab environment for the
    adapter and for the detector, and the detector hands out the GitLab
    adapter for it. *)
Theorem accepted_environment_is_detected (env : Env) (ctx : GitLabPlatformContext) :
  parseGitLabContext env = Return ctx ->
  isCurrentPlatform env = true
  /\ detectPlatform env = gitlab
  /\ getPlatformAdapter env = Return GitLabAdapter.
Proof.
  intros Hctx.
  assert (Hid : is_Some (truthy (env !! "CI_PROJECT_ID"))).
  { revert Hctx. unfold parseGitLabContext.
    destruct (truthy (env !! "CI_PROJECT_ID")); [by eexists | discriminate]. }
  unfold getPlatformAdapter, detectPlatform, isCurrentPlatform, isGitLabEnvironment.
  rewrite (bool_decide_eq_true_2 _ Hid), orb_true_r. done.
Qed.

Lemma accepted_environment_is_detected_witness :
  detectPlatform env_scenario1 = gitlab
  /\ getPlatformAdapter env_scenario1 = Return GitLabAdapter.
Proof.
  destruct (accepted_environment_is_detected env_scenario1 context_scenario1 eq_refl)
    as (_ & Hdetect & Hadapter).
  by split.
Defined.

(** X6. The detector answers [gitlab] exactly when the adapter's own test
    holds, whatever GitHub markers are set beside; everywhere else it
    answers [github], and there [getPlatformAdapter] throws: with GitHub
    markers, and with no marker at all. *)
Theorem detector_follows_gitlab_markers (env : Env) :
  (detectPlatform env = gitlab <-> isCurrentPlatform env = true)
  /\ (detectPlatform env = github <-> isCurrentPlatform env = false)
  /\ (getPlatformAdapter env = Return GitLabAdapter <-> isCurrentPlatform env = true)
  /\ (getPlatformAdapter env
      = Throw (Error "GitHub adapter not implemented in this context")
      <-> isCurrentPlatform env = false).
Proof.
  unfold getPlatformAdapter, detectPlatform, isCurrentPlatform, isGitLabEnvironment.
  destruct (bool_decide (env !! "GITLAB_CI" = Some "true")
            || bool_decide (is_Some (truthy (env !! "CI_PROJECT_ID")))).
  - repeat split; done.
  - destruct (bool_decide (env !! "GITHUB_ACTIONS" = Some "true")
              || bool_decide (is_Some (truthy (env !! "GITHUB_REPOSITORY"))));
      repeat split; done.
Qed.

(** ** Token information and the authenticated token *)

(** X7. [getTokenInfo] and [validateGitLabToken] send the same single
    request. Whenever [getTokenInfo] returns, the validation of the same
    token on the same network answers [true]; whenever the validation
    answers [false], [getTokenInfo] throws. Unlike the validation it lets
    a rejected request through as it is, and it reports a response that
    is not ok by its status alone. *)
Theorem getTokenInfo_and_validation (token baseUrl : string) (w : World) :
  requests (snd (getTokenInfo token baseUrl w))
  = requests w ++ [validation_request token baseUrl]
  /\ requests (snd (validateGitLabToken token baseUrl w))
     = requests w ++ [validation_request token baseUrl]
  /\ (forall info, fst (getTokenInfo token baseUrl w) = Return info ->
        fst (validateGitLabToken token baseUrl w) = Return true)
  /\ (fst (validateGitLabToken token baseUrl w) = Return false ->
      exists e, fst (getTokenInfo token baseUrl w) = Throw e)
  /\ (forall e, head (network w) = Some (Rejected e) ->
        fst (getTokenInfo token baseUrl w) = Throw e)
  /\ (forall r, head (network w) = Some (Delivered r) -> ok r = false ->
        fst (getTokenInfo token baseUrl w)
        = Throw (Error ("Failed to get token info: " +:+ pretty (status r)))).
Proof.
  unfold getTokenInfo, validateGitLabToken, validation_request, try_catch, bind, fetch,
    json, ret, throw, console_error.
  destruct (network w) as [|[r|e] rest]; simpl.
  - repeat split; try done. eauto.
  - destruct (ok r) eqn:Hok; simpl.
    + destruct (parsed r); simpl; repeat split; try done.
      all: try (intros r' [= <-]; congruence).
    + repeat split; try done; eauto.
      intros r' [= <-] _. done.
  - repeat split; try done; eauto. by intros e' [= <-].
Qed.

Lemma getGitLabToken_world (env : Env) (w : World) :
  exists lines,
    snd (getGitLabToken env w)
    = mkWorld (network w) (requests w) (timers w) (stdout w ++ lines)
              (stderr w) (files w)
    /\ (forall e, fst (getGitLabToken env w) = Throw e -> lines = []).
Proof.
  unfold getGitLabToken. cbv zeta.
  destruct (truthy _) as [t|].
  - exists ["Using explicit GitLab token"]. split; [reflexivity | discriminate].
  - destruct (truthy (env !! "CI_JOB_TOKEN")) as [t|].
    + destruct (decide _).
      * exists ["Using GitLab CI Job Token (limited permissions)"].
        split; [reflexivity | discriminate].
      * exists []. rewrite app_nil_r. split; [by destruct w | done].
    + exists []. rewrite app_nil_r. split; [by destruct w | done].
Qed.

(** X8. [getAuthToken] hands out a token only after the forge has accepted
    it: when it returns [t], then [t] is what the token provider resolved,
    the one request of the call carried [t] to the [/user] endpoint of the
    base URL, and the answer to it was ok. A client created for [t] in the
    same environment talks to that same base URL. *)
Theorem getAuthToken_only_validated (env : Env) (w w' : World) (t : string) :
  getAuthToken env w = (Return t, w') ->
  fst (getGitLabToken env w) = Return t
  /\ (exists r, head (network w) = Some (Delivered r) /\ ok r = true)
  /\ (exists baseUrl,
        requests w' = requests w ++ [validation_request t baseUrl]
        /\ forall client, createApiClient env t = Return client ->
             client_baseUrl client = baseUrl /\ client_token client = t).
Proof.
  unfold getAuthToken. cbv zeta. unfold bind at 1.
  destruct (getGitLabToken_world env w) as (lines & Hw & _).
  destruct (getGitLabToken env w) as [[t0|e] w0]; [|discriminate].
  simpl in Hw. subst w0.
  unfold validateGitLabToken, try_catch, bind, fetch, ret, throw, console_error.
  simpl. destruct (network w) as [|[r|e] rest]; simpl; try discriminate.
  destruct (ok r) eqn:Hok; simpl; [|discriminate].
  intros [= <- <-]. simpl. split; [done|]. split; [by exists r|].
  eexists. split; [reflexivity|].
  intros client. unfold createApiClient.
  destruct (parseContext env); [|discriminate]. by intros [= <-].
Qed.

Lemma getAuthToken_only_validated_witness :
  fst (getGitLabToken env_prepare world_prepare) = Return "s3cr3t"
  /\ exists r, head (network world_prepare) = Some (Delivered r) /\ ok r = true.
Proof.
  destruct (getAuthToken_only_validated env_prepare world_prepare
              (snd (getAuthToken env_prepare world_prepare)) "s3cr3t" eq_refl)
    as (Htoken & Hok & _).
  by split.
Defined.

(** X9. How [getAuthToken] fails. With no token source nothing is sent and
    the error is the provider's. With a token, a response that is not ok
    and a rejected request alike end in [Invalid GitLab token], after one
    request and one only: a network failure is reported as an invalid
    token. *)
Theorem getAuthToken_failures (env : Env) (w : World) :
  (forall e, fst (getGitLabToken env w) = Throw e ->
     getAuthToken env w = (Throw e, w))
  /\ (forall t, fst (getGitLabToken env w) = Return t ->
        (forall r, head (network w) = Some (Delivered r) -> ok r = true -> False) ->
        fst (getAuthToken env w) = Throw (Error "Invalid GitLab token")
        /\ length (requests (snd (getAuthToken env w))) = S (length (requests w))).
Proof.
  unfold getAuthToken. cbv zeta. unfold bind at 1 3 5.
  destruct (getGitLabToken_world env w) as (lines & Hw & Hlines).
  destruct (getGitLabToken env w) as [[t0|e] w0]; simpl in *; subst w0; split.
  - discriminate.
  - intros t [= <-] Hbad.
    unfold validateGitLabToken, try_catch, bind, fetch, ret, throw, console_error.
    simpl. destruct (network w) as [|[r|e] rest]; simpl.
    + rewrite length_app. simpl. split; [done | lia].
    + destruct (ok r) eqn:Hok; simpl.
      * destruct (Hbad r eq_refl Hok).
      * rewrite length_app. simpl. split; [done | lia].
    + rewrite length_app. simpl. split; [done | lia].
  - intros e' [= <-]. rewrite (Hlines e eq_refl), app_nil_r. by destruct w.
  - discriminate.
Qed.

(** ** The methods of the client *)

Lemma bind_makeRequest_not_ok {A} this endpoint options (k : Response -> Async A)
    w r rest :
  network w = Delivered r :: rest -> ok r = false ->
  (response <- makeRequest this endpoint options ;; k response) w
  = (Throw (Error ("GitLab API error " +:+ pretty (status r) +:+ ": " +:+ body r)),
     mkWorld rest (requests w ++ [client_request this endpoint options]) (timers w)
             (stdout w) (stderr w) (files w)).
Proof.
  intros Hnet Hok. unfold bind.
  by rewrite (makeRequest_not_ok this endpoint options w r rest Hnet Hok).
Qed.

(** X10. When the forge answers a call with a status outside 200-299,
    every method of the client throws the error that carries the status
    and the body as they came, after consuming that one response. *)
Theorem client_methods_surface_status_and_body
    (this : GitLabApiClient) (w : World) (r : Response) (rest : list FetchOutcome) :
  network w = Delivered r :: rest -> ok r = false ->
  let failure :=
    Error ("GitLab API error " +:+ pretty (status r) +:+ ": " +:+ body r) in
  (forall iid, fst (getMergeRequest this iid w) = Throw failure
               /\ network (snd (getMergeRequest this iid w)) = rest)
  /\ (forall iid, fst (getIssue this iid w) = Throw failure
                  /\ network (snd (getIssue this iid w)) = rest)
  /\ (forall entityId text entityType,
        fst (createComment this entityId text entityType w) = Throw failure
        /\ network (snd (createComment this entityId text entityType w)) = rest)
  /\ (forall branchName ref,
        fst (createBranch this branchName ref w) = Throw failure
        /\ network (snd (createBranch this branchName ref w)) = rest)
  /\ (forall branchName changed commitMessage,
        fst (commitFiles this branchName changed commitMessage w) = Throw failure
        /\ network (snd (commitFiles this branchName changed commitMessage w)) = rest)
  /\ (fst (getProject this w) = Throw failure
      /\ network (snd (getProject this w)) = rest)
  /\ (fst (getBranches this w) = Throw failure
      /\ network (snd (getBranches this w)) = rest)
  /\ (fst (getDefaultBranch this w) = Throw failure
      /\ network (snd (getDefaultBranch this w)) = rest)
  /\ (fst (getUserPermissions this w) = Throw failure
      /\ network (snd (getUserPermissions this w)) = rest).
Proof.
  intros Hnet Hok failure.
  assert (Hproject : getProject this w
                     = (Throw failure,
                        mkWorld rest
                          (requests w ++ [client_request this (project_endpoint this)
                                            no_options])
                          (timers w) (stdout w) (stderr w) (files w))).
  { unfold getProject. by apply bind_makeRequest_not_ok. }
  repeat apply conj; intros;
    try (unfold getMergeRequest, getIssue, createComment, createBranch, commitFiles,
           getBranches, getUserPermissions; cbv zeta;
         by erewrite bind_makeRequest_not_ok).
  - by rewrite Hproject.
  - by rewrite Hproject.
  - unfold getDefaultBranch, bind. by rewrite Hproject.
  - unfold getDefaultBranch, bind. by rewrite Hproject.
Qed.

Lemma client_methods_surface_status_and_body_witness :
  fst (getMergeRequest sample_client (Num 789)
         (fresh_world [respond 403 "forbidden" None]))
  = Throw (Error "GitLab API error 403: forbidden")
  /\ fst (getUserPermissions sample_client (fresh_world [respond 404 "no project" None]))
     = Throw (Error "GitLab API error 404: no project").
Proof.
  split.
  - destruct (client_methods_surface_status_and_body sample_client
                (fresh_world [respond 403 "forbidden" None]) _ _ eq_refl eq_refl)
      as (H & _).
    apply (H (Num 789)).
  - destruct (client_methods_surface_status_and_body sample_client
                (fresh_world [respond 404 "no project" None]) _ _ eq_refl eq_refl)
      as (_ & _ & _ & _ & _ & _ & _ & _ & H).
    apply H.
Defined.

(** X11. Every request a call of [makeRequest] sends goes to the base URL
    followed by the endpoint, with the method and the body of the options.
    With no headers in the options it carries the client's token and the
    JSON content type; a header in the options replaces the default of the
    same name. *)
Theorem makeRequest_headers (this : GitLabApiClient) (endpoint : string)
    (options : RequestInit) (w : World) (rq : Request) :
  rq ∈ drop (length (requests w)) (requests (snd (makeRequest this endpoint options w))) ->
  url rq = client_baseUrl this +:+ endpoint
  /\ method rq = init_method options
  /\ payload rq = init_body options
  /\ (init_headers options = None ->
      headers rq !! "PRIVATE-TOKEN" = Some (client_token this)
      /\ headers rq !! "Content-Type" = Some "application/json")
  /\ (forall given key value,
        init_headers options = Some given -> given !! key = Some value ->
        headers rq !! key = Some value).
Proof.
  destruct (makeRequest_requests this endpoint options w) as (k & Hk & ->).
  rewrite drop_app_length. intros Hin. apply elem_of_replicate in Hin as [-> _].
  unfold client_request. simpl. repeat split.
  - rewrite H. simpl. by rewrite (left_id_L ∅ (∪)).
  - rewrite H. simpl. rewrite (left_id_L ∅ (∪)).
    by rewrite lookup_insert_ne, lookup_singleton_eq.
  - intros given key value -> Hgiven. simpl.
    by apply lookup_union_Some_l.
Qed.

Lemma makeRequest_headers_witness :
  Forall (fun rq => headers rq !! "PRIVATE-TOKEN" = Some "abc")
         (requests (snd (getProject sample_client world_reset_reset_2xx))).
Proof.
  apply Forall_forall. intros rq Hin.
  destruct (makeRequest_headers sample_client (project_endpoint sample_client)
              no_options world_reset_reset_2xx rq) as (_ & _ & _ & Hdefault & _).
  - exact Hin.
  - by apply Hdefault.
Defined.

(** X12. [createComment] has no guard: whatever the entity id, also 0 and
    NaN, every request of the call is the POST on the notes endpoint of
    the merge request or of the issue, as the entity type says, with the
    body in a JSON object; there is at least one and at most three. *)
Theorem createComment_routing (this : GitLabApiClient) (entityId : number)
    (body : string) (entityType : EntityType) (w : World) :
  exists k, (1 <= k <= 3)%nat
    /\ requests (snd (createComment this entityId body entityType w))
       = requests w ++ replicate k (create_note this entityType entityId body).
Proof.
  unfold createComment, create_note. cbv zeta.
  match goal with
  | |- context [makeRequest this ?endpoint ?options] =>
      destruct (makeRequest_requests this endpoint options w) as (k & Hk & Hreq);
      exists k; split; [done|];
      unfold bind; destruct (makeRequest this endpoint options w) as [[r|e] w1]
  end.
  - simpl in Hreq. unfold json. destruct (parsed r); simpl;
      rewrite Hreq; by destruct entityType.
  - simpl in Hreq. simpl. rewrite Hreq. by destruct entityType.
Qed.

(** ** Permission tiers *)

Lemma js_ge_mono v a b : b <= a -> js_ge v a = true -> js_ge v b = true.
Proof.
  unfold js_ge. destruct (ToNumber v); [done|].
  rewrite !Z.leb_le. lia.
Qed.

(** X13. The comment check never throws. It answers [true] only when the
    lookup succeeded and the access level it fetched is a number of at
    least 20, and [false] whenever the lookup fails or the permissions
    cannot be read; for a numeric access level the answer is exactly the
    comparison with 20. The tiers are nested: on the same network,
    whenever the write check answers [true], so does the comment check,
    and at the levels from 20 to 29 the comment check alone does. *)
Theorem permission_tiers_nested
    (client : GitLabApiClient) (context : GitLabPlatformContext) (w : World) :
  exists b w',
    checkCommentPermissions client context w = (Return b, w')
    /\ (b = true ->
        exists permissions level n,
          fst (getUserPermissions client w) = Return permissions
          /\ access_level_of permissions = Return level
          /\ ToNumber level = Num n /\ 20 <= n)
    /\ (forall e, fst (getUserPermissions client w) = Throw e -> b = false)
    /\ (forall permissions e,
          fst (getUserPermissions client w) = Return permissions ->
          access_level_of permissions = Throw e -> b = false)
    /\ (forall fields access n,
          fst (getUserPermissions client w) = Return (Some (JObj fields)) ->
          lookup_field "project_access" fields = Some (JObj access) ->
          lookup_field "access_level" access = Some (JNum n) ->
          (b = true <-> 20 <= n)
          /\ (fst (checkWritePermissions client context w) = Return true <-> 30 <= n))
    /\ (fst (checkWritePermissions client context w) = Return true -> b = true).
Proof.
  unfold checkWritePermissions, checkCommentPermissions, try_catch, bind, lift, ret,
    console_error.
  destruct (getUserPermissions client w) as [[permissions|e] w1]; simpl.
  - destruct (access_level_of permissions) as [level|e] eqn:Hlevel; simpl.
    + eexists _, _. split; [reflexivity|]. split; [|split; [|split; [|split]]].
      * unfold js_ge. destruct (ToNumber level) as [|n] eqn:Hn; [done|].
        intros Hge. exists permissions, level, n. repeat split; try done.
        by apply Z.leb_le.
      * discriminate.
      * intros p e [= <-]. by rewrite Hlevel.
      * intros fields access n [= ->] Hpa Hal. revert Hlevel.
        unfold access_level_of. simpl. rewrite Hpa. simpl. rewrite Hal. simpl.
        destruct (n =? 0) eqn:Hz; simpl; intros [= <-]; unfold js_ge; simpl.
        -- apply Z.eqb_eq in Hz. subst n. split; split; (done || lia).
        -- split; [by rewrite Z.leb_le|].
           split; [intros [= H]; by apply Z.leb_le | intros H; f_equal; by apply Z.leb_le].
      * intros [= H]. by apply (js_ge_mono level 30 20).
    + eexists _, _. split; [reflexivity|]. split; [|split; [|split; [|split]]];
        try done.
      intros fields access n [= ->] Hpa Hal. revert Hlevel.
      unfold access_level_of. simpl. by rewrite Hpa.
  - eexists _, _. split; [reflexivity|]. split; [|split; [|split; [|split]]]; done.
Qed.

Lemma permission_tiers_nested_witness :
  fst (checkCommentPermissions sample_client context_scenario1 world_reset_reset_2xx)
  = Return true
  /\ fst (checkCommentPermissions sample_client context_scenario1
            (fresh_world [respond 200 "{}" (Some (project_json 20))]))
     = Return true
  /\ fst (checkWritePermissions sample_client context_scenario1
            (fresh_world [respond 200 "{}" (Some (project_json 20))]))
     <> Return true
  /\ fst (checkCommentPermissions sample_client context_scenario1
            (fresh_world [respond 200 "{}" (Some (project_json 10))]))
     = Return false.
Proof.
  split; [|split; [|split]].
  - destruct (permission_tiers_nested sample_client context_scenario1
                world_reset_reset_2xx) as (b & w' & -> & _ & _ & _ & _ & H).
    simpl. f_equal. apply H. reflexivity.
  - destruct (permission_tiers_nested sample_client context_scenario1
                (fresh_world [respond 200 "{}" (Some (project_json 20))]))
      as (b & w' & -> & _ & _ & _ & H & _).
    simpl. f_equal. by apply (H _ _ 20 eq_refl eq_refl eq_refl).
  - destruct (permission_tiers_nested sample_client context_scenario1
                (fresh_world [respond 200 "{}" (Some (project_json 20))]))
      as (b & w' & _ & _ & _ & _ & H & _).
    intros Hwrite. apply (H _ _ 20 eq_refl eq_refl eq_refl) in Hwrite. lia.
  - destruct (permission_tiers_nested sample_client context_scenario1
                (fresh_world [respond 200 "{}" (Some (project_json 10))]))
      as (b & w' & -> & _ & _ & _ & H & _).
    simpl. destruct b; [|done].
    destruct (H _ _ 10 eq_refl eq_refl eq_refl) as [[Hlevel _] _].
    specialize (Hlevel eq_refl). lia.
Defined.

(** ** Branch permissions *)

Lemma find_by_name_Some branchName items branch :
  find_by_name branchName items = Return (Some branch) ->
  branch ∈ items
  /\ exists fields, branch = JObj fields
                    /\ lookup_field "name" fields = Some (JStr branchName).
Proof.
  induction items as [|b rest IH]; simpl; [discriminate|].
  assert (Hrest : find_by_name branchName rest = Return (Some branch) ->
                  branch ∈ b :: rest
                  /\ exists fields, branch = JObj fields
                        /\ lookup_field "name" fields = Some (JStr branchName)).
  { intros H. destruct (IH H) as [Hin Hfields]. split; [by right | done]. }
  destruct b as [| | | | |fields]; try done.
  destruct (lookup_field "name" fields) as [j|] eqn:Hname; [|done].
  destruct j as [| | |s| |]; try done.
  destruct (decide (s = branchName)) as [->|Hne]; [|done].
  intros [= <-]. split; [by left | eauto].
Qed.

Lemma find_branch_Some branches branchName branch :
  find_branch branches branchName = Return (Some branch) ->
  exists fields, branch = JObj fields.
Proof.
  destruct branches; try discriminate. simpl. intros H.
  destruct (find_by_name_Some _ _ _ H) as (_ & fields & -> & _). eauto.
Qed.

Ltac same_find Hfind :=
  try match goal with
      | H : find_branch _ _ = _ |- _ => rewrite Hfind in H; simplify_eq/=
      end.

(** X14. The branch check never throws and answers [false] when the list
    of branches cannot be read or searched. For a branch that is not in
    the list, and for a branch that is not protected, it answers [true]
    after the listing alone: the access level of the identity is not
    looked at. *)
Theorem checkBranchPermissions_without_lookup
    (client : GitLabApiClient) (branchName : string) (w : World) :
  exists b w',
    checkBranchPermissions client branchName w = (Return b, w')
    /\ (forall e, fst (getBranches client w) = Throw e -> b = false)
    /\ (forall branches e,
          fst (getBranches client w) = Return branches ->
          find_branch branches branchName = Throw e -> b = false)
    /\ (forall branches,
          fst (getBranches client w) = Return branches ->
          find_branch branches branchName = Return None ->
          b = true /\ w' = snd (getBranches client w))
    /\ (forall branches branch,
          fst (getBranches client w) = Return branches ->
          find_branch branches branchName = Return (Some branch) ->
          truthy_json (opt_prop (Some branch) "protected") = false ->
          b = true /\ w' = snd (getBranches client w)).
Proof.
  unfold checkBranchPermissions, try_catch, bind, lift, ret, console_error.
  destruct (getBranches client w) as [[branches|e] w1]; simpl.
  - destruct (find_branch branches branchName) as [[branch|]|e] eqn:Hfind; simpl.
    + destruct (find_branch_Some _ _ _ Hfind) as [fields ->]. simpl.
      destruct (truthy_json (lookup_field "protected" fields)) eqn:Hprot.
      * destruct (getUserPermissions client w1) as [[permissions|e] w2]; simpl;
          [destruct (access_level_of permissions); simpl|];
          eexists _, _; (split; [reflexivity|]);
          repeat split; intros; simplify_eq/=; same_find Hfind; congruence.
      * eexists _, _. split; [reflexivity|].
        repeat split; intros; simplify_eq/=; same_find Hfind; congruence.
    + eexists _, _. split; [reflexivity|].
      repeat split; intros; simplify_eq/=; same_find Hfind; congruence.
    + eexists _, _. split; [reflexivity|].
      repeat split; intros; simplify_eq/=; same_find Hfind; congruence.
  - eexists _, _. split; [reflexivity|].
    repeat split; intros; simplify_eq/=; same_find Hfind; congruence.
Qed.

(** X15. For a protected branch the check reads the permissions after the
    listing: it answers [true] only when that lookup succeeds with an
    access level of at least 40, and [false] when the lookup fails. *)
Theorem checkBranchPermissions_protected
    (client : GitLabApiClient) (branchName : string) (w w1 : World)
    (branches branch : Json) :
  getBranches client w = (Return branches, w1) ->
  find_branch branches branchName = Return (Some branch) ->
  truthy_json (opt_prop (Some branch) "protected") = true ->
  exists b,
    fst (checkBranchPermissions client branchName w) = Return b
    /\ (b = true ->
        exists permissions level n,
          fst (getUserPermissions client w1) = Return permissions
          /\ access_level_of permissions = Return level
          /\ ToNumber level = Num n /\ 40 <= n)
    /\ (forall e, fst (getUserPermissions client w1) = Throw e -> b = false)
    /\ (forall fields access n,
          fst (getUserPermissions client w1) = Return (Some (JObj fields)) ->
          lookup_field "project_access" fields = Some (JObj access) ->
          lookup_field "access_level" access = Some (JNum n) ->
          b = true <-> 40 <= n).
Proof.
  intros Hlist Hfind Hprot.
  unfold checkBranchPermissions, try_catch, bind, lift, ret, console_error.
  rewrite Hlist. simpl. rewrite Hfind. simpl.
  destruct (find_branch_Some _ _ _ Hfind) as [found ->]. simpl in *.
  rewrite Hprot. simpl.
  destruct (getUserPermissions client w1) as [[permissions|e] w2]; simpl.
  - destruct (access_level_of permissions) as [level|e] eqn:Hlevel; simpl.
    + eexists. split; [reflexivity|]. split; [|split].
      * unfold js_ge. destruct (ToNumber level) as [|n] eqn:Hn; [done|].
        intros Hge. exists permissions, level, n. repeat split; try done.
        by apply Z.leb_le.
      * discriminate.
      * intros fields access n [= ->] Hpa Hal. revert Hlevel.
        unfold access_level_of. simpl. rewrite Hpa. simpl. rewrite Hal. simpl.
        destruct (n =? 0) eqn:Hz; simpl; intros [= <-]; unfold js_ge; simpl;
          rewrite Z.leb_le; [|done].
        apply Z.eqb_eq in Hz. lia.
    + eexists. split; [reflexivity|]. split; [done|]. split; [done|].
      intros fields access n [= ->] Hpa Hal. revert Hlevel.
      unfold access_level_of. simpl. by rewrite Hpa.
  - eexists. split; [reflexivity|]. split; [done|]. split; [done|]. discriminate.
Qed.

Lemma checkBranchPermissions_protected_witness :
  fst (checkBranchPermissions sample_client "main"
         (fresh_world [respond 200 "[]" (Some branches_json);
                       respond 200 "{}" (Some (project_json 30))]))
  = Return false
  /\ fst (checkBranchPermissions sample_client "main"
            (fresh_world [respond 200 "[]" (Some branches_json);
                          respond 200 "{}" (Some (project_json 40))]))
     = Return true.
Proof.
  split.
  - destruct (checkBranchPermissions_protected sample_client "main"
                (fresh_world [respond 200 "[]" (Some branches_json);
                              respond 200 "{}" (Some (project_json 30))])
                _ _ _ eq_refl eq_refl eq_refl) as (b & -> & _ & _ & H).
    f_equal. destruct b; [|reflexivity].
    assert (40 <= 30) by (by apply (H _ _ 30 eq_refl eq_refl eq_refl)). lia.
  - destruct (checkBranchPermissions_protected sample_client "main"
                (fresh_world [respond 200 "[]" (Some branches_json);
                              respond 200 "{}" (Some (project_json 40))])
                _ _ _ eq_refl eq_refl eq_refl) as (b & -> & _ & _ & H).
    f_equal. apply (H _ _ 40 eq_refl eq_refl eq_refl). lia.
Defined.

(** ** Paths of the file server *)

Lemma startsWith_app a b : startsWith (a +:+ b) a = true.
Proof.
  induction a as [|c a IH]; simpl; [by destruct b|]. by rewrite decide_True.
Qed.

Lemma slice_app a b : slice (a +:+ b) (String.length a) = b.
Proof. induction a as [|c a IH]; simpl; [by destruct b | done]. Qed.

Lemma slice_after a c b : slice (a +:+ String c b) (String.length a + 1) = b.
Proof.
  induction a as [|x a IH]; simpl; [by destruct b | exact IH].
Qed.

(** X16. The path processing of [delete_files]. A path made of the working
    directory, a slash and a relative path comes back as that relative
    path; a relative path comes back unchanged; an absolute path that does
    not start with the working directory is refused under its name. The
    test is on the prefix alone: whatever character follows the working
    directory is cut off with it. *)
Theorem delete_path_cases (cwd : string) :
  startsWith cwd "/" = true ->
  (forall relative, delete_path cwd (cwd +:+ "/" +:+ relative) = Return relative)
  /\ (forall c rest, delete_path cwd (cwd +:+ String c rest) = Return rest)
  /\ (forall filePath, startsWith filePath "/" = false ->
        delete_path cwd filePath = Return filePath)
  /\ (forall filePath, startsWith filePath "/" = true ->
        startsWith filePath cwd = false ->
        delete_path cwd filePath = Throw (Error (outside_message filePath))).
Proof.
  intros Habs.
  assert (Hcut : forall c rest, delete_path cwd (cwd +:+ String c rest) = Return rest).
  { intros c rest. unfold delete_path.
    assert (startsWith (cwd +:+ String c rest) "/" = true) as ->.
    { destruct cwd as [|x cwd]; [done|]. simpl in *.
      destruct (decide ("/"%char = x)); [|done].
      by destruct (cwd +:+ String c rest). }
    by rewrite startsWith_app, slice_after. }
  split; [intros relative; apply Hcut|]. split; [exact Hcut|].
  unfold delete_path, outside_message. split.
  - by intros filePath ->.
  - by intros filePath -> ->.
Qed.

Lemma delete_path_cases_witness :
  delete_path "/builds/grp/demo" "/builds/grp/demo/src/old.ts" = Return "src/old.ts"
  /\ delete_path "/builds/grp/demo" "/builds/grp/demo2/src/old.ts" = Return "/src/old.ts"
  /\ delete_path "/builds/grp/demo" "/etc/passwd"
     = Throw (Error (outside_message "/etc/passwd")).
Proof.
  destruct (delete_path_cases "/builds/grp/demo" eq_refl) as (Hrel & Hcut & _ & Hout).
  split; [|split].
  - apply (Hrel "src/old.ts").
  - apply (Hcut "2"%char "/src/old.ts").
  - by apply Hout.
Defined.

Lemma delete_paths_outside cwd paths filePath :
  filePath ∈ paths ->
  startsWith filePath "/" = true -> startsWith filePath cwd = false ->
  exists refused,
    refused ∈ paths /\ delete_paths cwd paths = Throw (Error (outside_message refused)).
Proof.
  intros Hin Habs Hout. induction paths as [|p rest IH]; [by apply elem_of_nil in Hin|].
  simpl. destruct (delete_path cwd p) as [q|e] eqn:Hp.
  - apply elem_of_cons in Hin as [->|Hin].
    + unfold delete_path in Hp. by rewrite Habs, Hout in Hp.
    + destruct (IH Hin) as (refused & Hr & ->). exists refused. split; [by right | done].
  - exists p. split; [by left|]. unfold delete_path in Hp.
    destruct (startsWith p "/"); [|done]. by destruct (startsWith p cwd); simplify_eq.
Qed.

(** X17. [delete_files] checks the paths before anything else: when one of
    them is absolute and outside the working directory, the tool returns
    an error result that names a refused path, and the world is as it
    was: no request is sent, the branch is neither read nor created. *)
Theorem delete_files_rejects_outside_paths
    (cfg : FileServer.Config) (env : Env) (cwd : string) (paths : list string)
    (message filePath : string) (w : World) :
  filePath ∈ paths ->
  startsWith filePath "/" = true -> startsWith filePath cwd = false ->
  exists refused,
    refused ∈ paths
    /\ FileServer.delete_files cfg env cwd paths message w
       = (Return {| content := "Error: " +:+ outside_message refused;
                    error := Some (outside_message refused);
                    isError := true |}, w).
Proof.
  intros Hin Habs Hout.
  destruct (delete_paths_outside cwd paths filePath Hin Habs Hout) as (refused & Hr & Hthrow).
  exists refused. split; [done|].
  unfold FileServer.delete_files, tool, try_catch, bind, lift, ret.
  by rewrite Hthrow.
Qed.

Lemma delete_files_rejects_outside_paths_witness :
  exists refused,
    FileServer.delete_files sample_file_server ∅ "/builds/grp/demo"
      ["src/old.ts"; "/etc/passwd"] "remove" world_branch_exists
    = (Return {| content := "Error: " +:+ outside_message refused;
                 error := Some (outside_message refused);
                 isError := true |}, world_branch_exists).
Proof.
  destruct (delete_files_rejects_outside_paths sample_file_server ∅ "/builds/grp/demo"
              ["src/old.ts"; "/etc/passwd"] "remove" "/etc/passwd" world_branch_exists)
    as (refused & _ & H).
  - right. left.
  - reflexivity.
  - reflexivity.
  - by exists refused.
Defined.

(** ** Branch resolution: the failures *)

Lemma commit_id_world r w : snd (commit_id r w) = w.
Proof.
  unfold commit_id, bind, json, lift, ret, throw.
  destruct (parsed r) as [branchData|]; [|done]. cbv beta iota.
  destruct (prop (Some branchData) "commit") as [commit|]; [|done]. cbv beta iota.
  by destruct (prop commit "id").
Qed.

(** X18. When the read of the target branch is answered with a status
    that is neither ok nor 404, the helper throws an error with that
    status after this one request: it falls back to no base branch and
    creates nothing. *)
Theorem getOrCreateBranchRef_other_status
    (env : Env) (projectId branchName gitlabToken : string) (w : World)
    (r : Response) (rest : list FetchOutcome) :
  network w = Delivered r :: rest ->
  ok r = false -> status r <> 404 ->
  getOrCreateBranchRef env projectId branchName gitlabToken w
  = (Throw (Error ("Failed to get branch: " +:+ pretty (status r))),
     mkWorld rest (requests w ++ [read_branch env projectId branchName gitlabToken])
             (timers w) (stdout w) (stderr w) (files w)).
Proof.
  intros Hnet Hok Hstatus.
  unfold getOrCreateBranchRef. cbv zeta. unfold bind at 1.
  rewrite (fetch_delivered _ w r rest Hnet), Hok.
  apply Z.eqb_neq in Hstatus. by rewrite Hstatus.
Qed.

Lemma getOrCreateBranchRef_other_status_witness :
  fst (getOrCreateBranchRef ∅ "123" "claude/fix" "abc" world_forbidden)
  = Throw (Error "Failed to get branch: 403")
  /\ length (requests (snd (getOrCreateBranchRef ∅ "123" "claude/fix" "abc"
                              world_forbidden))) = 1%nat.
Proof.
  rewrite (getOrCreateBranchRef_other_status ∅ "123" "claude/fix" "abc" world_forbidden
             _ _ eq_refl eq_refl); [|discriminate].
  split; reflexivity.
Defined.

(** X19. When the target branch is missing, the base branch is read and
    the create call is answered with a status that is not ok, the helper
    throws an error with that status and the body of the answer, and
    prints nothing: a branch that another job created in between
    surfaces as this error. *)
Theorem getOrCreateBranchRef_create_refused
    (env : Env) (projectId branchName gitlabToken base : string) (w : World)
    (missing found refused : Response) (head : string) (rest : list FetchOutcome) :
  network w = Delivered missing :: Delivered found :: Delivered refused :: rest ->
  status missing = 404 -> first_base env base ->
  has_head found head -> ok refused = false ->
  getOrCreateBranchRef env projectId branchName gitlabToken w
  = (Throw (Error ("Failed to create branch: " +:+ pretty (status refused)
                   +:+ " - " +:+ body refused)),
     mkWorld rest
       (requests w ++ [read_branch env projectId branchName gitlabToken;
                       read_branch env projectId base gitlabToken;
                       create_branch env projectId branchName head gitlabToken])
       (timers w) (stdout w) (stderr w) (files w)).
Proof.
  intros Hnet H404 Hbase Hhead Hrefused.
  apply first_base_or_default in Hbase.
  pose proof (not_found_not_ok _ H404) as Hnok.
  unfold getOrCreateBranchRef. cbv zeta. rewrite Hbase.
  unfold bind at 1. rewrite (fetch_delivered _ w missing _ Hnet).
  rewrite Hnok, H404, Z.eqb_refl. cbn [negb]. cbv iota.
  unfold bind at 1. erewrite fetch_delivered by reflexivity.
  unfold bind at 1. rewrite (proj1 Hhead). cbn [negb]. cbv iota.
  rewrite (commit_id_has_head found head) by done.
  unfold bind at 1. erewrite fetch_delivered by reflexivity.
  rewrite Hrefused. cbn [negb]. cbv iota.
  unfold bind, text, throw, ret. simpl.
  by rewrite <- !app_assoc.
Qed.

Lemma getOrCreateBranchRef_create_refused_witness :
  fst (getOrCreateBranchRef ∅ "123" "claude/fix" "abc" world_conflict)
  = Throw (Error "Failed to create branch: 400 - Branch already exists").
Proof.
  assert (Hbase : first_base ∅ "main") by (right; split; [absent | reflexivity]).
  erewrite (getOrCreateBranchRef_create_refused ∅ "123" "claude/fix" "abc" "main"
              world_conflict _ _ _ "aaa111" _ eq_refl eq_refl Hbase);
    [reflexivity | prove_has_head | reflexivity].
Defined.

(** X20. The helper sends a request with a method of its own, that is one
    that is not a GET, only after the read of the target branch was
    answered with status 404: on a rejected read, on a branch that
    exists and on every other status nothing is created. *)
Theorem getOrCreateBranchRef_mutates_after_404_only
    (env : Env) (projectId branchName gitlabToken : string) (w : World) (rq : Request) :
  rq ∈ drop (length (requests w))
            (requests (snd (getOrCreateBranchRef env projectId branchName gitlabToken w))) ->
  method rq <> None ->
  exists r rest, network w = Delivered r :: rest /\ status r = 404.
Proof.
  unfold getOrCreateBranchRef. cbv zeta. unfold bind at 1. unfold fetch at 1.
  destruct (network w) as [|[r|e] rest] eqn:Hnet.
  - simpl. rewrite drop_app_length. intros Hin%list_elem_of_singleton Hm. by subst.
  - destruct (ok r).
    + rewrite commit_id_world. simpl. rewrite drop_app_length.
      intros Hin%list_elem_of_singleton Hm. by subst.
    + destruct (status r =? 404) eqn:Hs.
      * intros _ _. exists r, rest. split; [done|]. by apply Z.eqb_eq.
      * simpl. rewrite drop_app_length.
        intros Hin%list_elem_of_singleton Hm. by subst.
  - simpl. rewrite drop_app_length. intros Hin%list_elem_of_singleton Hm. by subst.
Qed.

Lemma getOrCreateBranchRef_mutates_after_404_only_witness :
  exists r rest, network world_branch_missing = Delivered r :: rest /\ status r = 404.
Proof.
  apply (getOrCreateBranchRef_mutates_after_404_only ∅ "123" "claude/fix" "abc"
           world_branch_missing (create_branch ∅ "123" "claude/fix" "aaa111" "abc")).
  - simpl. right. right. left.
  - discriminate.
Defined.

Ltac branch_cases :=
  repeat (simpl;
          match goal with
          | |- context [match ?l with [] => _ | _ :: _ => _ end] =>
              is_var l; destruct l as [|[?|?] ?]
          | |- context [ok ?r] => destruct (ok r)
          | |- context [status ?r =? 404] => destruct (status r =? 404)
          | |- context [parsed ?r] => destruct (parsed r)
          | |- context [prop ?v ?k] => destruct (prop v k)
          | |- context [lookup_field ?k ?f] => destruct (lookup_field k f)
          | |- context [match ?x with JNull => _ | JBool _ => _ | JNum _ => _
                                 | JStr _ => _ | JArr _ => _ | JObj _ => _ end] =>
              is_var x; destruct x
          end).

Ltac budget :=
  simpl; split; [by rewrite <- ?app_assoc|];
  split; [repeat constructor|]; split; [lia|];
  first [by left | right; by eexists].

(** X21. Whatever the forge answers, [getOrCreateBranchRef] sends between one
    and four reads (requests without a method, that is GETs) and after
    them at most one write, which is the POST that creates the target
    branch: no call sends a second write, and no read follows the
    write. *)
Theorem getOrCreateBranchRef_request_budget
    (env : Env) (projectId branchName gitlabToken : string) (w : World) :
  exists reads writes,
    requests (snd (getOrCreateBranchRef env projectId branchName gitlabToken w))
    = requests w ++ reads ++ writes
    /\ Forall (fun rq => method rq = None) reads
    /\ (1 <= length reads <= 4)%nat
    /\ (writes = []
        \/ exists ref, writes = [{|
             url := GITLAB_BASE_URL env +:+ "/projects/" +:+ projectId
                    +:+ "/repository/branches";
             method := Some "POST";
             headers := {[ "PRIVATE-TOKEN" := gitlabToken;
                           "Content-Type" := "application/json" ]};
             payload := Some (JSON_stringify
                                (object_literal [("branch", Some (JStr branchName));
                                                 ("ref", ref)])) |}]).
Proof.
  destruct w as [net reqs tms out err fls].
  unfold getOrCreateBranchRef, commit_id, bind, fetch, json, lift, ret, throw, text,
    console_log.
  branch_cases.
  all: try (eexists [_], []; budget).
  all: try (eexists [_; _], []; budget).
  all: try (eexists [_; _; _], []; budget).
  all: try (eexists [_; _; _; _], []; budget).
  all: try (eexists [_; _], [_]; budget).
  all: try (eexists [_; _; _; _], [_]; budget).
Qed.

(** ** The tools of the comment server *)

Lemma tool_outcome (work : Async string) (w : World) :
  tool work w
  = (Return match fst (work w) with
            | Return t => mkToolResult t None false
            | Throw e => tool_failure (message e)
            end,
     snd (work w)).
Proof.
  unfold tool, try_catch, bind, ret, tool_failure.
  by destruct (work w) as [[t|e] w'].
Qed.

Lemma bind_snd_pure {A B} (m : Async A) (k : A -> Async B) (w : World) :
  (forall a w1, snd (k a w1) = w1) -> snd (bind m k w) = snd (m w).
Proof.
  intros Hk. unfold bind. destruct (m w) as [[a|e] w1]; [apply Hk | done].
Qed.

Lemma json_then_pure {B} (r : Response) (f : Json -> Completion B)
    (g : B -> string) (w : World) :
  snd ((v <- json r ;; x <- lift (f v) ;; ret (g x)) w) = w.
Proof.
  unfold bind, json, lift, ret, throw.
  destruct (parsed r) as [v|]; [|done]. by destruct (f v).
Qed.

Lemma call_world (cfg : CommentServer.Config) (endpoint : string)
    (options : RequestInit) (what : string) (w : World) :
  snd (CommentServer.call cfg endpoint options what w)
  = after_request
      {| url := CommentServer.BASE_URL cfg +:+ endpoint;
         method := init_method options;
         headers := default ∅ (init_headers options)
                    ∪ {[ "PRIVATE-TOKEN" := CommentServer.GITLAB_TOKEN cfg;
                         "Content-Type" := "application/json" ]};
         payload := init_body options |} w.
Proof.
  unfold CommentServer.call, CommentServer.makeGitLabRequest, bind, fetch, text, ret,
    throw, after_request.
  destruct (network w) as [|[r|e] rest]; simpl; try done.
  by destruct (ok r).
Qed.

Lemma startsWith_cancel (a b c : string) :
  startsWith (a +:+ b) (a +:+ c) = startsWith b c.
Proof. induction a as [|x a IH]; simpl; [done|]. by rewrite decide_True. Qed.

Ltac one_request :=
  rewrite tool_outcome;
  rewrite bind_snd_pure by (intros; apply json_then_pure);
  rewrite call_world;
  eexists _, _; split; [reflexivity|]; simpl;
  split; [reflexivity|]; split; [reflexivity|];
  match goal with
  | cfg : CommentServer.Config |- _ =>
      by rewrite (startsWith_cancel (CommentServer.BASE_URL cfg)),
        (startsWith_cancel "/projects/"),
        (startsWith_cancel (CommentServer.PROJECT_ID cfg))
  end.

(** X22. No tool of the comment server throws, and each call sends exactly
    one request and does nothing else to the world: prints nothing, sets
    no timer, writes no file, and makes no second attempt whatever the
    answer was. The request carries the token of the server to an
    endpoint of its project on its forge; creating uses POST, updating
    PUT, and listing sends a read. *)
Theorem comment_tools_one_request (cfg : CommentServer.Config) (env : Env)
    (iid note_id : number) (comment : string) (per_page page : option number)
    (w : World) :
  answers_after_one_request cfg (Some "POST")
    (CommentServer.create_merge_request_comment cfg env iid comment) w
  /\ answers_after_one_request cfg (Some "PUT")
       (CommentServer.update_merge_request_comment cfg iid note_id comment) w
  /\ answers_after_one_request cfg (Some "POST")
       (CommentServer.create_issue_comment cfg env iid comment) w
  /\ answers_after_one_request cfg (Some "PUT")
       (CommentServer.update_issue_comment cfg iid note_id comment) w
  /\ answers_after_one_request cfg None
       (CommentServer.list_merge_request_comments cfg iid per_page page) w.
Proof.
  unfold answers_after_one_request, CommentServer.create_merge_request_comment,
    CommentServer.update_merge_request_comment, CommentServer.create_issue_comment,
    CommentServer.update_issue_comment, CommentServer.list_merge_request_comments.
  cbv zeta.
  split; [|split; [|split; [|split]]]; one_request.
Qed.

Lemma call_not_ok (cfg : CommentServer.Config) (endpoint : string)
    (options : RequestInit) (what : string) {A} (k : Response -> Async A)
    (w : World) (r : Response) (net : list FetchOutcome) :
  network w = Delivered r :: net -> ok r = false ->
  fst ((response <- CommentServer.call cfg endpoint options what ;; k response) w)
  = Throw (Error ("Failed to " +:+ what +:+ ": " +:+ pretty (status r)
                  +:+ " - " +:+ body r)).
Proof.
  intros Hnet Hok.
  unfold CommentServer.call, CommentServer.makeGitLabRequest, bind, fetch, text, ret,
    throw.
  by rewrite Hnet, Hok.
Qed.

(** X23. When the forge answers a tool of the comment server with a
    response that is not ok, the tool does not throw: its result is
    marked as an error and names the operation, the status and the body
    of the response, both in its text and in its [error] field. *)
Theorem comment_tools_report_refusal (cfg : CommentServer.Config) (env : Env)
    (iid note_id : number) (comment : string) (per_page page : option number)
    (w : World) (r : Response) (net : list FetchOutcome) :
  network w = Delivered r :: net ->
  ok r = false ->
  let refusal := pretty (status r) +:+ " - " +:+ body r in
  fst (CommentServer.create_merge_request_comment cfg env iid comment w)
  = Return (tool_failure ("Failed to create merge request comment: " +:+ refusal))
  /\ fst (CommentServer.update_merge_request_comment cfg iid note_id comment w)
     = Return (tool_failure ("Failed to update merge request comment: " +:+ refusal))
  /\ fst (CommentServer.create_issue_comment cfg env iid comment w)
     = Return (tool_failure ("Failed to create issue comment: " +:+ refusal))
  /\ fst (CommentServer.update_issue_comment cfg iid note_id comment w)
     = Return (tool_failure ("Failed to update issue comment: " +:+ refusal))
  /\ fst (CommentServer.list_merge_request_comments cfg iid per_page page w)
     = Return (tool_failure ("Failed to list merge request comments: " +:+ refusal)).
Proof.
  intros Hnet Hok refusal.
  unfold CommentServer.create_merge_request_comment,
    CommentServer.update_merge_request_comment, CommentServer.create_issue_comment,
    CommentServer.update_issue_comment, CommentServer.list_merge_request_comments.
  cbv zeta. rewrite !tool_outcome. cbn [fst].
  by rewrite !(call_not_ok _ _ _ _ _ _ _ _ Hnet Hok).
Qed.

Lemma comment_tools_report_refusal_witness :
  fst (CommentServer.create_merge_request_comment sample_comment_server env_scenario1
         (Num 789) "on it" world_forbidden)
  = Return (tool_failure "Failed to create merge request comment: 403 - 403 Forbidden").
Proof.
  destruct (comment_tools_report_refusal sample_comment_server env_scenario1
              (Num 789) (Num 1) "on it" None None world_forbidden _ _
              eq_refl eq_refl) as (Hcreate & _).
  exact Hcreate.
Defined.

Lemma user_notes_filter (items kept : list Json) :
  CommentServer.user_notes items = Return kept ->
  kept = List.filter (fun note => negb (is_system note)) items.
Proof.
  revert kept. induction items as [|note rest IH]; intros kept;
    cbn [CommentServer.user_notes List.filter].
  - by intros [= <-].
  - destruct (prop (Some note) "system") as [system|e] eqn:Hsystem; [|discriminate].
    destruct (CommentServer.user_notes rest) as [kept'|e]; [|discriminate].
    intros [= <-]. rewrite (IH kept' eq_refl).
    assert (is_system note = truthy_json system) as ->.
    { unfold is_system. destruct note; simpl in *; by simplify_eq. }
    by destruct (truthy_json system).
Qed.

Lemma simplified_note_fields (note o : Json) :
  CommentServer.simplified_note note = Return o ->
  opt_prop (Some o) "id" = opt_prop (Some note) "id"
  /\ opt_prop (Some o) "body" = opt_prop (Some note) "body"
  /\ opt_prop (Some o) "system" = None.
Proof.
  unfold CommentServer.simplified_note.
  destruct (prop _ "username") as [username|e]; [|discriminate].
  intros [= <-].
  destruct note as [| | | | |fields]; try (destruct username; by repeat split).
  cbn [opt_prop].
  generalize (lookup_field "id" fields) (lookup_field "body" fields)
    (lookup_field "created_at" fields) (lookup_field "updated_at" fields).
  intros [?|] [?|] [?|] [?|]; destruct username; by repeat split.
Qed.

(** X24. What [list_merge_request_comments] lists: when the notes of the
    answer can be simplified, the list holds, in the order of the answer,
    one entry for every note that is not marked as a system note and none
    for the others, each entry with the [id] and the [body] of its note
    and without the [system] mark. *)
Theorem list_comments_keeps_user_notes (items : list Json) (listed : Json) :
  CommentServer.simplify (JArr items) = Return listed ->
  exists entries,
    listed = JArr entries
    /\ Forall2 (fun note entry =>
                  opt_prop (Some entry) "id" = opt_prop (Some note) "id"
                  /\ opt_prop (Some entry) "body" = opt_prop (Some note) "body"
                  /\ opt_prop (Some entry) "system" = None)
               (List.filter (fun note => negb (is_system note)) items) entries.
Proof.
  unfold CommentServer.simplify.
  destruct (CommentServer.user_notes items) as [kept|e] eqn:Hkept; [|discriminate].
  apply user_notes_filter in Hkept. rewrite <- Hkept. clear Hkept.
  destruct (CommentServer.simplified_notes kept) as [entries|e] eqn:Hentries;
    [|discriminate].
  intros [= <-]. exists entries. split; [done|].
  revert entries Hentries. induction kept as [|note rest IH]; intros entries;
    cbn [CommentServer.simplified_notes].
  - intros [= <-]. constructor.
  - destruct (CommentServer.simplified_note note) as [first|e] eqn:Hfirst;
      [|discriminate].
    destruct (CommentServer.simplified_notes rest) as [others|e]; [|discriminate].
    intros [= <-]. constructor; [by apply simplified_note_fields | by apply IH].
Qed.

Lemma list_comments_keeps_user_notes_witness :
  exists entries,
    CommentServer.simplify (JArr sample_notes) = Return (JArr entries)
    /\ map (fun entry => opt_prop (Some entry) "id") entries
       = [Some (JNum 1); Some (JNum 3)].
Proof.
  destruct (list_comments_keeps_user_notes sample_notes
              (JArr [object_literal [("id", Some (JNum 1)); ("body", Some (JStr "please fix"));
                                     ("author", Some (JStr "alice"))];
                     object_literal [("id", Some (JNum 3)); ("body", Some (JStr "done"));
                                     ("author", Some (JStr "claude"))]])
              eq_refl) as (entries & [= <-] & _).
  eexists. split; reflexivity.
Defined.
(** ** The entrypoint: what a run leaves behind *)

Lemma prepare_writes_variables (env : Env) (w w' : World) :
  prepare env w = (Return tt, w') ->
  exists context containsTrigger,
    parseContext env = Return context
    /\ files w' !! "prepare.env" = Some (envVars_of context containsTrigger).
Proof.
  unfold prepare. intros H.
  apply bind_Return_inv in H as (_ & w1 & _ & H).
  apply bind_Return_inv in H as (_ & w2 & _ & H).
  apply bind_Return_inv in H as (context & w3 & Hcontext & H).
  apply lift_Return_inv in Hcontext.
  apply bind_Return_inv in H as (_ & w4 & _ & H).
  apply bind_Return_inv in H as (gitlabToken & w5 & _ & H).
  apply bind_Return_inv in H as (_ & w6 & _ & H).
  apply bind_Return_inv in H as (apiClient & w7 & _ & H).
  apply bind_Return_inv in H as (hasPermissions & w8 & _ & H).
  apply bind_Return_inv in H as (_ & w9 & _ & H).
  apply bind_Return_inv in H as (_ & w10 & _ & H).
  apply bind_Return_inv in H as (containsTrigger & w11 & _ & H).
  exists context, containsTrigger. split; [done|].
  unfold bind, writeFile, console_log in H.
  destruct containsTrigger; simpl in H; injection H as <-; simpl;
    apply lookup_insert_eq.
Qed.

(** X25. Every run of the entrypoint leaves its verdict in [prepare.env],
    and a later stage can tell the two outcomes apart by the first entry
    of the file. A run that exits with status 0 has written the variables
    of the context it parsed, the first of which is CONTAINS_TRIGGER. A
    run that fails exits with status 1, its file starts with
    PREPARE_ERROR followed by the message of the error and says
    CONTAINS_TRIGGER=false, and the last line of standard error carries
    the same message. There is no third outcome. *)
Theorem run_leaves_verdict (env : Env) (w : World) :
  exists content,
    files (snd (run env w)) !! "prepare.env" = Some content
    /\ ((fst (run env w) = 0
         /\ startsWith content "CONTAINS_TRIGGER=" = true
         /\ exists context containsTrigger,
              parseContext env = Return context
              /\ content = envVars_of context containsTrigger)
        \/ (fst (run env w) = 1
            /\ startsWith content "PREPARE_ERROR=" = true
            /\ exists errorMessage,
                 content = error_report errorMessage
                 /\ last (stderr (snd (run env w)))
                    = Some ("准备阶段失败: " +:+ errorMessage))).
Proof.
  unfold run.
  destruct (prepare env w) as [[[]|e] w'] eqn:Hprepare.
  - apply prepare_writes_variables in Hprepare
      as (context & containsTrigger & Hcontext & Hfile).
    exists (envVars_of context containsTrigger). simpl.
    split; [done|]. left. split; [done|]. split; [|eauto].
    destruct containsTrigger; reflexivity.
  - exists (error_report (message e)). simpl.
    split; [apply lookup_insert_eq|]. right. split; [done|].
    split; [apply (startsWith_app "PREPARE_ERROR=")|].
    exists (message e). split; [done|]. apply last_snoc.
Qed.

Lemma prepare_fails_offline (env : Env) (w : World) :
  isCurrentPlatform env = false
  \/ (exists e, parseContext env = Throw e)
  \/ (exists e, fst (getGitLabToken env w) = Throw e) ->
  exists e w',
    prepare env w = (Throw e, w')
    /\ network w' = network w /\ requests w' = requests w /\ timers w' = timers w
    /\ (isCurrentPlatform env = false -> e = Error "当前不在 GitLab CI/CD 环境中运行").
Proof.
  intros H. unfold prepare.
  unfold bind at 1. cbn [console_log].
  unfold bind at 1.
  destruct (isCurrentPlatform env) eqn:Hplatform; cbn [negb throw ret].
  2: { eexists _, _. split; [reflexivity|]. by simpl. }
  unfold bind at 1. unfold lift at 1.
  destruct (parseContext env) as [context|e] eqn:Hcontext.
  2: { eexists _, _. split; [reflexivity|]. by simpl. }
  destruct H as [H | [[e H] | [e H]]]; try discriminate.
  unfold bind at 1. cbn [console_log].
  unfold bind at 1. unfold getAuthToken. unfold bind at 1.
  match goal with
  | |- context [getGitLabToken env ?w1] =>
      rewrite (getGitLabToken_any_world env w w1) in H;
      destruct (getGitLabToken_world env w1) as (lines & Hw & Hlines);
      destruct (getGitLabToken env w1) as [[t|e'] w2]
  end; [discriminate|].
  simpl in H, Hw. subst w2.
  eexists _, _. split; [reflexivity|]. by simpl.
Qed.

(** X26. A run that cannot get as far as a token never touches the
    network. Outside a GitLab environment, with a context that does not
    parse, or with no token source, the entrypoint exits with status 1
    without having sent a request, consumed an answer or set a timer.
    Outside a GitLab environment that is the error reported, whatever
    else is missing. *)
Theorem run_fails_offline (env : Env) (w : World) :
  isCurrentPlatform env = false
  \/ (exists e, parseContext env = Throw e)
  \/ (exists e, fst (getGitLabToken env w) = Throw e) ->
  fst (run env w) = 1
  /\ network (snd (run env w)) = network w
  /\ requests (snd (run env w)) = requests w
  /\ timers (snd (run env w)) = timers w
  /\ (isCurrentPlatform env = false ->
      files (snd (run env w)) !! "prepare.env"
      = Some (error_report "当前不在 GitLab CI/CD 环境中运行")).
Proof.
  intros H.
  destruct (prepare_fails_offline env w H)
    as (e & w' & Hprepare & Hnet & Hreqs & Htimers & He).
  unfold run. rewrite Hprepare. simpl.
  repeat split; try done.
  intros Hplatform. rewrite (He Hplatform). apply lookup_insert_eq.
Qed.

Lemma run_fails_offline_witness :
  fst (run env_github world_prepare) = 1
  /\ requests (snd (run env_github world_prepare)) = [].
Proof.
  destruct (run_fails_offline env_github world_prepare (or_introl eq_refl))
    as (Hexit & _ & Hrequests & _).
  by split.
Defined.



(** ** The paths of the [commit_files] tool *)

(** X28. The path processing of [commit_files] cuts one leading slash and
    then reads a path that still starts with a slash as it stands. So a
    relative path, and an absolute path with one leading slash, are both
    read from the path joined to the directory of the repository, while
    a path with two leading slashes is read from the absolute path that
    remains, with no regard to that directory, and is committed under
    that name. *)
Theorem commit_files_path_cases (path_join : string -> string -> string)
    (REPO_DIR : string) :
  (forall filePath, startsWith filePath "/" = false ->
     commit_path filePath = filePath
     /\ fullPath path_join REPO_DIR (commit_path filePath) = path_join REPO_DIR filePath)
  /\ (forall filePath, startsWith filePath "/" = false ->
        commit_path ("/" +:+ filePath) = filePath
        /\ fullPath path_join REPO_DIR (commit_path ("/" +:+ filePath))
           = path_join REPO_DIR filePath)
  /\ (forall filePath, startsWith filePath "/" = true ->
        commit_path ("/" +:+ filePath) = filePath
        /\ fullPath path_join REPO_DIR (commit_path ("/" +:+ filePath)) = filePath).
Proof.
  assert (Hcut : forall filePath, commit_path ("/" +:+ filePath) = filePath).
  { intros filePath. unfold commit_path. simpl. by destruct filePath. }
  unfold fullPath. split; [|split]; intros filePath Hslash; rewrite ?Hcut.
  - assert (commit_path filePath = filePath) as ->
      by (unfold commit_path; by rewrite Hslash).
    by rewrite Hslash.
  - by rewrite Hslash.
  - by rewrite Hslash.
Qed.

Lemma to_lower_idemp (c : ascii) : to_lower (to_lower c) = to_lower c.
Proof. by destruct c as [[] [] [] [] [] [] [] []]. Qed.

Lemma to_lower_dot (c : ascii) : to_lower c = "."%char -> c = "."%char.
Proof. destruct c as [[] [] [] [] [] [] [] []]; done. Qed.

Lemma lower_idemp (s : string) : lower (lower s) = lower s.
Proof. induction s as [|c s IH]; simpl; [done|]. by rewrite to_lower_idemp, IH. Qed.

Lemma lower_app (a b : string) : lower (a +:+ b) = lower a +:+ lower b.
Proof. induction a as [|c a IH]; simpl; [done|]. by rewrite IH. Qed.

Lemma endsWith_refl (s : string) : endsWith s s = true.
Proof.
  destruct s; cbn [endsWith]; apply orb_true_iff; left; by apply bool_decide_eq_true.
Qed.

Lemma endsWith_app (a b : string) : endsWith (a +:+ b) b = true.
Proof.
  induction a as [|c a IH]; [apply endsWith_refl|].
  change (String c a +:+ b) with (String c (a +:+ b)). cbn [endsWith].
  rewrite IH. apply orb_true_r.
Qed.

Lemma startsWith_empty (s : string) : startsWith s "" = true.
Proof. by destruct s. Qed.

Lemma startsWith_refl (s : string) : startsWith s s = true.
Proof. induction s as [|c s IH]; simpl; [done|]. by rewrite decide_True. Qed.

Lemma includes_refl (s : string) : includes s s = true.
Proof. destruct s; simpl; [done|]. by rewrite decide_True, startsWith_refl. Qed.

Lemma endsWith_includes (s t : string) : endsWith s t = true -> includes s t = true.
Proof.
  induction s as [|c s IH]; simpl.
  - rewrite orb_false_r, bool_decide_eq_true. intros <-. done.
  - intros [Heq | Hrest]%orb_true_iff.
    + apply bool_decide_eq_true in Heq as <-.
      change (includes (String c s) (String c s) = true). apply includes_refl.
    + rewrite (IH Hrest). apply orb_true_r.
Qed.

Lemma includes_lower_dot (s ext : string) :
  includes (lower s) ("." +:+ ext) = true -> includes s "." = true.
Proof.
  induction s as [|c s IH]; simpl; [done|].
  intros [Hhere | Hrest]%orb_true_iff.
  - destruct (decide ("."%char = to_lower c)) as [Hdot|]; [|done].
    symmetry in Hdot. apply to_lower_dot in Hdot as ->.
    by rewrite decide_True, startsWith_empty.
  - rewrite (IH Hrest). apply orb_true_r.
Qed.

Lemma endsWith_inv (s t : string) :
  endsWith s t = true -> exists stem, s = stem +:+ t.
Proof.
  induction s as [|c s IH]; cbn [endsWith].
  - rewrite orb_false_r, bool_decide_eq_true. intros <-. by exists "".
  - intros [Heq | Hrest]%orb_true_iff.
    + apply bool_decide_eq_true in Heq as <-. by exists "".
    + destruct (IH Hrest) as (stem & ->). by exists (String c stem).
Qed.

Lemma lower_app_inv (p a b : string) :
  lower p = a +:+ b ->
  exists a' b', p = a' +:+ b' /\ lower a' = a /\ lower b' = b.
Proof.
  revert p. induction a as [|x a IH]; intros p Hp.
  - by exists "", p.
  - destruct p as [|c p]; [discriminate|].
    simpl in Hp. injection Hp as Hc Hp.
    destruct (IH p Hp) as (a' & b' & -> & Ha & Hb).
    exists (String c a'), b'. simpl. by rewrite Hc, Ha.
Qed.

(** X29. Which files [commit_files] sends as base64: exactly the paths
    that end in a dot followed by one of the sixteen listed extensions,
    written in any mix of upper and lower case, after any stem. So the
    test looks at the end of the path only, changing the case of a path
    never changes the answer, and a path without a dot is never
    binary. *)
Theorem isBinaryFile_by_extension :
  (forall filePath,
     isBinaryFile filePath = true
     <-> exists stem ext,
           filePath = stem +:+ "." +:+ ext /\ lower ext ∈ binary_extensions)
  /\ (forall filePath, isBinaryFile (lower filePath) = isBinaryFile filePath)
  /\ (forall filePath, includes filePath "." = false -> isBinaryFile filePath = false).
Proof.
  split; [|split].
  - intros filePath. unfold isBinaryFile. rewrite existsb_exists. split.
    + intros (ext0 & Hext0 & Hends).
      apply endsWith_inv in Hends as (stem0 & Hlower).
      apply lower_app_inv in Hlower as (stem & rest & -> & _ & Hrest).
      destruct rest as [|c ext]; [discriminate|].
      simpl in Hrest. injection Hrest as Hc Hext.
      apply to_lower_dot in Hc as ->.
      exists stem, ext. split; [done|]. rewrite Hext. by apply list_elem_of_In.
    + intros (stem & ext & -> & Hext).
      exists (lower ext). split; [by apply list_elem_of_In|].
      rewrite lower_app.
      change (lower ("." +:+ ext)) with ("." +:+ lower ext).
      apply endsWith_app.
  - intros filePath. unfold isBinaryFile. by rewrite lower_idemp.
  - intros filePath Hdot. unfold isBinaryFile.
    destruct (existsb _ _) eqn:Hany; [|done].
    apply existsb_exists in Hany as (ext & _ & Hends).
    apply endsWith_includes, includes_lower_dot in Hends. congruence.
Qed.

(** The answers for some names: the extension decides, not a dot or an
    extension inside the name. *)
Lemma isBinaryFile_by_extension_witness :
  isBinaryFile "assets/Logo.PNG" = true
  /\ isBinaryFile "README.md" = false
  /\ isBinaryFile "x.png.txt" = false
  /\ isBinaryFile "Makefile" = false.
Proof.
  destruct isBinaryFile_by_extension as (Hiff & _ & Hdot).
  split; [|split; [|split]].
  - apply Hiff. exists "assets/Logo", "PNG". split; [reflexivity|].
    apply list_elem_of_In. simpl. tauto.
  - reflexivity.
  - reflexivity.
  - by apply Hdot.
Defined.

(** ** Start-up of the two servers *)

(** X30. What the two servers need to start. The file server starts
    exactly when GITLAB_PROJECT_ID, BRANCH_NAME and GITLAB_TOKEN are all
    present, the comment server exactly when GITLAB_PROJECT_ID and
    GITLAB_TOKEN are, so wherever the file server starts the comment
    server starts too. A server that starts has printed nothing and holds
    the values of these variables; a server that does not start has
    printed one line on standard error and done nothing else. *)
Theorem servers_start_when_configured (env : Env) (w : World) :
  (is_Some (fst (FileServer.load env w))
   <-> present (env !! "GITLAB_PROJECT_ID") /\ present (env !! "BRANCH_NAME")
       /\ present (env !! "GITLAB_TOKEN"))
  /\ (is_Some (fst (CommentServer.load env w))
      <-> present (env !! "GITLAB_PROJECT_ID") /\ present (env !! "GITLAB_TOKEN"))
  /\ (forall cfg, fst (FileServer.load env w) = Some cfg ->
        snd (FileServer.load env w) = w
        /\ env !! "GITLAB_PROJECT_ID" = Some (FileServer.PROJECT_ID cfg)
        /\ env !! "BRANCH_NAME" = Some (FileServer.BRANCH_NAME cfg)
        /\ env !! "GITLAB_TOKEN" = Some (FileServer.GITLAB_TOKEN cfg))
  /\ (forall cfg, fst (CommentServer.load env w) = Some cfg ->
        snd (CommentServer.load env w) = w
        /\ env !! "GITLAB_PROJECT_ID" = Some (CommentServer.PROJECT_ID cfg)
        /\ env !! "GITLAB_TOKEN" = Some (CommentServer.GITLAB_TOKEN cfg)
        /\ CommentServer.BASE_URL cfg = GITLAB_BASE_URL env)
  /\ (fst (FileServer.load env w) = None ->
      exists line,
        snd (FileServer.load env w)
        = mkWorld (network w) (requests w) (timers w) (stdout w)
                  (stderr w ++ [line]) (files w))
  /\ (fst (CommentServer.load env w) = None ->
      exists line,
        snd (CommentServer.load env w)
        = mkWorld (network w) (requests w) (timers w) (stdout w)
                  (stderr w ++ [line]) (files w)).
Proof.
  unfold FileServer.load, CommentServer.load, GITLAB_BASE_URL.
  rewrite !present_truthy.
  destruct (truthy (env !! "GITLAB_PROJECT_ID")) as [project|] eqn:Hproject;
    destruct (truthy (env !! "BRANCH_NAME")) as [branch|] eqn:Hbranch;
    destruct (truthy (env !! "GITLAB_TOKEN")) as [token|] eqn:Htoken;
    cbn [fst snd];
    repeat match goal with
           | H : truthy _ = Some _ |- _ => apply truthy_Some in H as [H ?]
           end.
  all: unfold is_Some.
  all: repeat match goal with
              | |- _ /\ _ => split
              | |- _ <-> _ => split
              | |- forall _, _ => intro
              | H : _ /\ _ |- _ => destruct H
              | H : exists _, _ |- _ => destruct H
              end; simplify_eq/=; eauto.
Qed.
